(** * Poster generator: the stage-orchestration engine

    A shallow embedding of the orchestration code of the poster generator
    (state.py, main.py, agents/planning_agent.py,
    agents/text_generation_agent.py, agents/editor_agent.py,
    agents/text_validation_agent.py, verify_setup.py) and the
    properties of its retry loops, candidate tracking, response parsing and
    terminal stage.

    Modelling conventions.
    - The shared [AgentState] is a Python dict mutated in place by every
      stage: it is a [gmap string pyval], threaded through a state and
      exception monad together with the file system.
    - A raised exception keeps the store as it was when it was raised, the
      way an in-place mutation survives a Python [raise].
    - Calls to external services (chat completions, the diffusers pipeline)
      are collaborators: what they return or raise is an argument of the
      stage, the literal prompt text is content and is not modelled, only
      the state values interpolated into it are (their lookups can raise).
      A chat completion returns a message whose content is a [str] or
      [None]; the stages use it unchecked, so a [None] content is a reply
      like any other.
    - Constructing the API client, [print] and [config.log_message] do not
      touch the state; they are left out.
    - The workflow library is modelled by what [build_graph] asks of it:
      named nodes, plain edges, conditional edges decided by a router, and
      a run that executes one stage at a time from the entry point until an
      edge leads to [END] or a stage raises.
    - A Python [str] is a [string] of 8-bit characters; [upper] maps the
      letters a-z and leaves every other character, [strip] removes the
      ASCII white space. *)

From Stdlib Require Import ZArith Lia Ascii String List Bool.
From stdpp Require Import base option list gmap strings pretty.

Local Open Scope Z_scope.

(** ** Python values and exceptions *)

Module Py.

(** The values the state dict holds: [None], [bool], [int] (unbounded),
    [str], and opaque objects such as the loaded pipeline, known by a
    handle. *)
Inductive pyval : Type :=
| PNone
| PBool (b : bool)
| PInt (n : Z)
| PStr (s : string)
| PObj (h : nat).

#[global] Instance pyval_eq_dec : EqDecision pyval.
Proof. solve_decision. Defined.

(** The exceptions stage code can raise; [CollaboratorError] stands for
    whatever an external service raises. *)
Inductive exn : Type :=
| KeyError (k : string)
| TypeError
| IndexError
| FileNotFoundError (p : string)
| SameFileError
| CollaboratorError (msg : string)
| AttributeError (msg : string).

(** [str(e)] *)
Definition str_exn (e : exn) : string :=
  match e with
  | KeyError k => k
  | TypeError => "TypeError"
  | IndexError => "list index out of range"
  | FileNotFoundError p => p
  | SameFileError => "SameFileError"
  | CollaboratorError msg => msg
  | AttributeError msg => msg
  end.

(** Truth value testing: [None], [False], [0] and [""] are false. *)
Definition truthy (v : pyval) : bool :=
  match v with
  | PNone => false
  | PBool b => b
  | PInt n => negb (n =? 0)
  | PStr s => negb (String.eqb s "")
  | PObj _ => true
  end.

(** [v is None] *)
Definition is_none (v : pyval) : bool :=
  match v with PNone => true | _ => false end.

(** [a or b] *)
Definition py_or (a b : pyval) : pyval := if truthy a then a else b.

(** The integer a value stands for in arithmetic and comparisons ([bool] is a
    subclass of [int]); [None] for the other types, on which [+] and [>=]
    with an [int] raise [TypeError]. *)
Definition as_int (v : pyval) : option Z :=
  match v with
  | PInt n => Some n
  | PBool b => Some (if b then 1 else 0)
  | _ => None
  end.

(** ** The store and the monad of stage code *)

Record World : Type := mkWorld
  { state : gmap string pyval;     (* the AgentState dict *)
    files : gmap string string }.  (* the file system: path to content *)

Inductive outcome (A : Type) : Type :=
| Ok (a : A) (w : World)
| Raise (e : exn) (w : World).
Arguments Ok {A} a w.
Arguments Raise {A} e w.

Definition M (A : Type) : Type := World -> outcome A.

Definition ret {A} (a : A) : M A := fun w => Ok a w.

Definition bind {A B} (m : M A) (k : A -> M B) : M B :=
  fun w => match m w with
           | Ok a w' => k a w'
           | Raise e w' => Raise e w'
           end.

Definition raise {A} (e : exn) : M A := fun w => Raise e w.

(** [try: body except Exception as e: handler(e)] *)
Definition try_except {A} (body : M A) (handler : exn -> M A) : M A :=
  fun w => match body w with
           | Ok a w' => Ok a w'
           | Raise e w' => handler e w'
           end.

(** [if c: body] for a statement *)
Definition when (c : bool) (body : M unit) : M unit :=
  if c then body else ret tt.

(** [state[k]] *)
Definition get_item (k : string) : M pyval :=
  fun w => match state w !! k with
           | Some v => Ok v w
           | None => Raise (KeyError k) w
           end.

(** [state.get(k, d)] *)
Definition get_default (k : string) (d : pyval) : M pyval :=
  fun w => Ok (default d (state w !! k)) w.

(** [state.get(k)] *)
Definition get (k : string) : M pyval := get_default k PNone.

(** [k in state] *)
Definition contains_key (k : string) : M bool :=
  fun w => Ok (bool_decide (is_Some (state w !! k))) w.

(** [state[k] = v] *)
Definition set_item (k : string) (v : pyval) : M unit :=
  fun w => Ok tt (mkWorld (<[k := v]> (state w)) (files w)).

(** [os.path.exists(p)] *)
Definition path_exists (p : string) : M bool :=
  fun w => Ok (bool_decide (is_Some (files w !! p))) w.

(** [with open(p, "r") as f: f.read()] *)
Definition read_file (p : string) : M string :=
  fun w => match files w !! p with
           | Some c => Ok c w
           | None => Raise (FileNotFoundError p) w
           end.

(** [with open(p, "w") as f: f.write(c)]; the directory was made just
    before by [os.makedirs(..., exist_ok=True)]. *)
Definition write_file (p : string) (c : string) : M unit :=
  fun w => Ok tt (mkWorld (state w) (<[p := c]> (files w))).

(** [shutil.copy(src, dst)] *)
Definition copy_file (src : pyval) (dst : string) : M unit :=
  match src with
  | PStr p =>
      fun w => match files w !! p with
               | None => Raise (FileNotFoundError p) w
               | Some c =>
                   if String.eqb p dst then Raise SameFileError w
                   else Ok tt (mkWorld (state w) (<[dst := c]> (files w)))
               end
  | _ => raise TypeError
  end.

(** What a collaborator call does: it returns a value or raises. *)
Definition collaborator {A} (reply : exn + A) : M A :=
  match reply with
  | inl e => raise e
  | inr a => ret a
  end.

End Py.
Export Py.

#[global] Instance M_ret : MRet M := @ret.
#[global] Instance M_bind : MBind M := fun A B k m => bind m k.

(** ** String operations of the Python standard library *)

Module Str.

(** [c.upper()] for one character *)
Definition upper_ascii (c : ascii) : ascii :=
  let n := nat_of_ascii c in
  if ((97 <=? n) && (n <=? 122))%nat then ascii_of_nat (n - 32) else c.

(** [s.upper()] *)
Fixpoint upper (s : string) : string :=
  match s with
  | EmptyString => EmptyString
  | String c s' => String (upper_ascii c) (upper s')
  end.

(** [s.startswith(p)] *)
Fixpoint startswith (p s : string) : bool :=
  match p, s with
  | EmptyString, _ => true
  | String a p', String b s' => if Ascii.eqb a b then startswith p' s' else false
  | String _ _, EmptyString => false
  end.

(** [sub in s] *)
Fixpoint contains (sub s : string) : bool :=
  startswith sub s ||
  match s with
  | EmptyString => false
  | String _ s' => contains sub s'
  end.

(** [s.split(sep)] for a separator that is not empty: the pieces between
    the occurrences of [sep], found from the left without overlap. [skip]
    counts the characters of a separator still to pass over, [piece] is the
    current piece, last character first. *)
Fixpoint split_go (sep : string) (skip : nat) (piece : string) (s : string)
  : list string :=
  match s with
  | EmptyString => [String.rev piece]
  | String c s' =>
      match skip with
      | S k => split_go sep k piece s'
      | O =>
          if startswith sep s
          then String.rev piece :: split_go sep (String.length sep - 1) EmptyString s'
          else split_go sep O (String c piece) s'
      end
  end.

Definition split (sep s : string) : list string := split_go sep O EmptyString s.

(** [c.isspace()] on the 7-bit characters *)
Definition isspace (c : ascii) : bool :=
  let n := nat_of_ascii c in
  (((9 <=? n) && (n <=? 13)) || ((28 <=? n) && (n <=? 32)))%nat.

Fixpoint lstrip (s : string) : string :=
  match s with
  | EmptyString => EmptyString
  | String c s' => if isspace c then lstrip s' else s
  end.

Fixpoint rstrip (s : string) : string :=
  match s with
  | EmptyString => EmptyString
  | String c s' =>
      match rstrip s' with
      | EmptyString => if isspace c then EmptyString else String c EmptyString
      | r => String c r
      end
  end.

(** [s.strip()] *)
Definition strip (s : string) : string := rstrip (lstrip s).

(** [os.path.join(a, b)] on POSIX *)
Definition endswith_slash (a : string) : bool :=
  match String.rev a with
  | String c _ => Ascii.eqb c "/"
  | EmptyString => false
  end.

Definition path_join (a b : string) : string :=
  if startswith "/" b then b
  else if String.eqb a "" || endswith_slash a then a +:+ b
  else a +:+ "/" +:+ b.

(** [str(v)], as an f-string formats a value *)
Definition str (v : pyval) : string :=
  match v with
  | PNone => "None"
  | PBool true => "True"
  | PBool false => "False"
  | PInt n => pretty n
  | PStr s => s
  | PObj _ => "<object>"
  end.

End Str.

(** ** config.py

    The configuration module is not part of the sources at hand; the
    constants the stages read from it are the fields of this record. *)

Record Config : Type := mkConfig
  { MAX_TEXT_ATTEMPTS : Z;
    MAX_IMAGE_ATTEMPTS : Z;
    MAX_TEXT_ADDING_ATTEMPTS : Z;
    INPUT_TEXT_PATH : string;
    INPUT_IMAGE_PATH : string;
    OUTPUT_DIR : string;
    INTERMEDIATE_DIR : string }.

(** ** Python operators on state values *)

(** [v + k] for an [int] literal [k] *)
Definition py_add_int (v : pyval) (k : Z) : M pyval :=
  match as_int v with
  | Some n => mret (PInt (n + k))
  | None => raise TypeError
  end.

(** [v >= k], [v > k] and [v < k] for an [int] [k] *)
Definition py_ge_int (v : pyval) (k : Z) : M bool :=
  match as_int v with
  | Some n => mret (k <=? n)
  | None => raise TypeError
  end.

Definition py_gt_int (v : pyval) (k : Z) : M bool :=
  match as_int v with
  | Some n => mret (k <? n)
  | None => raise TypeError
  end.

Definition py_lt_int (v : pyval) (k : Z) : M bool :=
  match as_int v with
  | Some n => mret (n <? k)
  | None => raise TypeError
  end.

(** [v == s] for a [str] literal [s] *)
Definition py_eq_str (v : pyval) (s : string) : bool :=
  match v with
  | PStr t => String.eqb t s
  | _ => false
  end.

(** [l[i]] on a list *)
Definition py_index (l : list string) (i : nat) : M string :=
  match l !! i with
  | Some x => mret x
  | None => raise IndexError
  end.

(** [client.chat.completions.create(...)] followed by
    [response.choices[0].message.content]: the request carries the state
    values interpolated into the prompt, the reply is the collaborator's.
    The content of a message is a [str] or [None], and the stages use it
    unchecked. *)
Definition chat_completion (prompt : list pyval) (reply : exn + option string)
  : M (option string) :=
  collaborator reply.

(** The content as a value: what an assignment stores and what
    [f.write] is given. *)
Definition content_value (content : option string) : pyval :=
  match content with
  | Some s => PStr s
  | None => PNone
  end.

(** The receiver of [content.upper()], the first method the stages call on
    a content: a [str], or the attribute lookup raises. *)
Definition content_str (content : option string) : M string :=
  match content with
  | Some s => mret s
  | None => raise (AttributeError "'NoneType' object has no attribute 'upper'")
  end.

(** [with open(p, "w") as f: f.write(v)]: opening creates the file, writing
    needs a [str]. *)
Definition write_value (p : string) (v : pyval) : M unit :=
  match v with
  | PStr s => write_file p s
  | _ => write_file p "";; raise TypeError
  end.

(** [encode_image(image_path)]: the bytes of the file, which only travel in
    the request (their base64 armour is not modelled). *)
Definition encode_image (image_path : pyval) : M string :=
  match image_path with
  | PStr p => read_file p
  | _ => raise TypeError
  end.

Definition nl : string := String "010"%char EmptyString.

(** ** The stages and routers *)

Section Stages.

Variable config : Config.

(** *** agents/text_generation_agent.py *)

Definition text_generation_agent (reply : exn + option string) : M unit :=
  (* Initialize attempt count if not set *)
  present ← contains_key "text_attempt_count";
  unset ← (if negb present then mret true
           else v ← get_item "text_attempt_count"; mret (is_none v));
  when unset (set_item "text_attempt_count" (PInt 0));;
  old ← get_item "text_attempt_count";
  incremented ← py_add_int old 1;
  set_item "text_attempt_count" incremented;;
  attempt_num ← get_item "text_attempt_count";
  (* the prompt *)
  planning_output ← get_item "planning_output";
  input_text ← get_item "input_text";
  feedback ← get "validation_feedback";
  with_feedback ← (if truthy feedback then py_gt_int attempt_num 1 else mret false);
  previous ← (if with_feedback : bool
              then v ← get_item "validation_feedback"; mret [v]
              else mret []);
  (* Call OpenRouter API *)
  generated_text ← chat_completion ([planning_output; input_text] ++ previous) reply;
  (* Save text attempt *)
  write_value
    (Str.path_join (INTERMEDIATE_DIR config)
       ("text_attempt" +:+ Str.str attempt_num +:+ ".txt"))
    (content_value generated_text);;
  (* Update state *)
  set_item "generated_text" (content_value generated_text);;
  best ← get "best_text";
  when (is_none best) (set_item "best_text" (content_value generated_text)).

Definition validate_text (reply : exn + option string) : M unit :=
  planning_output ← get_item "planning_output";
  generated_text ← get_item "generated_text";
  validation_result ← chat_completion [planning_output; generated_text] reply;
  set_item "validation_feedback" (content_value validation_result);;
  (* Check if validation passed *)
  validation_result ← content_str validation_result;
  let validation_passed :=
    Str.contains "VALIDATION: PASS" (Str.upper validation_result) in
  set_item "validation_passed" (PBool validation_passed);;
  when validation_passed
    (g ← get_item "generated_text"; set_item "best_text" g).

Definition should_retry_text : M string :=
  passed ← get "validation_passed";
  if truthy passed then mret "continue"
  else
    count ← get_item "text_attempt_count";
    exhausted ← py_ge_int count (MAX_TEXT_ATTEMPTS config);
    if exhausted : bool then mret "continue" else mret "retry".

(** *** agents/editor_agent.py *)

Definition logo_remediation : string :=
  nl +:+ nl +:+
  "IMPORTANT: Logo not properly integrated. Must revert to input.png as base.".

Definition editor_agent (reply : exn + option string) : M unit :=
  (* Encode the current image and input logo *)
  current_image ← get_item "current_image";
  current_image_base64 ← encode_image current_image;
  input_image_path ← get_item "input_image_path";
  input_logo_base64 ← encode_image input_image_path;
  planning_output ← get_item "planning_output";
  input_text ← get_item "input_text";
  validation_result ←
    chat_completion
      [planning_output; input_text;
       PStr input_logo_base64; PStr current_image_base64] reply;
  set_item "validation_feedback" (content_value validation_result);;
  (* Check if validation passed *)
  validation_result ← content_str validation_result;
  let validation_passed :=
    Str.contains "VALIDATION: PASS" (Str.upper validation_result) in
  set_item "validation_passed" (PBool validation_passed);;
  (* Check if logo is integrated *)
  let logo_integrated :=
    Str.contains "LOGO_INTEGRATED: YES" (Str.upper validation_result) in
  (* Update best image if this one passed or is better *)
  best ← (if validation_passed then mret true
          else b ← get "best_image"; mret (is_none b));
  when best (c ← get_item "current_image"; set_item "best_image" c);;
  (* Add logo integration info to feedback *)
  when (negb logo_integrated)
    (f ← get_item "validation_feedback";
     match f with
     | PStr s => set_item "validation_feedback" (PStr (s +:+ logo_remediation))
     | _ => raise TypeError
     end).

Definition should_retry_image : M string :=
  passed ← get "validation_passed";
  if truthy passed then mret "continue"
  else
    count ← get_item "image_attempt_count";
    exhausted ← py_ge_int count (MAX_IMAGE_ATTEMPTS config);
    if exhausted : bool then mret "continue" else mret "retry".

(** *** agents/text_validation_agent.py *)

(** What the stage extracts from the validator's response. *)
Record Parsed : Type := mkParsed
  { validation_approved : bool;
    text_is_correct : bool;
    text_is_clear : bool;
    found_text : pyval;
    specific_fix : pyval }.

(** [for field in fields: if field in section: section =
    section.split(field)[0]; break] *)
Fixpoint cut_at_first (fields : list string) (section : string) : M string :=
  match fields with
  | [] => mret section
  | field :: rest =>
      if Str.contains field section
      then py_index (Str.split field section) 0
      else cut_at_first rest section
  end.

Definition parse_validation_result (validation_result : string) : M Parsed :=
  let validation_approved :=
    Str.contains "VALIDATION: APPROVED" (Str.upper validation_result) in
  let text_is_correct :=
    Str.contains "TEXT_CORRECT: YES" (Str.upper validation_result) in
  let text_is_clear :=
    Str.contains "TEXT_CLEAR: YES" (Str.upper validation_result) in
  (* Extract FOUND_TEXT *)
  found_text ←
    (if Str.contains "FOUND_TEXT:" validation_result
     then
       found_text_section ← py_index (Str.split "FOUND_TEXT:" validation_result) 1;
       found_text_section ←
         cut_at_first ["SPECIFIC_FIX:"; "VALIDATION:"] found_text_section;
       mret (PStr (Str.strip found_text_section))
     else mret PNone);
  (* Extract SPECIFIC_FIX *)
  specific_fix ←
    (if Str.contains "SPECIFIC_FIX:" validation_result
     then
       specific_fix_section ← py_index (Str.split "SPECIFIC_FIX:" validation_result) 1;
       specific_fix_section ←
         (if Str.contains "VALIDATION:" specific_fix_section
          then py_index (Str.split "VALIDATION:" specific_fix_section) 0
          else mret specific_fix_section);
       mret (PStr (Str.strip specific_fix_section))
     else mret PNone);
  mret (mkParsed validation_approved text_is_correct text_is_clear
          found_text specific_fix).

Definition text_validation_agent (reply : exn + option string) : M unit :=
  attempt_num ← get_default "text_adding_attempt_count" (PInt 1);
  (* Get inputs *)
  best_text ← get "best_text";
  last_text ← get "generated_text";
  let generated_text := py_or best_text last_text in
  poster_path ← get "poster_with_text";
  (* Encode the poster image *)
  poster_base64 ← encode_image poster_path;
  try_except
    (validation_result ←
       chat_completion [generated_text; PStr poster_base64] reply;
     (* Parse structured validation result *)
     validation_result ← content_str validation_result;
     parsed ← parse_validation_result validation_result;
     (* Update state with all parsed values *)
     set_item "text_validation_result"
       (PStr (if validation_approved parsed then "approved" else "rejected"));;
     set_item "text_validation_feedback" (PStr validation_result);;
     set_item "text_is_correct" (PBool (text_is_correct parsed));;
     set_item "text_is_clear" (PBool (text_is_clear parsed));;
     set_item "found_text" (found_text parsed);;
     set_item "specific_fix" (specific_fix parsed))
    (fun e =>
       (* On error, reject to allow retry *)
       set_item "text_validation_result" (PStr "rejected");;
       set_item "text_validation_feedback"
         (PStr ("Validation failed due to error: " +:+ str_exn e));;
       set_item "text_is_correct" (PBool false);;
       set_item "text_is_clear" (PBool false);;
       set_item "found_text" PNone;;
       set_item "specific_fix" PNone).

Definition should_retry_text_adding : M string :=
  attempt_count ← get_default "text_adding_attempt_count" (PInt 0);
  validation_result ← get_default "text_validation_result" (PStr "rejected");
  if py_eq_str validation_result "approved" then mret "continue"
  else
    again ← py_lt_int attempt_count (MAX_TEXT_ADDING_ATTEMPTS config);
    if again : bool then mret "retry" else mret "continue".

End Stages.

(** ** main.py *)

Section Main.

Variable config : Config.

(** Stage 0a. Loading the diffusers pipeline is a collaborator call: it
    returns a handle or raises. *)
Definition load_pipeline (loaded : exn + nat) : M unit :=
  try_except
    (pipeline ← collaborator loaded;
     set_item "image_pipeline" (PObj pipeline))
    (fun e => set_item "image_pipeline" PNone).

(** Stage 0b. *)
Definition load_input : M unit :=
  (* Load input text *)
  found ← path_exists (INPUT_TEXT_PATH config);
  (if negb found
   then raise (FileNotFoundError
                 ("Input text file not found: " +:+ INPUT_TEXT_PATH config))
   else mret tt);;
  content ← read_file (INPUT_TEXT_PATH config);
  let input_text := Str.strip content in
  (* Verify input image exists *)
  found ← path_exists (INPUT_IMAGE_PATH config);
  (if negb found
   then raise (FileNotFoundError
                 ("Input image file not found: " +:+ INPUT_IMAGE_PATH config))
   else mret tt);;
  (* Initialize state *)
  set_item "input_text" (PStr input_text);;
  set_item "input_image_path" (PStr (INPUT_IMAGE_PATH config));;
  set_item "text_attempt_count" (PInt 0);;
  set_item "image_attempt_count" (PInt 0);;
  set_item "validation_passed" (PBool false).

(** agents/planning_agent.py, stage 1. *)
Definition planning_agent (reply : exn + option string) : M unit :=
  input_image_path ← get_item "input_image_path";
  image_base64 ← encode_image input_image_path;
  input_text ← get_item "input_text";
  planning_output ← chat_completion [input_text; PStr image_base64] reply;
  (* Save planning output *)
  write_value (Str.path_join (INTERMEDIATE_DIR config) "planning.txt")
    (content_value planning_output);;
  (* Update state *)
  set_item "planning_output" (content_value planning_output).

(** Stage 5. *)
Definition segmentation_placeholder : M unit := mret tt.

(** Stage 7. *)
Definition save_output : M unit :=
  (* Save final poster *)
  poster_with_text ← get "poster_with_text";
  missing ← (if negb (truthy poster_with_text) then mret true
             else match poster_with_text with
                  | PStr p => found ← path_exists p; mret (negb found)
                  | _ => raise TypeError
                  end);
  poster_source ←
    (if missing : bool
     then best_image ← get "best_image";
          current_image ← get "current_image";
          mret (py_or best_image current_image)
     else mret poster_with_text);
  let final_poster_path := Str.path_join (OUTPUT_DIR config) "poster.png" in
  copy_file poster_source final_poster_path;;
  set_item "final_poster_path" (PStr final_poster_path);;
  (* Save final text *)
  best_text ← get "best_text";
  generated_text ← get "generated_text";
  let final_text := py_or best_text generated_text in
  let final_text_path := Str.path_join (OUTPUT_DIR config) "text.txt" in
  write_value final_text_path final_text;;
  set_item "final_text_path" (PStr final_text_path).

(** The dict [main] starts the workflow from. *)
Definition initial_state : gmap string pyval :=
  <["input_text" := PStr ""]>
  (<["input_image_path" := PStr ""]>
  (<["image_pipeline" := PNone]>
  (<["planning_output" := PNone]>
  (<["generated_text" := PNone]>
  (<["text_attempt_count" := PInt 0]>
  (<["best_text" := PNone]>
  (<["current_image" := PNone]>
  (<["image_attempt_count" := PInt 0]>
  (<["best_image" := PNone]>
  (<["validation_feedback" := PNone]>
  (<["validation_passed" := PBool false]>
  (<["poster_with_text" := PNone]>
  (<["final_poster_path" := PNone]>
  (<["final_text_path" := PNone]> ∅)))))))))))))).

End Main.

(** ** The stage graph

    [StateGraph] is the workflow library's builder: [build_graph] registers
    nodes, edges and conditional edges by name, and [invoke] walks them from
    the entry point, one stage at a time, until an edge leads to [END]. *)

Module Graph.

Definition END : string := "__end__".

(** A node's function; its argument counts the earlier executions of the
    node in the run, so that a collaborator may answer each call anew. *)
Definition stage : Type := nat -> M unit.

Record StateGraph : Type := mkGraph
  { nodes : list (string * stage);
    entry_point : option string;
    edges : list (string * string);
    conditional_edges : list (string * (M string * list (string * string))) }.

Definition empty : StateGraph := mkGraph [] None [] [].

Definition add_node (name : string) (f : stage) (g : StateGraph) : StateGraph :=
  mkGraph (nodes g ++ [(name, f)]) (entry_point g) (edges g) (conditional_edges g).

Definition set_entry_point (name : string) (g : StateGraph) : StateGraph :=
  mkGraph (nodes g) (Some name) (edges g) (conditional_edges g).

Definition add_edge (src dst : string) (g : StateGraph) : StateGraph :=
  mkGraph (nodes g) (entry_point g) (edges g ++ [(src, dst)]) (conditional_edges g).

Definition add_conditional_edges (src : string) (router : M string)
    (targets : list (string * string)) (g : StateGraph) : StateGraph :=
  mkGraph (nodes g) (entry_point g) (edges g)
    (conditional_edges g ++ [(src, (router, targets))]).

Fixpoint assoc {A} (k : string) (l : list (string * A)) : option A :=
  match l with
  | [] => None
  | (k', a) :: l' => if String.eqb k k' then Some a else assoc k l'
  end.

(** What a run records: a stage was executed, a router chose a label. *)
Inductive event : Type :=
| Exec (node : string)
| Routed (node : string) (label : string).

Definition is_exec (node : string) (ev : event) : bool :=
  match ev with
  | Exec n => String.eqb n node
  | Routed _ _ => false
  end.

(** How often [node] was executed in a trace. *)
Fixpoint executions (node : string) (trace : list event) : nat :=
  match trace with
  | [] => O
  | ev :: t => ((if is_exec node ev then 1 else 0) + executions node t)%nat
  end.

(** A run in progress: the node to execute next, the store, and the events
    so far, the latest first. *)
Record Cfg : Type := mkCfg
  { at_node : string;
    world : World;
    trace : list event }.

Inductive status : Type :=
| Running (c : Cfg)
| Finished (w : World) (t : list event)
| Aborted (node : string) (e : exn) (w : World) (t : list event)
| Invalid (node : string).

Definition goto (target : string) (w : World) (t : list event) : status :=
  if String.eqb target END then Finished w t else Running (mkCfg target w t).

(** One step: execute the current stage, then follow its conditional edge
    (asking the router) or its plain edge. *)
Definition step (g : StateGraph) (c : Cfg) : status :=
  let n := at_node c in
  match assoc n (nodes g) with
  | None => Invalid n
  | Some f =>
      match f (executions n (trace c)) (world c) with
      | Raise e w => Aborted n e w (Exec n :: trace c)
      | Ok _ w =>
          let t := Exec n :: trace c in
          match assoc n (conditional_edges g) with
          | Some (router, targets) =>
              match router w with
              | Raise e w' => Aborted n e w' t
              | Ok label w' =>
                  match assoc label targets with
                  | Some target => goto target w' (Routed n label :: t)
                  | None => Invalid n
                  end
              end
          | None =>
              match assoc n (edges g) with
              | Some target => goto target w t
              | None => Invalid n
              end
          end
      end
  end.

(** [fuel] steps of the run. *)
Fixpoint run (g : StateGraph) (fuel : nat) (c : Cfg) : status :=
  match fuel with
  | O => Running c
  | S fuel' =>
      match step g c with
      | Running c' => run g fuel' c'
      | s => s
      end
  end.

(** [app.invoke(initial_state)] *)
Definition invoke (g : StateGraph) (fuel : nat) (w : World) : status :=
  match entry_point g with
  | Some n => run g fuel (mkCfg n w [])
  | None => Invalid ""
  end.

(** The configurations a run passes through. *)
Inductive reachable (g : StateGraph) (c0 : Cfg) : Cfg -> Prop :=
| reachable_start : reachable g c0 c0
| reachable_step c c' :
    reachable g c0 c -> step g c = Running c' -> reachable g c0 c'.

End Graph.
Export Graph.

(** The collaborators of one run. The image generation and text adding
    stages (agents/image_generation_agent.py, agents/text_adding_agent.py)
    are not among the sources at hand: they are arbitrary stage functions
    here. *)
Record Env : Type := mkEnv
  { pipeline_loaded : exn + nat;
    planning_reply : exn + option string;
    text_reply : nat -> exn + option string;
    text_validation_reply : nat -> exn + option string;
    image_validation_reply : nat -> exn + option string;
    image_generation_agent : stage;
    text_adding_agent : stage }.

Section Workflow.

Variable config : Config.
Variable env : Env.

Definition build_graph : StateGraph :=
  let workflow := Graph.empty in
  (* Add nodes for each stage *)
  let workflow := add_node "load_pipeline" (fun _ => load_pipeline (pipeline_loaded env)) workflow in
  let workflow := add_node "load_input" (fun _ => load_input config) workflow in
  let workflow := add_node "planning" (fun _ => planning_agent config (planning_reply env)) workflow in
  let workflow := add_node "text_generation" (fun i => text_generation_agent config (text_reply env i)) workflow in
  let workflow := add_node "text_validation" (fun i => validate_text (text_validation_reply env i)) workflow in
  let workflow := add_node "image_generation" (image_generation_agent env) workflow in
  let workflow := add_node "image_validation" (fun i => editor_agent (image_validation_reply env i)) workflow in
  let workflow := add_node "segmentation" (fun _ => segmentation_placeholder) workflow in
  let workflow := add_node "text_adding" (text_adding_agent env) workflow in
  let workflow := add_node "save_output" (fun _ => save_output config) workflow in
  (* Define the workflow edges *)
  let workflow := set_entry_point "load_pipeline" workflow in
  let workflow := add_edge "load_pipeline" "load_input" workflow in
  let workflow := add_edge "load_input" "planning" workflow in
  let workflow := add_edge "planning" "text_generation" workflow in
  (* Text generation retry loop *)
  let workflow := add_edge "text_generation" "text_validation" workflow in
  let workflow :=
    add_conditional_edges "text_validation" (should_retry_text config)
      [("retry", "text_generation"); ("continue", "image_generation")] workflow in
  (* Image generation retry loop *)
  let workflow := add_edge "image_generation" "image_validation" workflow in
  let workflow :=
    add_conditional_edges "image_validation" (should_retry_image config)
      [("retry", "image_generation"); ("continue", "segmentation")] workflow in
  (* Final stages *)
  let workflow := add_edge "segmentation" "text_adding" workflow in
  let workflow := add_edge "text_adding" "save_output" workflow in
  let workflow := add_edge "save_output" END workflow in
  workflow.

(** [main]: build the graph and invoke it on the initial state; an
    exception of a stage is reported and raised again. *)
Definition main (fs : gmap string string) (fuel : nat) : status :=
  invoke build_graph fuel (mkWorld initial_state fs).

End Workflow.

(** ** verify_setup.py

    The set-up check is a script of its own: it asks the file system which
    paths exist, prints a report and ends by [sys.exit(1)] when the set-up
    is incomplete. Its output is the list of the strings given to [print],
    in order. *)

Module VerifySetup.

(** What the script asks of the file system. *)
Record Disk : Type := mkDisk
  { os_path_exists : string -> bool;   (* os.path.exists *)
    os_path_isdir : string -> bool }.  (* os.path.isdir *)

(** Code that prints: it extends the output so far. *)
Definition P (A : Type) : Type := list string -> A * list string.

#[local] Instance P_ret : MRet P := fun A a out => (a, out).
#[local] Instance P_bind : MBind P :=
  fun A B k m out => let (a, out') := m out in k a out'.

(** [print(line)] *)
Definition print (line : string) : P unit := fun out => (tt, out ++ [line]).

(** [s * n] *)
Fixpoint repeat_str (s : string) (n : nat) : string :=
  match n with
  | O => EmptyString
  | S n' => s +:+ repeat_str s n'
  end.

(** Check if a file exists. *)
Definition check_file (d : Disk) (path description : string) : P bool :=
  let exists_ := os_path_exists d path in
  let status := if exists_ then "✓" else "✗" in
  print (status +:+ " " +:+ description +:+ ": " +:+ path);;
  mret exists_.

(** Check if a directory exists. *)
Definition check_directory (d : Disk) (path description : string) : P bool :=
  let exists_ := os_path_isdir d path in
  let status := if exists_ then "✓" else "✗" in
  print (status +:+ " " +:+ description +:+ ": " +:+ path);;
  mret exists_.

(** How the script ends: it returns, or it leaves by [sys.exit(code)]. *)
Inductive ending : Type :=
| Returned
| Exited (code : Z).

(** Run all verification checks. *)
Definition main (d : Disk) : P ending :=
  print (repeat_str "=" 60);;
  print "POSTER GENERATOR - SETUP VERIFICATION";;
  print (repeat_str "=" 60);;
  let all_good := true in
  print (nl +:+ "1. Core Files:");;
  b ← check_file d "main.py" "Main orchestration";
  let all_good := all_good && b in
  b ← check_file d "state.py" "State definition";
  let all_good := all_good && b in
  b ← check_file d "config.py" "Configuration";
  let all_good := all_good && b in
  b ← check_file d "requirements.txt" "Dependencies";
  let all_good := all_good && b in
  print (nl +:+ "2. Agent Files:");;
  b ← check_file d "agents/__init__.py" "Agent package init";
  let all_good := all_good && b in
  b ← check_file d "agents/planning_agent.py" "Planning Agent";
  let all_good := all_good && b in
  b ← check_file d "agents/text_generation_agent.py" "Text Generation Agent";
  let all_good := all_good && b in
  b ← check_file d "agents/editor_agent.py" "Editor Agent";
  let all_good := all_good && b in
  b ← check_file d "agents/image_generation_agent.py" "Image Generation Agent";
  let all_good := all_good && b in
  b ← check_file d "agents/text_adding_agent.py" "Text Adding Agent";
  let all_good := all_good && b in
  print (nl +:+ "3. Configuration Files:");;
  b ← check_file d ".env.example" "Environment template";
  let all_good := all_good && b in
  env_exists ← check_file d ".env" "Environment variables";
  all_good ← (if negb env_exists
              then print "  ⚠ You need to create .env from .env.example";;
                   mret false
              else mret all_good);
  print (nl +:+ "4. Output Directories:");;
  b ← check_directory d "outputs" "Output directory";
  let all_good := all_good && b in
  b ← check_directory d "intermediate_outputs" "Intermediate output directory";
  let all_good := all_good && b in
  print (nl +:+ "5. Input Files (Required for running):");;
  input_text ← check_file d "input.txt" "Input text";
  input_image ← check_file d "input.png" "Input image";
  (if negb input_text
   then print "  ⚠ Create input.txt with your poster keywords";;
        print "  Example: 'Tech Conference 2024, Innovation, AI'"
   else mret tt);;
  (if negb input_image
   then print "  ⚠ Create input.png with your logo/mascot"
   else mret tt);;
  print (nl +:+ "6. Documentation:");;
  check_file d "README_IMPLEMENTATION.md" "Implementation guide";;
  check_file d "QUICKSTART.md" "Quick start guide";;
  print (nl +:+ repeat_str "=" 60);;
  if all_good && input_text && input_image
  then
    print "✓ ALL CHECKS PASSED - Ready to run!";;
    print "  Run: python main.py";;
    print (repeat_str "=" 60);;
    mret Returned
  else if all_good : bool
  then
    print "⚠ CORE SETUP COMPLETE - Need input files to run";;
    print "  1. Create input.txt with poster keywords";;
    print "  2. Create input.png with logo/mascot";;
    print "  3. Ensure .env has valid API keys";;
    print "  4. Run: python main.py";;
    print (repeat_str "=" 60);;
    mret Returned
  else
    print "✗ SETUP INCOMPLETE - Fix issues above";;
    mret (Exited 1).

End VerifySetup.

(** * Specification-side definitions

    The router and the tracker as the specification words them, the
    predicates and invariants the properties are stated with, and the data
    of a concrete run. *)

(** The router of the specification: continue when the validation passed,
    else continue when the attempts are used up, else retry. *)
Definition spec_route (attemptCount maxAttempts : Z) (validationPassed : bool)
  : string :=
  if validationPassed then "continue"
  else if maxAttempts <=? attemptCount then "continue"
  else "retry".

(** The file a text attempt is saved to. *)
Definition text_attempt_path (config : Config) (n : Z) : string :=
  Str.path_join (INTERMEDIATE_DIR config)
    ("text_attempt" +:+ Str.str (PInt n) +:+ ".txt").

(** The verdict the text and image validation stages read off a response. *)
Definition verdict_pass (response : string) : bool :=
  Str.contains "VALIDATION: PASS" (Str.upper response).

Definition verdict_logo (response : string) : bool :=
  Str.contains "LOGO_INTEGRATED: YES" (Str.upper response).

(** [recordAttempt] of the specification, on one best-so-far pointer: the
    first candidate is kept whatever its verdict, a later one only when it
    passed. *)
Definition spec_recordAttempt (best candidate : pyval) (passed : bool) : pyval :=
  if is_none best then candidate
  else if passed then candidate
  else best.

(** The value a best-so-far pointer holds ([None] when the key is unset). *)
Definition best_of (w : World) (k : string) : pyval :=
  default PNone (state w !! k).

(** One iteration of the text loop: the generation stage, whose collaborator
    answers [g], then the validation stage, whose collaborator answers [v]. *)
Definition text_attempt (config : Config) (g v : string) : M unit :=
  text_generation_agent config (inr (Some g));; validate_text (inr (Some v)).

Fixpoint text_attempts (config : Config) (l : list (string * string)) : M unit :=
  match l with
  | [] => mret tt
  | (g, v) :: l' => text_attempt config g v;; text_attempts config l'
  end.

(** One iteration of the image loop as the validation stage sees it: the
    candidate is the path that [state["current_image"]] holds when the
    editor runs (the stage that produces it is not among the sources; only
    its result, the new current image, appears here). *)
Definition image_attempt (cur v : string) : M unit :=
  set_item "current_image" (PStr cur);; editor_agent (inr (Some v)).

Fixpoint image_attempts (l : list (string * string)) : M unit :=
  match l with
  | [] => mret tt
  | (cur, v) :: l' => image_attempt cur v;; image_attempts l'
  end.

(** What the text loop needs of the state it starts an iteration in. *)
Definition text_ready (st : gmap string pyval) : Prop :=
  (exists c, st !! "text_attempt_count" = Some (PInt c))
  /\ is_Some (st !! "planning_output")
  /\ is_Some (st !! "input_text").

(** What the editor needs besides the candidate. *)
Definition editor_ready (w : World) : Prop :=
  (exists logo, state w !! "input_image_path" = Some (PStr logo)
                /\ is_Some (files w !! logo))
  /\ is_Some (state w !! "planning_output")
  /\ is_Some (state w !! "input_text").

(** The labels of the three validators' response formats. *)
Definition known_labels : list string :=
  ["VALIDATION:"; "FEEDBACK:"; "LOGO_INTEGRATED:"; "TEXT_CORRECT:";
   "TEXT_CLEAR:"; "FOUND_TEXT:"; "SPECIFIC_FIX:"].

(** A response lacks a label when its upper-cased copy, the one the stages
    search, does not contain it. *)
Definition lacks_labels (response : string) : bool :=
  forallb (fun l => negb (Str.contains l (Str.upper response))) known_labels.

(** The store after the text validation agent wrote its six fields. *)
Definition store_text_validation (result feedback : string)
    (correct clear : bool) (found remedy : pyval) (st : gmap string pyval)
  : gmap string pyval :=
  <["specific_fix" := remedy]>
  (<["found_text" := found]>
  (<["text_is_clear" := PBool clear]>
  (<["text_is_correct" := PBool correct]>
  (<["text_validation_feedback" := PStr feedback]>
  (<["text_validation_result" := PStr result]> st))))).

(** The store a stage leaves, whether it returned or raised. *)
Definition final_world {A} (o : outcome A) : World :=
  match o with
  | Ok _ w => w
  | Raise _ w => w
  end.

(** What holds of the store when the stage returned. *)
Definition on_return {A} (o : outcome A) (P : World -> Prop) : Prop :=
  match o with
  | Ok _ w => P w
  | Raise _ _ => True
  end.

(** The keys the text validation agent stores its result under. *)
Definition text_validation_keys : list string :=
  ["text_validation_result"; "text_validation_feedback"; "text_is_correct";
   "text_is_clear"; "found_text"; "specific_fix"].

(** The outcome with [k] set to [x] in its store. *)
Definition with_item {A} (k : string) (x : pyval) (o : outcome A) : outcome A :=
  match o with
  | Ok a w => Ok a (mkWorld (<[k := x]> (state w)) (files w))
  | Raise e w => Raise e (mkWorld (<[k := x]> (state w)) (files w))
  end.

(** A configuration with three attempts per loop, and the files of a run
    that has its inputs, one generated image and a rendered poster. *)
Definition demo_config : Config :=
  mkConfig 3 3 3 "input.txt" "input.png" "outputs" "intermediate_outputs".

Definition demo_files : gmap string string :=
  <["input.txt" := " Tech Conference 2024 "]>
  (<["input.png" := "logo"]>
  (<["intermediate_outputs/image_attempt1.png" := "image 1"]>
  (<["intermediate_outputs/poster_with_text.png" := "poster"]> ∅))).

(** The state as the text loop finds it: inputs loaded, plan made. *)
Definition demo_planned : gmap string pyval :=
  <["planning_output" := PStr "TEXT REQUIREMENTS: a headline"]>
  (<["input_image_path" := PStr "input.png"]>
  (<["input_text" := PStr "Tech Conference 2024"]> initial_state)).

(** The state as the image validation finds it on its first visit. *)
Definition demo_imaged : gmap string pyval :=
  <["current_image" := PStr "intermediate_outputs/image_attempt1.png"]>
  (<["image_attempt_count" := PInt 1]>
  (<["generated_text" := PStr "HEADLINE: Join Us"]>
  (<["best_text" := PStr "HEADLINE: Join Us"]>
  (<["text_attempt_count" := PInt 1]> demo_planned)))).

(** Whether a stage returned. *)
Definition returned {A} (o : outcome A) : bool :=
  match o with
  | Ok _ _ => true
  | Raise _ _ => false
  end.

(** The text validation stage accepts a text; later the image validation
    stage rejects an image. *)
Definition text_accepted : outcome unit :=
  validate_text (inr (Some "VALIDATION: PASS")) (mkWorld demo_imaged demo_files).

Definition image_rejected : outcome unit :=
  editor_agent (inr (Some "VALIDATION: FAIL LOGO_INTEGRATED: YES"))
    (final_world text_accepted).

(** What a stage followed by a plain edge does. *)
Definition plain_step (n target : string) (o : outcome unit) (t : list event)
  : status :=
  match o with
  | Raise e w => Aborted n e w (Exec n :: t)
  | Ok _ w => Running (mkCfg target w (Exec n :: t))
  end.

(** What a stage followed by a router does. *)
Definition routed_step (n : string) (o : outcome unit) (router : M string)
    (retry continue : string) (t : list event) : status :=
  match o with
  | Raise e w => Aborted n e w (Exec n :: t)
  | Ok _ w =>
      match router w with
      | Raise e w' => Aborted n e w' (Exec n :: t)
      | Ok label w' =>
          if String.eqb label "retry"
          then Running (mkCfg retry w' (Routed n label :: Exec n :: t))
          else if String.eqb label "continue"
          then Running (mkCfg continue w' (Routed n label :: Exec n :: t))
          else Invalid n
      end
  end.

(** The graph has ten nodes. *)
Definition node_names : list string :=
  ["load_pipeline"; "load_input"; "planning"; "text_generation";
   "text_validation"; "image_generation"; "image_validation"; "segmentation";
   "text_adding"; "save_output"].

(** The counter of a loop holds [n], and [n] is how often the loop's
    generation stage was executed so far. *)
Definition counter_is (key node : string) (c : Cfg) (n : Z) : Prop :=
  state (world c) !! key = Some (PInt n)
  /\ n = Z.of_nat (executions node (trace c)).

(** The invariant of the text loop: the counter is 0 until the loop is
    entered, below the maximum when the generation stage is about to run, at
    least 1 and at most the maximum when the validation stage is about to
    run, and within these bounds where the router has just said
    "continue". *)
Definition text_loop_inv (config : Config) (c : Cfg) : Prop :=
  (In (at_node c) ["load_pipeline"; "load_input"; "planning"] ->
   counter_is "text_attempt_count" "text_generation" c 0)
  /\ (at_node c = "text_generation" ->
      exists n, counter_is "text_attempt_count" "text_generation" c n
                /\ 0 <= n < MAX_TEXT_ATTEMPTS config)
  /\ (at_node c = "text_validation" ->
      exists n, counter_is "text_attempt_count" "text_generation" c n
                /\ 1 <= n <= MAX_TEXT_ATTEMPTS config)
  /\ (forall t, trace c = Routed "text_validation" "continue" :: t ->
      exists n, counter_is "text_attempt_count" "text_generation" c n
                /\ 1 <= n <= MAX_TEXT_ATTEMPTS config).

(** The image generation stage is not among the sources. What the loop
    needs of it is what the specification says of every generation stage:
    an execution that returns has added one to the loop's counter. *)
Definition counts_image_attempt (f : stage) : Prop :=
  forall i w w' n,
    f i w = Ok tt w' ->
    state w !! "image_attempt_count" = Some (PInt n) ->
    state w' !! "image_attempt_count" = Some (PInt (n + 1)).

Definition image_loop_inv (config : Config) (c : Cfg) : Prop :=
  (In (at_node c) ["load_pipeline"; "load_input"; "planning";
                   "text_generation"; "text_validation"] ->
   counter_is "image_attempt_count" "image_generation" c 0)
  /\ (at_node c = "image_generation" ->
      exists n, counter_is "image_attempt_count" "image_generation" c n
                /\ 0 <= n < MAX_IMAGE_ATTEMPTS config)
  /\ (at_node c = "image_validation" ->
      exists n, counter_is "image_attempt_count" "image_generation" c n
                /\ 1 <= n <= MAX_IMAGE_ATTEMPTS config)
  /\ (forall t, trace c = Routed "image_validation" "continue" :: t ->
      exists n, counter_is "image_attempt_count" "image_generation" c n
                /\ 1 <= n <= MAX_IMAGE_ATTEMPTS config).

(** Where [main] starts the run. *)
Definition start (fs : gmap string string) : Cfg :=
  mkCfg "load_pipeline" (mkWorld initial_state fs) [].

(** The files of a run whose input text is missing. *)
Definition no_text_files : gmap string string := delete "input.txt" demo_files.

(** The overlay output is missing: the state holds no usable reference to
    it, or the file it names does not exist. *)
Definition poster_missing (st : gmap string pyval) (fs : gmap string string)
  : Prop :=
  truthy (default PNone (st !! "poster_with_text")) = false
  \/ exists p, st !! "poster_with_text" = Some (PStr p) /\ fs !! p = None.

(** Modelled from the spec: the image generation stage
    (agents/image_generation_agent.py is not among the sources). It counts
    its attempt ("incremented exactly once per loop iteration") and sets the
    current image; this one reuses the input image, the fallback the
    specification names for an image editor that is unavailable. *)
Definition reuse_input_image : stage := fun _ =>
  count ← get_item "image_attempt_count";
  incremented ← py_add_int count 1;
  set_item "image_attempt_count" incremented;;
  base ← get_item "input_image_path";
  set_item "current_image" base.

(** Collaborators that answer every call, with validators that never
    accept. *)
Definition demo_env : Env :=
  mkEnv (inr 7%nat) (inr (Some "TEXT REQUIREMENTS: a headline"))
    (fun i => inr (Some ("HEADLINE: draft " +:+ pretty i)))
    (fun _ => inr (Some "VALIDATION: FAIL"))
    (fun _ => inr (Some "VALIDATION: FAIL LOGO_INTEGRATED: YES"))
    reuse_input_image
    (fun _ => mret tt).

(** The configuration that run reaches after [k] steps. *)
Definition demo_after (k : nat) : Cfg :=
  match run (build_graph demo_config demo_env) k (start demo_files) with
  | Running c => c
  | _ => start demo_files
  end.

(** The same collaborators, with a text validator that cannot be reached. *)
Definition unreachable_validator_env : Env :=
  mkEnv (inr 7%nat) (inr (Some "TEXT REQUIREMENTS: a headline"))
    (fun i => inr (Some ("HEADLINE: draft " +:+ pretty i)))
    (fun _ => inl (CollaboratorError "connection reset"))
    (fun _ => inr (Some "VALIDATION: FAIL LOGO_INTEGRATED: YES"))
    reuse_input_image
    (fun _ => mret tt).

(** The state the save stage finds when the overlay was never rendered. *)
Definition demo_unrendered : gmap string pyval :=
  <["best_image" := PStr "intermediate_outputs/image_attempt1.png"]> demo_imaged.

(** ** Definitions for the further properties *)

(** A string that does not start with white space. *)
Definition no_leading_space (s : string) : Prop :=
  match s with
  | EmptyString => True
  | String c _ => Str.isspace c = false
  end.

(** A stage that raised left the state as it found it. *)
Definition state_kept_on_raise {A} (o : outcome A) (w : World) : Prop :=
  match o with
  | Ok _ _ => True
  | Raise _ w' => state w' = state w
  end.

(** What [content.upper()] raises on a message without content. *)
Definition no_content_error : exn :=
  AttributeError "'NoneType' object has no attribute 'upper'".

(** The store after the feedback of a message without content was
    assigned. *)
Definition feedback_none (w : World) : World :=
  mkWorld (<["validation_feedback" := PNone]> (state w)) (files w).

(** What a text or image validation that raised has left behind: the store
    as it was, or, when the message had no content, the store with that
    feedback. *)
Definition left_on_raise (o : outcome unit) (reply : exn + option string)
    (w : World) : Prop :=
  match o with
  | Ok _ _ => True
  | Raise e w' =>
      w' = w
      \/ (reply = inr None /\ e = no_content_error /\ w' = feedback_none w)
  end.

(** The keys [load_input] assigns. *)
Definition load_input_keys : list string :=
  ["input_text"; "input_image_path"; "text_attempt_count";
   "image_attempt_count"; "validation_passed"].

(** The file the planning stage saves its output to. *)
Definition planning_path (config : Config) : string :=
  Str.path_join (INTERMEDIATE_DIR config) "planning.txt".

(** The verdict the overlay validation stage reads off a response. *)
Definition verdict_approved (response : string) : bool :=
  Str.contains "VALIDATION: APPROVED" (Str.upper response).

(** The verdict the overlay router sees after a call of the validator. *)
Definition overlay_verdict (reply : exn + option string) : bool :=
  match reply with
  | inr (Some r) => verdict_approved r
  | _ => false
  end.

(** The two files of the save stage. *)
Definition final_poster (config : Config) : string :=
  Str.path_join (OUTPUT_DIR config) "poster.png".

Definition final_text (config : Config) : string :=
  Str.path_join (OUTPUT_DIR config) "text.txt".

(** The state the overlay validation finds: the poster was rendered once. *)
Definition demo_rendered : gmap string pyval :=
  <["poster_with_text" := PStr "intermediate_outputs/poster_with_text.png"]>
  (<["text_adding_attempt_count" := PInt 1]> demo_imaged).

(** The run is stuck: the graph has no node or no edge to go on with. *)
Definition is_invalid (s : status) : bool :=
  match s with
  | Invalid _ => true
  | _ => false
  end.

(** The run is over: the last edge led to [END], or a stage raised. *)
Definition ended (s : status) : bool :=
  match s with
  | Finished _ _ | Aborted _ _ _ _ => true
  | _ => false
  end.

(** The run is done with the text loop: it is about to generate an image,
    or a stage raised. *)
Definition text_loop_left (s : status) : bool :=
  match s with
  | Running c => String.eqb (at_node c) "image_generation"
  | Aborted _ _ _ _ => true
  | _ => false
  end.

(** The run is done with the image loop. *)
Definition image_loop_left (s : status) : bool :=
  match s with
  | Running c => String.eqb (at_node c) "segmentation"
  | Aborted _ _ _ _ => true
  | _ => false
  end.

(** What the save stage has done when it returned [w'] from [w]: both
    paths are recorded, poster.png holds the content of a file of [w], and
    text.txt holds the best text of [w], or the last generated one. *)
Definition saved_outputs (config : Config) (w w' : World) : Prop :=
  state w' !! "final_poster_path" = Some (PStr (final_poster config))
  /\ state w' !! "final_text_path" = Some (PStr (final_text config))
  /\ (exists source bytes,
        files w !! source = Some bytes
        /\ files w' !! final_poster config = Some bytes)
  /\ (exists text,
        py_or (default PNone (state w !! "best_text"))
              (default PNone (state w !! "generated_text")) = PStr text
        /\ files w' !! final_text config = Some text).

(** A stage raises within [bound] steps from [c]. *)
Definition aborts_within (g : StateGraph) (bound : nat) (c : Cfg) : Prop :=
  exists k node e w t, (k <= bound)%nat /\ run g k c = Aborted node e w t.

(** The run is at [node] after at most [bound] steps from [c]. *)
Definition arrives_within (g : StateGraph) (bound : nat) (c : Cfg)
    (node : string) : Prop :=
  exists k w t, (k <= bound)%nat /\ run g k c = Running (mkCfg node w t).

(** The events of a run so far, whatever its status. *)
Definition status_trace (s : status) : list event :=
  match s with
  | Running c => trace c
  | Finished _ t => t
  | Aborted _ _ _ t => t
  | Invalid _ => []
  end.

(** Collaborators whose text validator accepts the second text. *)
Definition second_text_env : Env :=
  mkEnv (inr 7%nat) (inr (Some "TEXT REQUIREMENTS: a headline"))
    (fun i => inr (Some ("HEADLINE: draft " +:+ pretty i)))
    (fun i => inr (Some (if Nat.eqb i 1 then "VALIDATION: PASS" else "VALIDATION: FAIL")))
    (fun _ => inr (Some "VALIDATION: FAIL LOGO_INTEGRATED: YES"))
    reuse_input_image
    (fun _ => mret tt).

(** [sep] does not occur in [s] at any of the first [n] positions. *)
Fixpoint absent_before (sep : string) (n : nat) (s : string) : bool :=
  match n with
  | O => true
  | S n' =>
      negb (Str.startswith sep s)
      && match s with
         | EmptyString => true
         | String _ s' => absent_before sep n' s'
         end
  end.

(** A response of the overlay validator in the format its prompt asks for:
    some lines, then the three labelled fields in this order. *)
Definition fix_and_verdict (remedy verdict : string) : string :=
  remedy +:+ "VALIDATION:" +:+ verdict.

Definition found_and_rest (found remedy verdict : string) : string :=
  found +:+ "SPECIFIC_FIX:" +:+ fix_and_verdict remedy verdict.

Definition overlay_response (lines found remedy verdict : string) : string :=
  lines +:+ "FOUND_TEXT:" +:+ found_and_rest found remedy verdict.

(** A response in that format: the text differs from the expected one. *)
Definition demo_response : string :=
  overlay_response "TEXT_CORRECT: NO
TEXT_CLEAR: YES
" " Jion Us
" " Change Jion to Join
" " REJECTED".

(** The files and directories the set-up check requires; the input files
    and the documentation are reported but not required. *)
Definition required_files : list string :=
  ["main.py"; "state.py"; "config.py"; "requirements.txt";
   "agents/__init__.py"; "agents/planning_agent.py";
   "agents/text_generation_agent.py"; "agents/editor_agent.py";
   "agents/image_generation_agent.py"; "agents/text_adding_agent.py";
   ".env.example"; ".env"].

Definition required_dirs : list string := ["outputs"; "intermediate_outputs"].

Definition setup_complete (d : VerifySetup.Disk) : bool :=
  forallb (VerifySetup.os_path_exists d) required_files
  && forallb (VerifySetup.os_path_isdir d) required_dirs.

(** The line a check prints. *)
Definition report_line (found : bool) (description path : string) : string :=
  (if found then "✓" else "✗") +:+ " " +:+ description +:+ ": " +:+ path.

(** The files the script reports on, with their descriptions. *)
Definition reported_files : list (string * string) :=
  [("main.py", "Main orchestration"); ("state.py", "State definition");
   ("config.py", "Configuration"); ("requirements.txt", "Dependencies");
   ("agents/__init__.py", "Agent package init");
   ("agents/planning_agent.py", "Planning Agent");
   ("agents/text_generation_agent.py", "Text Generation Agent");
   ("agents/editor_agent.py", "Editor Agent");
   ("agents/image_generation_agent.py", "Image Generation Agent");
   ("agents/text_adding_agent.py", "Text Adding Agent");
   (".env.example", "Environment template"); (".env", "Environment variables");
   ("input.txt", "Input text"); ("input.png", "Input image");
   ("README_IMPLEMENTATION.md", "Implementation guide");
   ("QUICKSTART.md", "Quick start guide")].

Definition reported_dirs : list (string * string) :=
  [("outputs", "Output directory");
   ("intermediate_outputs", "Intermediate output directory")].

(** A disk with the project files but no [.env] and no inputs. *)
Definition fresh_checkout : VerifySetup.Disk :=
  VerifySetup.mkDisk
    (fun p => negb (String.eqb p ".env" || String.eqb p "input.txt"
                    || String.eqb p "input.png"))
    (fun p => String.eqb p "outputs" || String.eqb p "intermediate_outputs"
              || String.eqb p "agents").

(** A printing computation prints [line], whatever was printed before. *)
Definition emits {A} (m : VerifySetup.P A) (line : string) : Prop :=
  forall out, In line (snd (m out)).

(** A printing computation only adds to the output. *)
Definition extends_output {A} (m : VerifySetup.P A) : Prop :=
  forall out x, In x out -> In x (snd (m out)).

(** The state dict with no key. *)
Definition empty_state : gmap string pyval := ∅.

(** * Properties *)

(** ** The string operations on examples *)

Example split_two : Str.split "X:" "aX:bcX:" = ["a"; "bc"; ""].
Proof. reflexivity. Qed.

Example split_none : Str.split "X:" "abc" = ["abc"].
Proof. reflexivity. Qed.

Example strip_both : Str.strip "  a b
 " = "a b".
Proof. reflexivity. Qed.

Example upper_mixed : Str.upper "Validation: pass_09" = "VALIDATION: PASS_09".
Proof. reflexivity. Qed.

Example path_join_ex : Str.path_join "outputs" "poster.png" = "outputs/poster.png".
Proof. reflexivity. Qed.

Example str_int : Str.str (PInt 12) = "12".
Proof. reflexivity. Qed.

(** ** Running stage code symbolically *)

Ltac mrun :=
  cbv beta iota zeta delta
    [mbind M_bind bind mret M_ret ret raise when get get_default get_item
     contains_key set_item path_exists read_file write_file chat_completion
     collaborator try_except py_add_int py_ge_int py_gt_int py_lt_int py_index
     state files encode_image copy_file write_value content_value content_str];
  cbn [truthy is_none as_int negb default from_option id py_or py_eq_str].

Lemma is_Some_Some_true {A} (x : A) : bool_decide (is_Some (Some x)) = true.
Proof. apply bool_decide_eq_true_2. eauto. Qed.

Lemma is_Some_None_false {A} : bool_decide (is_Some (@None A)) = false.
Proof. apply bool_decide_eq_false_2. intros [x Hx]. discriminate. Qed.

Ltac mlook1 :=
  first
    [ rewrite lookup_insert_eq
    | rewrite lookup_insert_ne by discriminate
    | rewrite is_Some_Some_true
    | rewrite is_Some_None_false
    | match goal with
      | H : ?m !! ?k = _ |- context [?m !! ?k] => rewrite H
      end ].

Ltac mgo := mrun; repeat (mlook1; mrun).

Ltac mcase :=
  match goal with
  | |- context [match ?x with _ => _ end] =>
      lazymatch x with
      | context [match _ with _ => _ end] => fail
      | _ => destruct x eqn:?
      end
  end.

Ltac mframe :=
  mgo; cbn [final_world on_return];
  repeat (mcase; mgo; cbn [final_world on_return]).

(** ** The retry routers *)

Lemma spec_route_continue_iff count max passed :
  spec_route count max passed = "continue" <-> passed = true \/ max <= count.
Proof.
  unfold spec_route. destruct passed.
  - split; auto.
  - destruct (Z.leb_spec max count) as [Hle|Hlt]; split; intros Hyp; auto;
      try discriminate.
    destruct Hyp; [discriminate | lia].
Qed.

Lemma spec_route_retry_iff count max passed :
  spec_route count max passed = "retry" <-> passed = false /\ count < max.
Proof.
  unfold spec_route. destruct passed.
  - split; [discriminate | intros [? _]; discriminate].
  - destruct (Z.leb_spec max count) as [Hle|Hlt]; split; intros Hyp.
    + discriminate.
    + destruct Hyp; lia.
    + split; [reflexivity | lia].
    + reflexivity.
Qed.

Lemma should_retry_text_route config w count passed :
  state w !! "text_attempt_count" = Some (PInt count) ->
  default PNone (state w !! "validation_passed") = PBool passed ->
  should_retry_text config w
  = Ok (spec_route count (MAX_TEXT_ATTEMPTS config) passed) w.
Proof.
  destruct w as [st fs]. cbn [state]. intros Hc Hp.
  unfold should_retry_text, spec_route. mgo.
  rewrite Hp. destruct passed; mgo; [reflexivity|].
  destruct (MAX_TEXT_ATTEMPTS config <=? count); reflexivity.
Qed.

Lemma should_retry_image_route config w count passed :
  state w !! "image_attempt_count" = Some (PInt count) ->
  default PNone (state w !! "validation_passed") = PBool passed ->
  should_retry_image config w
  = Ok (spec_route count (MAX_IMAGE_ATTEMPTS config) passed) w.
Proof.
  destruct w as [st fs]. cbn [state]. intros Hc Hp.
  unfold should_retry_image, spec_route. mgo.
  rewrite Hp. destruct passed; mgo; [reflexivity|].
  destruct (MAX_IMAGE_ATTEMPTS config <=? count); reflexivity.
Qed.

Lemma should_retry_text_adding_route config w count result :
  default (PInt 0) (state w !! "text_adding_attempt_count") = PInt count ->
  default (PStr "rejected") (state w !! "text_validation_result") = PStr result ->
  should_retry_text_adding config w
  = Ok (spec_route count (MAX_TEXT_ADDING_ATTEMPTS config)
          (String.eqb result "approved")) w.
Proof.
  destruct w as [st fs]. cbn [state]. intros Hc Hp.
  unfold should_retry_text_adding, spec_route. mgo.
  rewrite Hp, Hc. mgo. destruct (String.eqb result "approved"); [reflexivity|].
  mgo. rewrite Z.ltb_antisym.
  destruct (MAX_TEXT_ADDING_ATTEMPTS config <=? count); reflexivity.
Qed.

(** The routers return the store they were given. *)
Lemma should_retry_text_pure config w :
  final_world (should_retry_text config w) = w.
Proof. destruct w as [st fs]. unfold should_retry_text. mframe; reflexivity. Qed.

Lemma should_retry_image_pure config w :
  final_world (should_retry_image config w) = w.
Proof. destruct w as [st fs]. unfold should_retry_image. mframe; reflexivity. Qed.

Lemma should_retry_text_adding_pure config w :
  final_world (should_retry_text_adding config w) = w.
Proof.
  destruct w as [st fs]. unfold should_retry_text_adding. mframe; reflexivity.
Qed.

(** C1. Each of the three retry routers (text, image, text adding) is a
    total function of the attempt count, the maximum and the validation
    verdict held in the state: it returns "continue" if and only if the
    validation passed or the count has reached the maximum, "retry"
    otherwise, for every maximum (those of at least 1 among them), and it
    leaves the state and the file system as they were, also on a state it
    raises on. *)
Theorem retry_routers_total_pure
    (config : Config) (w : World) (count : Z) (passed : bool) (result : string) :
  (state w !! "text_attempt_count" = Some (PInt count) ->
   default PNone (state w !! "validation_passed") = PBool passed ->
   should_retry_text config w
   = Ok (spec_route count (MAX_TEXT_ATTEMPTS config) passed) w)
  /\
  (state w !! "image_attempt_count" = Some (PInt count) ->
   default PNone (state w !! "validation_passed") = PBool passed ->
   should_retry_image config w
   = Ok (spec_route count (MAX_IMAGE_ATTEMPTS config) passed) w)
  /\
  (default (PInt 0) (state w !! "text_adding_attempt_count") = PInt count ->
   default (PStr "rejected") (state w !! "text_validation_result") = PStr result ->
   should_retry_text_adding config w
   = Ok (spec_route count (MAX_TEXT_ADDING_ATTEMPTS config)
           (String.eqb result "approved")) w)
  /\
  (forall max verdict,
     (spec_route count max verdict = "continue" <-> verdict = true \/ max <= count)
     /\ (spec_route count max verdict = "retry" <-> verdict = false /\ count < max))
  /\
  (final_world (should_retry_text config w) = w
   /\ final_world (should_retry_image config w) = w
   /\ final_world (should_retry_text_adding config w) = w).
Proof.
  split; [|split; [|split; [|split]]].
  - apply should_retry_text_route.
  - apply should_retry_image_route.
  - apply should_retry_text_adding_route.
  - intros max verdict. split.
    + apply spec_route_continue_iff.
    + apply spec_route_retry_iff.
  - split; [|split].
    + apply should_retry_text_pure.
    + apply should_retry_image_pure.
    + apply should_retry_text_adding_pure.
Qed.

(** ** What one execution of a stage does to the store *)

Lemma text_generation_agent_run config g st fs c p i :
  st !! "text_attempt_count" = Some (PInt c) ->
  st !! "planning_output" = Some p ->
  st !! "input_text" = Some i ->
  text_generation_agent config (inr (Some g)) (mkWorld st fs)
  = Ok tt (mkWorld
      (let st1 := <["generated_text" := PStr g]>
                    (<["text_attempt_count" := PInt (c + 1)]> st) in
       if is_none (default PNone (st !! "best_text"))
       then <["best_text" := PStr g]> st1 else st1)
      (<[text_attempt_path config (c + 1) := g]> fs)).
Proof.
  intros Hc Hp Hi. unfold text_generation_agent, text_attempt_path. mgo.
  destruct (truthy (default PNone (st !! "validation_feedback"))) eqn:Hf; mgo.
  - destruct (1 <? c + 1); mgo.
    + destruct (st !! "validation_feedback") as [f|] eqn:Hl; [|discriminate].
      mgo. destruct (is_none (default PNone (st !! "best_text"))); reflexivity.
    + destruct (is_none (default PNone (st !! "best_text"))); reflexivity.
  - destruct (is_none (default PNone (st !! "best_text"))); reflexivity.
Qed.

(** A failure of the generation collaborator leaves the stage by the
    exception, after the attempt was counted. *)
Lemma text_generation_agent_raise config e st fs c p i :
  st !! "text_attempt_count" = Some (PInt c) ->
  st !! "planning_output" = Some p ->
  st !! "input_text" = Some i ->
  text_generation_agent config (inl e) (mkWorld st fs)
  = Raise e (mkWorld (<["text_attempt_count" := PInt (c + 1)]> st) fs).
Proof.
  intros Hc Hp Hi. unfold text_generation_agent. mgo.
  destruct (truthy (default PNone (st !! "validation_feedback"))) eqn:Hf; mgo.
  - destruct (1 <? c + 1); mgo.
    + destruct (st !! "validation_feedback") as [f|] eqn:Hl; [|discriminate].
      mgo. reflexivity.
    + reflexivity.
  - reflexivity.
Qed.

Lemma validate_text_run v st fs p g :
  st !! "planning_output" = Some p ->
  st !! "generated_text" = Some g ->
  validate_text (inr (Some v)) (mkWorld st fs)
  = Ok tt (mkWorld
      (let st1 := <["validation_passed" := PBool (verdict_pass v)]>
                    (<["validation_feedback" := PStr v]> st) in
       if verdict_pass v then <["best_text" := g]> st1 else st1)
      fs).
Proof.
  intros Hp Hg. unfold validate_text, verdict_pass. mgo.
  destruct (Str.contains "VALIDATION: PASS" (Str.upper v)); mgo; reflexivity.
Qed.

Lemma validate_text_raise e st fs p g :
  st !! "planning_output" = Some p ->
  st !! "generated_text" = Some g ->
  validate_text (inl e) (mkWorld st fs) = Raise e (mkWorld st fs).
Proof. intros Hp Hg. unfold validate_text. mgo. reflexivity. Qed.

Lemma editor_agent_run v st fs cur logo cur_bytes logo_bytes p i :
  st !! "current_image" = Some (PStr cur) ->
  st !! "input_image_path" = Some (PStr logo) ->
  fs !! cur = Some cur_bytes ->
  fs !! logo = Some logo_bytes ->
  st !! "planning_output" = Some p ->
  st !! "input_text" = Some i ->
  editor_agent (inr (Some v)) (mkWorld st fs)
  = Ok tt (mkWorld
      (let st1 := <["validation_passed" := PBool (verdict_pass v)]>
                    (<["validation_feedback" := PStr v]> st) in
       let st2 := if verdict_pass v || is_none (default PNone (st !! "best_image"))
                  then <["best_image" := PStr cur]> st1 else st1 in
       if verdict_logo v then st2
       else <["validation_feedback" := PStr (v +:+ logo_remediation)]> st2)
      fs).
Proof.
  intros Hc Hl Hfc Hfl Hp Hi. unfold editor_agent, verdict_pass, verdict_logo. mgo.
  destruct (Str.contains "VALIDATION: PASS" (Str.upper v)); mgo.
  - destruct (Str.contains "LOGO_INTEGRATED: YES" (Str.upper v)); mgo; reflexivity.
  - destruct (is_none (default PNone (st !! "best_image"))); mgo;
      destruct (Str.contains "LOGO_INTEGRATED: YES" (Str.upper v)); mgo; reflexivity.
Qed.

Lemma editor_agent_raise e st fs cur logo cur_bytes logo_bytes p i :
  st !! "current_image" = Some (PStr cur) ->
  st !! "input_image_path" = Some (PStr logo) ->
  fs !! cur = Some cur_bytes ->
  fs !! logo = Some logo_bytes ->
  st !! "planning_output" = Some p ->
  st !! "input_text" = Some i ->
  editor_agent (inl e) (mkWorld st fs) = Raise e (mkWorld st fs).
Proof.
  intros Hc Hl Hfc Hfl Hp Hi. unfold editor_agent. mgo. reflexivity.
Qed.

(** ** The candidate tracker *)

Lemma text_attempt_spec config g v w :
  text_ready (state w) ->
  exists w',
    text_attempt config g v w = Ok tt w'
    /\ text_ready (state w')
    /\ best_of w' "best_text"
       = spec_recordAttempt (best_of w "best_text") (PStr g) (verdict_pass v).
Proof.
  destruct w as [st fs]. cbn [state].
  intros ([c Hc] & [p Hp] & [i Hi]).
  unfold text_attempt.
  cbv beta delta [mbind M_bind bind].
  rewrite (text_generation_agent_run config g st fs c p i Hc Hp Hi).
  cbv zeta. unfold best_of, spec_recordAttempt. cbn [state].
  destruct (is_none (default PNone (st !! "best_text"))) eqn:Hb.
  - erewrite validate_text_run; [|mlook1; repeat mlook1; reflexivity..].
    eexists; split; [reflexivity|]. cbv zeta. cbn [state].
    split.
    + destruct (verdict_pass v); repeat split; repeat mlook1; eauto.
    + destruct (verdict_pass v); repeat mlook1; reflexivity.
  - erewrite validate_text_run; [|mlook1; repeat mlook1; reflexivity..].
    eexists; split; [reflexivity|]. cbv zeta. cbn [state].
    split.
    + destruct (verdict_pass v); repeat split; repeat mlook1; eauto.
    + destruct (verdict_pass v); repeat mlook1; reflexivity.
Qed.

Lemma editor_agent_spec cur v w :
  state w !! "current_image" = Some (PStr cur) ->
  is_Some (files w !! cur) ->
  editor_ready w ->
  exists w',
    editor_agent (inr (Some v)) w = Ok tt w'
    /\ files w' = files w
    /\ editor_ready w'
    /\ best_of w' "best_image"
       = spec_recordAttempt (best_of w "best_image") (PStr cur) (verdict_pass v).
Proof.
  destruct w as [st fs]. cbn [state files].
  intros Hc [cb Hcb] ([logo [Hl [lb Hlb]]] & [p Hp] & [i Hi]).
  rewrite (editor_agent_run v st fs cur logo cb lb p i Hc Hl Hcb Hlb Hp Hi).
  eexists; split; [reflexivity|]. cbv zeta.
  unfold best_of, spec_recordAttempt, editor_ready. cbn [state files].
  split; [reflexivity|].
  destruct (verdict_pass v); cbn [orb];
    destruct (is_none (default PNone (st !! "best_image"))) eqn:Hb;
    destruct (verdict_logo v);
    (split; [repeat split; [exists logo; split; [|eauto]|..]|]);
    repeat mlook1; eauto.
Qed.

Lemma image_attempt_spec cur v w :
  is_Some (files w !! cur) ->
  editor_ready w ->
  exists w',
    image_attempt cur v w = Ok tt w'
    /\ files w' = files w
    /\ editor_ready w'
    /\ best_of w' "best_image"
       = spec_recordAttempt (best_of w "best_image") (PStr cur) (verdict_pass v).
Proof.
  intros Hcur Hready. unfold image_attempt.
  cbv beta delta [mbind M_bind bind set_item].
  set (w1 := mkWorld (<["current_image" := PStr cur]> (state w)) (files w)).
  destruct (editor_agent_spec cur v w1) as (w' & Hrun & Hfs & Hr & Hbest).
  - subst w1. cbn [state]. apply lookup_insert_eq.
  - exact Hcur.
  - destruct Hready as ([logo [Hl Hlb]] & Hp & Hi).
    subst w1. unfold editor_ready. cbn [state files].
    repeat split; [exists logo; split|..]; repeat mlook1; eauto.
  - exists w'. rewrite Hrun.
    split; [reflexivity|]. split; [exact Hfs|]. split; [exact Hr|].
    rewrite Hbest. unfold best_of. subst w1. cbn [state]. repeat mlook1.
    reflexivity.
Qed.

Lemma spec_recordAttempt_failed best candidate :
  is_none best = false -> spec_recordAttempt best candidate false = best.
Proof. intros H. unfold spec_recordAttempt. rewrite H. reflexivity. Qed.

Lemma spec_recordAttempt_passed best candidate :
  spec_recordAttempt best candidate true = candidate.
Proof. unfold spec_recordAttempt. destruct (is_none best); reflexivity. Qed.

Lemma spec_recordAttempt_first candidate passed :
  spec_recordAttempt PNone candidate passed = candidate.
Proof. reflexivity. Qed.

(** Failing attempts after a best exists leave it where it is. *)
Lemma text_attempts_failing config l :
  forall w,
    text_ready (state w) ->
    is_none (best_of w "best_text") = false ->
    Forall (fun a => verdict_pass (snd a) = false) l ->
    exists w',
      text_attempts config l w = Ok tt w'
      /\ best_of w' "best_text" = best_of w "best_text".
Proof.
  induction l as [|[g v] l IH]; intros w Hready Hbest Hfail.
  - exists w. split; reflexivity.
  - inversion Hfail as [|a l' Hv Hl]; subst. cbn [snd] in Hv.
    destruct (text_attempt_spec config g v w Hready) as (w1 & Hrun & Hr1 & Hb1).
    rewrite Hv, spec_recordAttempt_failed in Hb1 by exact Hbest.
    destruct (IH w1 Hr1) as (w' & Hrun' & Hb'); [congruence | exact Hl |].
    exists w'. split; [|congruence].
    cbn [text_attempts]. cbv beta delta [mbind M_bind bind].
    rewrite Hrun. exact Hrun'.
Qed.

(** Any attempts run to completion from a ready state. *)
Lemma text_attempts_run config l :
  forall w,
    text_ready (state w) ->
    exists w', text_attempts config l w = Ok tt w' /\ text_ready (state w').
Proof.
  induction l as [|[g v] l IH]; intros w Hready.
  - exists w. split; [reflexivity | exact Hready].
  - destruct (text_attempt_spec config g v w Hready) as (w1 & Hrun & Hr1 & _).
    destruct (IH w1 Hr1) as (w' & Hrun' & Hr').
    exists w'. split; [|exact Hr'].
    cbn [text_attempts]. cbv beta delta [mbind M_bind bind].
    rewrite Hrun. exact Hrun'.
Qed.

Lemma text_attempts_app config l1 l2 w w1 :
  text_attempts config l1 w = Ok tt w1 ->
  text_attempts config (l1 ++ l2) w = text_attempts config l2 w1.
Proof.
  revert w. induction l1 as [|[g v] l1 IH]; intros w Hrun.
  - cbn in Hrun. injection Hrun as ->. reflexivity.
  - cbn [text_attempts app] in *. cbv beta delta [mbind M_bind bind] in *.
    destruct (text_attempt config g v w) as [[] w2|e w2]; [|discriminate].
    apply IH. exact Hrun.
Qed.

Lemma image_attempts_failing l :
  forall w,
    editor_ready w ->
    Forall (fun a => is_Some (files w !! fst a)) l ->
    is_none (best_of w "best_image") = false ->
    Forall (fun a => verdict_pass (snd a) = false) l ->
    exists w',
      image_attempts l w = Ok tt w'
      /\ best_of w' "best_image" = best_of w "best_image".
Proof.
  induction l as [|[cur v] l IH]; intros w Hready Hfiles Hbest Hfail.
  - exists w. split; reflexivity.
  - inversion Hfail as [|a l' Hv Hl]; subst. cbn [snd] in Hv.
    inversion Hfiles as [|a l' Hcur Hrest]; subst. cbn [fst] in Hcur.
    destruct (image_attempt_spec cur v w Hcur Hready)
      as (w1 & Hrun & Hfs & Hr1 & Hb1).
    rewrite Hv, spec_recordAttempt_failed in Hb1 by exact Hbest.
    destruct (IH w1 Hr1) as (w' & Hrun' & Hb').
    + rewrite Hfs. exact Hrest.
    + congruence.
    + exact Hl.
    + exists w'. split; [|congruence].
      cbn [image_attempts]. cbv beta delta [mbind M_bind bind].
      rewrite Hrun. exact Hrun'.
Qed.

Lemma image_attempts_run l :
  forall w,
    editor_ready w ->
    Forall (fun a => is_Some (files w !! fst a)) l ->
    exists w',
      image_attempts l w = Ok tt w' /\ files w' = files w /\ editor_ready w'.
Proof.
  induction l as [|[cur v] l IH]; intros w Hready Hfiles.
  - exists w. split; [reflexivity|]. split; [reflexivity | exact Hready].
  - inversion Hfiles as [|a l' Hcur Hrest]; subst. cbn [fst] in Hcur.
    destruct (image_attempt_spec cur v w Hcur Hready)
      as (w1 & Hrun & Hfs & Hr1 & _).
    destruct (IH w1 Hr1) as (w' & Hrun' & Hfs' & Hr').
    + rewrite Hfs. exact Hrest.
    + exists w'. split; [|split; [congruence | exact Hr']].
      cbn [image_attempts]. cbv beta delta [mbind M_bind bind].
      rewrite Hrun. exact Hrun'.
Qed.

Lemma image_attempts_app l1 l2 w w1 :
  image_attempts l1 w = Ok tt w1 ->
  image_attempts (l1 ++ l2) w = image_attempts l2 w1.
Proof.
  revert w. induction l1 as [|[cur v] l1 IH]; intros w Hrun.
  - cbn in Hrun. injection Hrun as ->. reflexivity.
  - cbn [image_attempts app] in *. cbv beta delta [mbind M_bind bind] in *.
    destruct (image_attempt cur v w) as [[] w2|e w2]; [|discriminate].
    apply IH. exact Hrun.
Qed.

(** C2. Candidate tracking in both retried loops. One attempt of the text
    loop (generation then validation) and one run of the image validation
    stage act on their best-so-far pointer as [recordAttempt] does: the
    pointer is set on the first attempt whatever the verdict, overwritten
    on a later attempt exactly when that attempt passed, and left alone by a
    failed attempt once it is set. Hence in any sequence of attempts, after
    a passing attempt followed only by failing ones the pointer still holds
    the passing attempt's candidate. *)
Theorem candidate_tracker_non_downgrade (config : Config) :
  (* one attempt of the text loop *)
  (forall w g v,
     text_ready (state w) ->
     exists w',
       text_attempt config g v w = Ok tt w'
       /\ best_of w' "best_text"
          = spec_recordAttempt (best_of w "best_text") (PStr g) (verdict_pass v))
  /\
  (* one validation of the image loop *)
  (forall w cur v,
     state w !! "current_image" = Some (PStr cur) ->
     is_Some (files w !! cur) ->
     editor_ready w ->
     exists w',
       editor_agent (inr (Some v)) w = Ok tt w'
       /\ best_of w' "best_image"
          = spec_recordAttempt (best_of w "best_image") (PStr cur) (verdict_pass v))
  /\
  (* what recordAttempt does *)
  (forall best candidate passed,
     (is_none best = true -> spec_recordAttempt best candidate passed = candidate)
     /\ (is_none best = false ->
         spec_recordAttempt best candidate passed
         = if passed then candidate else best))
  /\
  (* sequences of text attempts *)
  (forall w before g v after,
     text_ready (state w) ->
     verdict_pass v = true ->
     Forall (fun a => verdict_pass (snd a) = false) after ->
     exists w',
       text_attempts config (before ++ (g, v) :: after) w = Ok tt w'
       /\ best_of w' "best_text" = PStr g)
  /\
  (* sequences of image attempts *)
  (forall w before cur v after,
     editor_ready w ->
     Forall (fun a => is_Some (files w !! fst a)) (before ++ (cur, v) :: after) ->
     verdict_pass v = true ->
     Forall (fun a => verdict_pass (snd a) = false) after ->
     exists w',
       image_attempts (before ++ (cur, v) :: after) w = Ok tt w'
       /\ best_of w' "best_image" = PStr cur).
Proof.
  split; [|split; [|split; [|split]]].
  - intros w g v Hready.
    destruct (text_attempt_spec config g v w Hready) as (w' & Hrun & _ & Hbest).
    exists w'. split; assumption.
  - intros w cur v Hcur Hfile Hready.
    destruct (editor_agent_spec cur v w Hcur Hfile Hready)
      as (w' & Hrun & _ & _ & Hbest).
    exists w'. split; assumption.
  - intros best candidate passed. unfold spec_recordAttempt.
    split; intros ->; reflexivity.
  - intros w before g v after Hready Hpass Hfail.
    destruct (text_attempts_run config before w Hready) as (w1 & Hrun1 & Hr1).
    destruct (text_attempt_spec config g v w1 Hr1) as (w2 & Hrun2 & Hr2 & Hb2).
    rewrite Hpass, spec_recordAttempt_passed in Hb2.
    destruct (text_attempts_failing config after w2 Hr2) as (w' & Hrun' & Hb').
    + rewrite Hb2. reflexivity.
    + exact Hfail.
    + exists w'. split; [|congruence].
      rewrite (text_attempts_app config before _ w w1 Hrun1).
      cbn [text_attempts]. cbv beta delta [mbind M_bind bind].
      rewrite Hrun2. exact Hrun'.
  - intros w before cur v after Hready Hfiles Hpass Hfail.
    apply Forall_app in Hfiles as [Hfb Hfa].
    inversion Hfa as [|a l' Hcur Hrest]; subst. cbn [fst] in Hcur.
    destruct (image_attempts_run before w Hready Hfb) as (w1 & Hrun1 & Hfs1 & Hr1).
    rewrite <- Hfs1 in Hcur, Hrest.
    destruct (image_attempt_spec cur v w1 Hcur Hr1)
      as (w2 & Hrun2 & Hfs2 & Hr2 & Hb2).
    rewrite Hpass, spec_recordAttempt_passed in Hb2.
    rewrite <- Hfs2 in Hrest.
    destruct (image_attempts_failing after w2 Hr2 Hrest) as (w' & Hrun' & Hb').
    + rewrite Hb2. reflexivity.
    + exact Hfail.
    + exists w'. split; [|congruence].
      rewrite (image_attempts_app before _ w w1 Hrun1).
      cbn [image_attempts]. cbv beta delta [mbind M_bind bind].
      rewrite Hrun2. exact Hrun'.
Qed.

(** ** String lemmas behind the response parsers *)

Section StringFacts.

Lemma startswith_empty_false sep :
  sep <> EmptyString -> Str.startswith sep EmptyString = false.
Proof. destruct sep; [congruence | reflexivity]. Qed.

Lemma startswith_trans l m s :
  Str.startswith l m = true ->
  Str.startswith m s = true ->
  Str.startswith l s = true.
Proof.
  revert m s. induction l as [|c l IH]; intros m s Hlm Hms; [reflexivity|].
  destruct m as [|d m]; [discriminate|].
  destruct s as [|e s]; [discriminate|].
  cbn [Str.startswith] in *.
  destruct (Ascii.eqb_spec c d) as [->|Hne]; [|discriminate].
  destruct (Ascii.eqb d e); [|discriminate].
  apply (IH m s); assumption.
Qed.

(** Where a marker occurs, every prefix of it occurs. *)
Lemma contains_prefix l m s :
  Str.startswith l m = true ->
  Str.contains m s = true ->
  Str.contains l s = true.
Proof.
  intros Hlm. induction s as [|d s IH]; cbn [Str.contains]; intros H.
  - apply orb_true_iff in H as [H|H]; [|discriminate].
    rewrite (startswith_trans l m _ Hlm H). reflexivity.
  - apply orb_true_iff in H as [H|H].
    + rewrite (startswith_trans l m _ Hlm H). reflexivity.
    + rewrite (IH H). apply orb_true_r.
Qed.

Lemma startswith_upper p s :
  Str.startswith p s = true ->
  Str.startswith (Str.upper p) (Str.upper s) = true.
Proof.
  revert s. induction p as [|c p IH]; intros s H; [reflexivity|].
  destruct s as [|d s]; cbn [Str.startswith Str.upper] in *; [discriminate|].
  destruct (Ascii.eqb_spec c d) as [->|Hne]; [|discriminate].
  rewrite Ascii.eqb_refl. apply IH. exact H.
Qed.

Lemma contains_upper sub s :
  Str.contains sub s = true ->
  Str.contains (Str.upper sub) (Str.upper s) = true.
Proof.
  induction s as [|d s IH]; cbn [Str.contains Str.upper]; intros H.
  - apply orb_true_iff in H as [H|H]; [|discriminate].
    apply startswith_upper in H. cbn [Str.upper] in H. rewrite H. reflexivity.
  - apply orb_true_iff in H as [H|H].
    + apply startswith_upper in H. cbn [Str.upper] in H. rewrite H. reflexivity.
    + rewrite (IH H). apply orb_true_r.
Qed.

(** A split always yields a first piece. *)
Lemma split_go_nonempty sep s :
  forall skip piece, exists x l, Str.split_go sep skip piece s = x :: l.
Proof.
  induction s as [|c s IH]; intros skip piece; cbn [Str.split_go].
  - eauto.
  - destruct skip as [|k]; [|apply IH].
    destruct (Str.startswith sep (String c s)); [eauto | apply IH].
Qed.

(** A separator that occurs yields a second piece. *)
Lemma split_go_second sep s :
  sep <> EmptyString ->
  Str.contains sep s = true ->
  forall piece, exists x y l, Str.split_go sep O piece s = x :: y :: l.
Proof.
  intros Hsep. induction s as [|c s IH]; cbn [Str.contains]; intros H piece.
  - rewrite startswith_empty_false in H by exact Hsep. discriminate.
  - cbn [Str.split_go].
    destruct (Str.startswith sep (String c s)) eqn:Hst.
    + destruct (split_go_nonempty sep s (String.length sep - 1) EmptyString)
        as (y & l & ->).
      eauto.
    + cbn [orb] in H. apply IH. exact H.
Qed.

Lemma split_index_0 sep s :
  exists x, Str.split sep s !! O = Some x.
Proof.
  unfold Str.split.
  destruct (split_go_nonempty sep s O EmptyString) as (x & l & ->).
  exists x. reflexivity.
Qed.

Lemma split_index_1 sep s :
  sep <> EmptyString ->
  Str.contains sep s = true ->
  exists y, Str.split sep s !! 1%nat = Some y.
Proof.
  intros Hsep H. unfold Str.split.
  destruct (split_go_second sep s Hsep H EmptyString) as (x & y & l & ->).
  exists y. reflexivity.
Qed.

End StringFacts.

(** ** The validation response parser *)

Lemma cut_at_first_total fields section :
  exists x, forall w, cut_at_first fields section w = Ok x w.
Proof.
  induction fields as [|field rest IH]; cbn [cut_at_first].
  - exists section. reflexivity.
  - destruct (Str.contains field section); [|exact IH].
    destruct (split_index_0 field section) as [x Hx].
    exists x. intros w. unfold py_index. rewrite Hx. reflexivity.
Qed.

(** The parser returns on every response, whatever the store. *)
Lemma parse_validation_result_total r :
  exists p, forall w, parse_validation_result r w = Ok p w.
Proof.
  unfold parse_validation_result.
  destruct (Str.contains "FOUND_TEXT:" r) eqn:Hfound;
    destruct (Str.contains "SPECIFIC_FIX:" r) eqn:Hfix.
  - destruct (split_index_1 "FOUND_TEXT:" r) as [a Ha]; [discriminate | exact Hfound |].
    destruct (cut_at_first_total ["SPECIFIC_FIX:"; "VALIDATION:"] a) as [a' Ha'].
    destruct (split_index_1 "SPECIFIC_FIX:" r) as [b Hb]; [discriminate | exact Hfix |].
    destruct (Str.contains "VALIDATION:" b) eqn:Hv.
    + destruct (split_index_0 "VALIDATION:" b) as [b' Hb'].
      eexists. intros w. mgo. rewrite Ha'. mgo. rewrite Hv. mgo. reflexivity.
    + eexists. intros w. mgo. rewrite Ha'. mgo. rewrite Hv. mgo. reflexivity.
  - destruct (split_index_1 "FOUND_TEXT:" r) as [a Ha]; [discriminate | exact Hfound |].
    destruct (cut_at_first_total ["SPECIFIC_FIX:"; "VALIDATION:"] a) as [a' Ha'].
    eexists. intros w. mgo. rewrite Ha'. mgo. reflexivity.
  - destruct (split_index_1 "SPECIFIC_FIX:" r) as [b Hb]; [discriminate | exact Hfix |].
    destruct (Str.contains "VALIDATION:" b) eqn:Hv.
    + destruct (split_index_0 "VALIDATION:" b) as [b' Hb'].
      eexists. intros w. mgo. rewrite Hv. mgo. reflexivity.
    + eexists. intros w. mgo. rewrite Hv. mgo. reflexivity.
  - eexists. intros w. mgo. reflexivity.
Qed.

Lemma lacks_labels_elim response l :
  lacks_labels response = true ->
  In l known_labels ->
  Str.contains l (Str.upper response) = false.
Proof.
  unfold lacks_labels. rewrite forallb_forall. intros H Hin.
  apply negb_true_iff. apply H. exact Hin.
Qed.

(** A marker that starts with a label is absent when the label is. *)
Lemma lacks_marker response l marker :
  lacks_labels response = true ->
  In l known_labels ->
  Str.startswith l marker = true ->
  Str.contains marker (Str.upper response) = false.
Proof.
  intros H Hin Hpre.
  destruct (Str.contains marker (Str.upper response)) eqn:Hc; [|reflexivity].
  apply (contains_prefix l) in Hc; [|exact Hpre].
  rewrite (lacks_labels_elim response l H Hin) in Hc. discriminate.
Qed.

(** An upper-case label that is absent from the upper-cased copy is absent
    from the response itself. *)
Lemma lacks_raw response l :
  lacks_labels response = true ->
  In l known_labels ->
  Str.upper l = l ->
  Str.contains l response = false.
Proof.
  intros H Hin Hup.
  destruct (Str.contains l response) eqn:Hc; [|reflexivity].
  apply contains_upper in Hc. rewrite Hup in Hc.
  rewrite (lacks_labels_elim response l H Hin) in Hc. discriminate.
Qed.

Lemma parse_validation_result_defaults r :
  lacks_labels r = true ->
  forall w,
    parse_validation_result r w
    = Ok (mkParsed false false false PNone PNone) w.
Proof.
  intros H w. unfold parse_validation_result.
  rewrite (lacks_marker r "VALIDATION:" "VALIDATION: APPROVED" H)
    by (cbn; tauto || reflexivity).
  rewrite (lacks_marker r "TEXT_CORRECT:" "TEXT_CORRECT: YES" H)
    by (cbn; tauto || reflexivity).
  rewrite (lacks_marker r "TEXT_CLEAR:" "TEXT_CLEAR: YES" H)
    by (cbn; tauto || reflexivity).
  rewrite (lacks_raw r "FOUND_TEXT:" H) by (cbn; tauto || reflexivity).
  rewrite (lacks_raw r "SPECIFIC_FIX:" H) by (cbn; tauto || reflexivity).
  reflexivity.
Qed.

Lemma text_validation_agent_run r st fs poster bytes p :
  st !! "poster_with_text" = Some (PStr poster) ->
  fs !! poster = Some bytes ->
  (forall w, parse_validation_result r w = Ok p w) ->
  text_validation_agent (inr (Some r)) (mkWorld st fs)
  = Ok tt (mkWorld
      (store_text_validation
         (if validation_approved p then "approved" else "rejected") r
         (text_is_correct p) (text_is_clear p) (found_text p) (specific_fix p) st)
      fs).
Proof.
  intros Hp Hf Hparse. unfold text_validation_agent, store_text_validation.
  mgo. rewrite Hparse. mgo. reflexivity.
Qed.

Lemma text_validation_agent_raise e st fs poster bytes :
  st !! "poster_with_text" = Some (PStr poster) ->
  fs !! poster = Some bytes ->
  text_validation_agent (inl e) (mkWorld st fs)
  = Ok tt (mkWorld
      (store_text_validation "rejected"
         ("Validation failed due to error: " +:+ str_exn e)
         false false PNone PNone st)
      fs).
Proof.
  intros Hp Hf. unfold text_validation_agent, store_text_validation.
  mgo. reflexivity.
Qed.

(** C6. The validation response parser is total and conservative. On every
    response string the parser of the text validation agent returns (it
    never raises, the store is untouched), and on a response that lacks all
    known labels, the empty response among them, every parsed field takes
    its default: not approved, text not correct, text not clear, no found
    text, no specific fix; the text and image validators read "not passed"
    and "logo not integrated" off such a response. The stages store exactly
    these defaults. *)
Theorem parser_total_conservative :
  (forall r, exists p, forall w, parse_validation_result r w = Ok p w)
  /\
  (forall r,
     lacks_labels r = true ->
     (forall w, parse_validation_result r w
                = Ok (mkParsed false false false PNone PNone) w)
     /\ verdict_pass r = false
     /\ verdict_logo r = false)
  /\
  lacks_labels EmptyString = true
  /\
  (forall r st fs poster bytes,
     lacks_labels r = true ->
     st !! "poster_with_text" = Some (PStr poster) ->
     fs !! poster = Some bytes ->
     text_validation_agent (inr (Some r)) (mkWorld st fs)
     = Ok tt (mkWorld
         (store_text_validation "rejected" r false false PNone PNone st) fs))
  /\
  (forall r st fs p g,
     lacks_labels r = true ->
     st !! "planning_output" = Some p ->
     st !! "generated_text" = Some g ->
     validate_text (inr (Some r)) (mkWorld st fs)
     = Ok tt (mkWorld
         (<["validation_passed" := PBool false]>
            (<["validation_feedback" := PStr r]> st)) fs)).
Proof.
  assert (Hpass : forall r, lacks_labels r = true -> verdict_pass r = false).
  { intros r H. unfold verdict_pass.
    apply (lacks_marker r "VALIDATION:"); [exact H | cbn; tauto | reflexivity]. }
  split; [|split; [|split; [|split]]].
  - exact parse_validation_result_total.
  - intros r H. split; [|split].
    + apply parse_validation_result_defaults. exact H.
    + apply Hpass. exact H.
    + unfold verdict_logo.
      apply (lacks_marker r "LOGO_INTEGRATED:"); [exact H | cbn; tauto | reflexivity].
  - reflexivity.
  - intros r st fs poster bytes H Hp Hf.
    rewrite (text_validation_agent_run r st fs poster bytes
               (mkParsed false false false PNone PNone) Hp Hf).
    + reflexivity.
    + apply parse_validation_result_defaults. exact H.
  - intros r st fs p g H Hp Hg.
    rewrite (validate_text_run r st fs p g Hp Hg).
    rewrite (Hpass r H). reflexivity.
Qed.

(** ** The image validation stage *)

Lemma editor_agent_feedback v st fs cur logo cur_bytes logo_bytes p i :
  st !! "current_image" = Some (PStr cur) ->
  st !! "input_image_path" = Some (PStr logo) ->
  fs !! cur = Some cur_bytes ->
  fs !! logo = Some logo_bytes ->
  st !! "planning_output" = Some p ->
  st !! "input_text" = Some i ->
  exists w',
    editor_agent (inr (Some v)) (mkWorld st fs) = Ok tt w'
    /\ state w' !! "validation_passed" = Some (PBool (verdict_pass v))
    /\ state w' !! "validation_feedback"
       = Some (PStr (if verdict_logo v then v else v +:+ logo_remediation)).
Proof.
  intros Hc Hl Hfc Hfl Hp Hi.
  rewrite (editor_agent_run v st fs cur logo cur_bytes logo_bytes p i
             Hc Hl Hfc Hfl Hp Hi).
  eexists. split; [reflexivity|]. cbv zeta. cbn [state].
  destruct (verdict_pass v || is_none (default PNone (st !! "best_image")));
    destruct (verdict_logo v); split; repeat mlook1; reflexivity.
Qed.

(** C7. The image validation signal has two tiers. For every response the
    stored flag [validation_passed] is the presence of the marker
    "VALIDATION: PASS" in the upper-cased response, whatever the response
    says about the logo; the logo marker only decides the feedback text.
    In particular a response with "VALIDATION: PASS" that lacks
    "LOGO_INTEGRATED: YES" is stored as passed, and the stored feedback is
    the response followed by the fixed remediation instruction, appended
    once: two line breaks and the sentences "IMPORTANT: Logo not properly
    integrated. Must revert to input.png as base.", 76 characters that
    are not part of the response. *)
Theorem image_validation_two_tier
    (v : string) (st : gmap string pyval) (fs : gmap string string)
    (cur logo cur_bytes logo_bytes : string) (p i : pyval) :
  st !! "current_image" = Some (PStr cur) ->
  st !! "input_image_path" = Some (PStr logo) ->
  fs !! cur = Some cur_bytes ->
  fs !! logo = Some logo_bytes ->
  st !! "planning_output" = Some p ->
  st !! "input_text" = Some i ->
  exists w',
    editor_agent (inr (Some v)) (mkWorld st fs) = Ok tt w'
    /\ state w' !! "validation_passed" = Some (PBool (verdict_pass v))
    /\ state w' !! "validation_feedback"
       = Some (PStr (if verdict_logo v then v else v +:+ logo_remediation))
    /\ (Str.contains "VALIDATION: PASS" (Str.upper v) = true ->
        Str.contains "LOGO_INTEGRATED: YES" (Str.upper v) = false ->
        state w' !! "validation_passed" = Some (PBool true)
        /\ state w' !! "validation_feedback"
           = Some (PStr (v +:+ "

IMPORTANT: Logo not properly integrated. Must revert to input.png as base."))
        /\ String.length (v +:+ "

IMPORTANT: Logo not properly integrated. Must revert to input.png as base.")
           = (String.length v + 76)%nat).
Proof.
  intros Hc Hl Hfc Hfl Hp Hi.
  destruct (editor_agent_feedback v st fs cur logo cur_bytes logo_bytes p i
              Hc Hl Hfc Hfl Hp Hi) as (w' & Hrun & Hpassed & Hfeedback).
  exists w'. split; [exact Hrun|]. split; [exact Hpassed|].
  split; [exact Hfeedback|].
  intros Hpass Hlogo. fold (verdict_pass v) in Hpass. fold (verdict_logo v) in Hlogo.
  rewrite Hpassed, Hfeedback, Hpass, Hlogo.
  split; [reflexivity|]. split; [reflexivity|].
  clear. induction v as [|c v IH]; [reflexivity|].
  change (S (String.length (v +:+ "

IMPORTANT: Logo not properly integrated. Must revert to input.png as base."))
          = S (String.length v + 76)).
  rewrite IH. reflexivity.
Qed.

(** ** Which keys a validation stage writes *)

Lemma on_return_Ok {A} (o : outcome A) (P : World -> Prop) a w :
  on_return o P -> o = Ok a w -> P w.
Proof. intros H ->. exact H. Qed.

Lemma validate_text_frame reply w k :
  k <> "validation_feedback" -> k <> "validation_passed" -> k <> "best_text" ->
  state (final_world (validate_text reply w)) !! k = state w !! k.
Proof.
  intros H1 H2 H3. destruct w as [st fs]. unfold validate_text.
  mframe.
  all: rewrite ?lookup_insert_ne by congruence; reflexivity.
Qed.

Lemma editor_agent_frame reply w k :
  k <> "validation_feedback" -> k <> "validation_passed" -> k <> "best_image" ->
  state (final_world (editor_agent reply w)) !! k = state w !! k.
Proof.
  intros H1 H2 H3. destruct w as [st fs]. unfold editor_agent.
  mframe.
  all: rewrite ?lookup_insert_ne by congruence; reflexivity.
Qed.

Lemma text_validation_agent_frame reply w k :
  ~ In k text_validation_keys ->
  state (final_world (text_validation_agent reply w)) !! k = state w !! k.
Proof.
  intros Hk. cbn in Hk.
  destruct w as [st fs]. unfold text_validation_agent.
  destruct reply as [e|[r|]].
  - mframe.
    all: rewrite ?lookup_insert_ne by (intros <-; tauto); reflexivity.
  - destruct (parse_validation_result_total r) as [p Hp].
    mgo; cbn [final_world];
      repeat (first [rewrite Hp | mcase]; mgo; cbn [final_world]).
    all: rewrite ?lookup_insert_ne by (intros <-; tauto); reflexivity.
  - mframe.
    all: rewrite ?lookup_insert_ne by (intros <-; tauto); reflexivity.
Qed.

Lemma validate_text_writes v w :
  on_return (validate_text (inr (Some v)) w) (fun w' =>
    state w' !! "validation_passed" = Some (PBool (verdict_pass v))
    /\ state w' !! "validation_feedback" = Some (PStr v)).
Proof.
  destruct w as [st fs]. unfold validate_text, verdict_pass.
  mframe; try exact I.
  all: split; repeat mlook1; reflexivity.
Qed.

Lemma editor_agent_writes v w :
  on_return (editor_agent (inr (Some v)) w) (fun w' =>
    state w' !! "validation_passed" = Some (PBool (verdict_pass v))
    /\ state w' !! "validation_feedback"
       = Some (PStr (if verdict_logo v then v else v +:+ logo_remediation))).
Proof.
  destruct w as [st fs]. unfold editor_agent, verdict_pass, verdict_logo.
  mframe; try exact I.
  all: split; repeat mlook1; try reflexivity.
  all: cbn [negb] in *; congruence.
Qed.

(** A stage that commutes with an assignment to a key does not read it. *)

Ltac mignore :=
  mgo; cbn [with_item];
  repeat (mcase; mgo; cbn [with_item]);
  cbn [state files]; try reflexivity.

Ltac push_insert k :=
  repeat rewrite (insert_insert_ne _ k _) by discriminate.

Lemma text_validation_agent_ignores reply st fs k x :
  In k ["validation_passed"; "validation_feedback"] ->
  text_validation_agent reply (mkWorld (<[k := x]> st) fs)
  = with_item k x (text_validation_agent reply (mkWorld st fs)).
Proof.
  intros Hk. cbn in Hk. unfold text_validation_agent.
  destruct reply as [e|[r|]].
  - destruct Hk as [<-|[<-|[]]]; mignore.
    all: match goal with |- context [insert ?k _ ?m] => is_var m; push_insert k end;
      reflexivity.
  - destruct (parse_validation_result_total r) as [p Hp].
    destruct Hk as [<-|[<-|[]]].
    all: mgo; cbn [with_item];
      repeat (first [rewrite !Hp | mcase]; mgo; cbn [with_item]);
      cbn [state files]; try reflexivity.
    all: match goal with |- context [insert ?k _ ?m] => is_var m; push_insert k end;
      reflexivity.
  - destruct Hk as [<-|[<-|[]]]; mignore.
    all: match goal with |- context [insert ?k _ ?m] => is_var m; push_insert k end;
      reflexivity.
Qed.

Lemma validate_text_ignores reply st fs k x :
  In k text_validation_keys ->
  validate_text reply (mkWorld (<[k := x]> st) fs)
  = with_item k x (validate_text reply (mkWorld st fs)).
Proof.
  intros Hk. cbn in Hk. unfold validate_text.
  repeat (destruct Hk as [<-|Hk]); [..|destruct Hk].
  all: mignore.
  all: match goal with |- context [insert ?k _ ?m] => is_var m; push_insert k end; reflexivity.
Qed.

Lemma editor_agent_ignores reply st fs k x :
  In k text_validation_keys ->
  editor_agent reply (mkWorld (<[k := x]> st) fs)
  = with_item k x (editor_agent reply (mkWorld st fs)).
Proof.
  intros Hk. cbn in Hk. unfold editor_agent.
  repeat (destruct Hk as [<-|Hk]); [..|destruct Hk].
  all: mignore.
  all: match goal with |- context [insert ?k _ ?m] => is_var m; push_insert k end; reflexivity.
Qed.

(** ** The scope of the stored validation result *)

(** Counterexample to C3. The image validation stage overwrites the verdict
    and the feedback that the text validation stage stored: both use the
    keys [validation_passed] and [validation_feedback]. *)
Lemma validation_result_shared_by_text_and_image :
  returned text_accepted = true
  /\ state (final_world text_accepted) !! "validation_passed"
     = Some (PBool true)
  /\ state (final_world text_accepted) !! "validation_feedback"
     = Some (PStr "VALIDATION: PASS")
  /\ returned image_rejected = true
  /\ state (final_world image_rejected) !! "validation_passed"
     = Some (PBool false)
  /\ state (final_world image_rejected) !! "validation_feedback"
     = Some (PStr "VALIDATION: FAIL LOGO_INTEGRATED: YES").
Proof.
  split; [vm_compute; reflexivity|].
  split; [vm_compute; reflexivity|].
  split; [vm_compute; reflexivity|].
  split; [vm_compute; reflexivity|].
  split; vm_compute; reflexivity.
Qed.

(** C3, as amended. Validation results are stored in two places, not three.
    The text validation stage and the image validation stage write the same
    two keys, [validation_passed] and [validation_feedback], each replacing
    what the other left there. The text validation agent of the overlay loop
    writes six keys of its own and neither writes nor reads those two (it
    commutes with any assignment to them), and the text and image
    validation stages neither write nor read its six. *)
Theorem validation_result_scopes :
  (forall v w w',
     validate_text (inr (Some v)) w = Ok tt w' ->
     state w' !! "validation_passed" = Some (PBool (verdict_pass v))
     /\ state w' !! "validation_feedback" = Some (PStr v))
  /\
  (forall v w w',
     editor_agent (inr (Some v)) w = Ok tt w' ->
     state w' !! "validation_passed" = Some (PBool (verdict_pass v))
     /\ state w' !! "validation_feedback"
        = Some (PStr (if verdict_logo v then v else v +:+ logo_remediation)))
  /\
  (forall reply w k,
     In k ["validation_passed"; "validation_feedback"] ->
     state (final_world (text_validation_agent reply w)) !! k = state w !! k)
  /\
  (forall reply w k,
     In k text_validation_keys ->
     state (final_world (validate_text reply w)) !! k = state w !! k
     /\ state (final_world (editor_agent reply w)) !! k = state w !! k)
  /\
  (forall reply st fs k x,
     In k ["validation_passed"; "validation_feedback"] ->
     text_validation_agent reply (mkWorld (<[k := x]> st) fs)
     = with_item k x (text_validation_agent reply (mkWorld st fs)))
  /\
  (forall reply st fs k x,
     In k text_validation_keys ->
     validate_text reply (mkWorld (<[k := x]> st) fs)
     = with_item k x (validate_text reply (mkWorld st fs))
     /\ editor_agent reply (mkWorld (<[k := x]> st) fs)
        = with_item k x (editor_agent reply (mkWorld st fs))).
Proof.
  split; [|split; [|split; [|split; [|split]]]];
    [..| exact text_validation_agent_ignores
       | intros reply st fs k x Hk; split;
         [apply validate_text_ignores | apply editor_agent_ignores]; exact Hk].
  - intros v w w' Hrun.
    exact (on_return_Ok _ _ tt w' (validate_text_writes v w) Hrun).
  - intros v w w' Hrun.
    exact (on_return_Ok _ _ tt w' (editor_agent_writes v w) Hrun).
  - intros reply w k Hk. apply text_validation_agent_frame.
    cbn in *. intros Hin.
    repeat (destruct Hk as [<-|Hk]; [intuition discriminate|]). exact Hk.
  - intros reply w k Hk. cbn in Hk.
    split; [apply validate_text_frame | apply editor_agent_frame];
      intros ->; intuition discriminate.
Qed.
(** ** Failures of collaborators *)

(** The overlay validator records a failure of its collaborator as a
    rejection, and the router then asks for the next attempt while attempts
    remain. *)
Lemma text_validation_agent_failure_retries config e st fs poster bytes count :
  st !! "poster_with_text" = Some (PStr poster) ->
  fs !! poster = Some bytes ->
  default (PInt 0) (st !! "text_adding_attempt_count") = PInt count ->
  count < MAX_TEXT_ADDING_ATTEMPTS config ->
  exists w',
    text_validation_agent (inl e) (mkWorld st fs) = Ok tt w'
    /\ state w' !! "text_validation_result" = Some (PStr "rejected")
    /\ should_retry_text_adding config w' = Ok "retry" w'.
Proof.
  intros Hp Hf Hc Hlt.
  rewrite (text_validation_agent_raise e st fs poster bytes Hp Hf).
  eexists. split; [reflexivity|]. split.
  - unfold store_text_validation. cbn [state]. repeat mlook1. reflexivity.
  - rewrite (should_retry_text_adding_route config _ count "rejected").
    + unfold spec_route.
      replace (MAX_TEXT_ADDING_ATTEMPTS config <=? count) with false
        by (symmetry; apply Z.leb_gt; exact Hlt).
      reflexivity.
    + unfold store_text_validation. cbn [state]. repeat mlook1. exact Hc.
    + unfold store_text_validation. cbn [state]. repeat mlook1. reflexivity.
Qed.

(** C5. What the stages do when a collaborator raises. The text adding
    validator catches the exception and stores a rejection; the text
    validation stage and the image validation stage have no handler: the
    exception leaves the stage with the state unchanged, as it does from
    the text generation stage. *)
Theorem collaborator_failure_by_stage
    (config : Config) (e : exn) (st : gmap string pyval) (fs : gmap string string) :
  (forall poster bytes,
     st !! "poster_with_text" = Some (PStr poster) ->
     fs !! poster = Some bytes ->
     text_validation_agent (inl e) (mkWorld st fs)
     = Ok tt (mkWorld
         (store_text_validation "rejected"
            ("Validation failed due to error: " +:+ str_exn e)
            false false PNone PNone st) fs))
  /\
  (forall p g,
     st !! "planning_output" = Some p ->
     st !! "generated_text" = Some g ->
     validate_text (inl e) (mkWorld st fs) = Raise e (mkWorld st fs))
  /\
  (forall cur logo cur_bytes logo_bytes p i,
     st !! "current_image" = Some (PStr cur) ->
     st !! "input_image_path" = Some (PStr logo) ->
     fs !! cur = Some cur_bytes ->
     fs !! logo = Some logo_bytes ->
     st !! "planning_output" = Some p ->
     st !! "input_text" = Some i ->
     editor_agent (inl e) (mkWorld st fs) = Raise e (mkWorld st fs))
  /\
  (forall c p i,
     st !! "text_attempt_count" = Some (PInt c) ->
     st !! "planning_output" = Some p ->
     st !! "input_text" = Some i ->
     text_generation_agent config (inl e) (mkWorld st fs)
     = Raise e (mkWorld (<["text_attempt_count" := PInt (c + 1)]> st) fs)).
Proof.
  split; [|split; [|split]].
  - intros poster bytes. apply text_validation_agent_raise.
  - intros p g. apply validate_text_raise.
  - intros cur logo cur_bytes logo_bytes p i. apply editor_agent_raise.
  - intros c p i. apply text_generation_agent_raise.
Qed.
(** ** Frames of the stages of the graph *)

Lemma load_pipeline_frame loaded w k :
  k <> "image_pipeline" ->
  state (final_world (load_pipeline loaded w)) !! k = state w !! k.
Proof.
  intros H1. destruct w as [st fs]. unfold load_pipeline.
  mframe.
  all: rewrite ?lookup_insert_ne by congruence; reflexivity.
Qed.

Lemma planning_agent_frame config reply w k :
  k <> "planning_output" ->
  state (final_world (planning_agent config reply w)) !! k = state w !! k.
Proof.
  intros H1. destruct w as [st fs]. unfold planning_agent.
  mframe.
  all: rewrite ?lookup_insert_ne by congruence; reflexivity.
Qed.

Lemma text_generation_agent_frame config reply w k :
  k <> "text_attempt_count" -> k <> "generated_text" -> k <> "best_text" ->
  state (final_world (text_generation_agent config reply w)) !! k = state w !! k.
Proof.
  intros H1 H2 H3. destruct w as [st fs]. unfold text_generation_agent.
  mframe.
  all: rewrite ?lookup_insert_ne by congruence; reflexivity.
Qed.

Lemma save_output_frame config w k :
  k <> "final_poster_path" -> k <> "final_text_path" ->
  state (final_world (save_output config w)) !! k = state w !! k.
Proof.
  intros H1 H2. destruct w as [st fs]. unfold save_output.
  mframe.
  all: rewrite ?lookup_insert_ne by congruence; reflexivity.
Qed.

Lemma load_input_counts config w :
  on_return (load_input config w) (fun w' =>
    state w' !! "text_attempt_count" = Some (PInt 0)
    /\ state w' !! "image_attempt_count" = Some (PInt 0)).
Proof.
  destruct w as [st fs]. unfold load_input.
  mframe; try exact I.
  all: split; repeat mlook1; reflexivity.
Qed.

Lemma text_generation_agent_counts config reply w n :
  state w !! "text_attempt_count" = Some (PInt n) ->
  on_return (text_generation_agent config reply w) (fun w' =>
    state w' !! "text_attempt_count" = Some (PInt (n + 1))).
Proof.
  destruct w as [st fs]. cbn [state]. intros Hn. unfold text_generation_agent.
  mframe; try exact I.
  all: repeat mlook1; reflexivity.
Qed.

(** ** Steps of the workflow graph *)

Section GraphSteps.

Variable config : Config.
Variable env : Env.

Let g := build_graph config env.

Lemma step_load_pipeline w t :
  step g (mkCfg "load_pipeline" w t)
  = plain_step "load_pipeline" "load_input"
      (load_pipeline (pipeline_loaded env) w) t.
Proof. reflexivity. Qed.

Lemma step_load_input w t :
  step g (mkCfg "load_input" w t)
  = plain_step "load_input" "planning" (load_input config w) t.
Proof. reflexivity. Qed.

Lemma step_planning w t :
  step g (mkCfg "planning" w t)
  = plain_step "planning" "text_generation"
      (planning_agent config (planning_reply env) w) t.
Proof. reflexivity. Qed.

Lemma step_text_generation w t :
  step g (mkCfg "text_generation" w t)
  = plain_step "text_generation" "text_validation"
      (text_generation_agent config
         (text_reply env (executions "text_generation" t)) w) t.
Proof. reflexivity. Qed.

Lemma step_text_validation w t :
  step g (mkCfg "text_validation" w t)
  = routed_step "text_validation"
      (validate_text (text_validation_reply env (executions "text_validation" t)) w)
      (should_retry_text config) "text_generation" "image_generation" t.
Proof.
  unfold step, routed_step. cbn.
  destruct (validate_text _ w) as [[] w1|e w1]; [|reflexivity].
  destruct (should_retry_text config w1) as [label w2|e w2]; [|reflexivity].
  destruct (String.eqb label "retry"); [reflexivity|].
  destruct (String.eqb label "continue"); reflexivity.
Qed.

Lemma step_image_generation w t :
  step g (mkCfg "image_generation" w t)
  = plain_step "image_generation" "image_validation"
      (image_generation_agent env (executions "image_generation" t) w) t.
Proof. reflexivity. Qed.

Lemma step_image_validation w t :
  step g (mkCfg "image_validation" w t)
  = routed_step "image_validation"
      (editor_agent (image_validation_reply env (executions "image_validation" t)) w)
      (should_retry_image config) "image_generation" "segmentation" t.
Proof.
  unfold step, routed_step. cbn.
  destruct (editor_agent _ w) as [[] w1|e w1]; [|reflexivity].
  destruct (should_retry_image config w1) as [label w2|e w2]; [|reflexivity].
  destruct (String.eqb label "retry"); [reflexivity|].
  destruct (String.eqb label "continue"); reflexivity.
Qed.

Lemma step_segmentation w t :
  step g (mkCfg "segmentation" w t)
  = Running (mkCfg "text_adding" w (Exec "segmentation" :: t)).
Proof. reflexivity. Qed.

Lemma step_text_adding w t :
  step g (mkCfg "text_adding" w t)
  = plain_step "text_adding" "save_output"
      (text_adding_agent env (executions "text_adding" t) w) t.
Proof. reflexivity. Qed.

Lemma step_save_output w t :
  step g (mkCfg "save_output" w t)
  = match save_output config w with
    | Raise e w' => Aborted "save_output" e w' (Exec "save_output" :: t)
    | Ok _ w' => Finished w' (Exec "save_output" :: t)
    end.
Proof. reflexivity. Qed.

Lemma step_running_node c c' :
  step g c = Running c' -> In (at_node c) node_names.
Proof.
  destruct c as [n w t]. unfold step. cbn [at_node].
  destruct (assoc n (nodes g)) as [f|] eqn:Hf; [intros _|discriminate].
  unfold g, build_graph in Hf. cbn in Hf.
  repeat match type of Hf with
         | (if String.eqb n ?s then _ else _) = _ =>
             destruct (String.eqb_spec n s) as [->|_]; [cbn; tauto|]
         end.
  discriminate.
Qed.

End GraphSteps.
(** ** The attempt counters along a run *)

Lemma outcome_final {A} (o : outcome A) a w : o = Ok a w -> final_world o = w.
Proof. intros ->. reflexivity. Qed.

Lemma executions_exec_same n t :
  executions n (Exec n :: t) = S (executions n t).
Proof. cbn [executions is_exec]. rewrite String.eqb_refl. reflexivity. Qed.

Lemma executions_exec_other n m t :
  m <> n -> executions n (Exec m :: t) = executions n t.
Proof.
  intros Hne. cbn [executions is_exec].
  destruct (String.eqb_spec m n); [contradiction | reflexivity].
Qed.

Lemma executions_routed n m label t :
  executions n (Routed m label :: t) = executions n t.
Proof. reflexivity. Qed.

Ltac inv_running H :=
  match type of H with
  | plain_step _ _ ?o _ = Running _ =>
      let Hrun := fresh "Hrun" in
      destruct o as [[] ?w|? ?w] eqn:Hrun; cbn [plain_step] in H;
      [injection H as <-|discriminate]
  end.

Ltac vacuous :=
  split; [|split; [|split]]; cbn [at_node world trace In]; intros;
  try discriminate; try (exfalso; intuition discriminate).

Ltac trace_count :=
  cbn [trace];
  rewrite ?executions_routed, ?executions_exec_same,
    ?executions_exec_other by discriminate;
  try lia.

Lemma text_loop_inv_step config env c c' :
  1 <= MAX_TEXT_ATTEMPTS config ->
  text_loop_inv config c ->
  step (build_graph config env) c = Running c' ->
  text_loop_inv config c'.
Proof.
  intros Hmax (Hpre & Hgen & Hval & Hcont) Hstep.
  pose proof (step_running_node config env c c' Hstep) as Hnode.
  destruct c as [n w t]. unfold counter_is in *.
  cbn [at_node world trace] in *.
  cbn [node_names In] in Hnode.
  repeat (destruct Hnode as [<-|Hnode]); [..|destruct Hnode].
  - (* load_pipeline *)
    rewrite step_load_pipeline in Hstep. inv_running Hstep.
    destruct (Hpre ltac:(cbn; tauto)) as [Hk Ht].
    unfold text_loop_inv, counter_is. vacuous. split; [|trace_count].
    rewrite <- (outcome_final _ _ _ Hrun), load_pipeline_frame by discriminate.
    exact Hk.
  - (* load_input *)
    rewrite step_load_input in Hstep. inv_running Hstep.
    destruct (Hpre ltac:(cbn; tauto)) as [Hk Ht].
    unfold text_loop_inv, counter_is. vacuous. split; [|trace_count].
    apply (on_return_Ok _ _ _ _ (load_input_counts config w) Hrun).
  - (* planning *)
    rewrite step_planning in Hstep. inv_running Hstep.
    destruct (Hpre ltac:(cbn; tauto)) as [Hk Ht].
    unfold text_loop_inv, counter_is. vacuous.
    exists 0. split; [split; [|trace_count]|lia].
    rewrite <- (outcome_final _ _ _ Hrun), planning_agent_frame by discriminate.
    exact Hk.
  - (* text_generation *)
    rewrite step_text_generation in Hstep. inv_running Hstep.
    destruct (Hgen eq_refl) as (k & [Hk Ht] & Hbound).
    unfold text_loop_inv, counter_is. vacuous.
    exists (k + 1). split; [split; [|trace_count]|lia].
    apply (on_return_Ok _ _ _ _ (text_generation_agent_counts config _ w k Hk) Hrun).
  - (* text_validation *)
    rewrite step_text_validation in Hstep.
    destruct (Hval eq_refl) as (k & [Hk Ht] & Hbound).
    unfold routed_step in Hstep.
    destruct (validate_text _ w) as [[] w1|e w1] eqn:Hrun; [|discriminate].
    assert (Hk1 : state w1 !! "text_attempt_count" = Some (PInt k)).
    { rewrite <- (outcome_final _ _ _ Hrun), validate_text_frame by discriminate.
      exact Hk. }
    destruct (should_retry_text config w1) as [label w2|e w2] eqn:Hroute;
      [|discriminate].
    assert (w2 = w1) as ->.
    { rewrite <- (outcome_final _ _ _ Hroute). apply should_retry_text_pure. }
    destruct (String.eqb label "retry") eqn:Hretry.
    + apply String.eqb_eq in Hretry. subst label.
      injection Hstep as <-.
      destruct (text_validation_reply env (executions "text_validation" t))
        as [e|[v|]] eqn:Hreply.
      * exfalso. revert Hrun. destruct w as [st fs]. unfold validate_text.
        mframe; discriminate.
      * destruct (on_return_Ok _ _ _ _ (validate_text_writes v w) Hrun)
          as [Hpassed _].
        rewrite (should_retry_text_route config w1 k (verdict_pass v)) in Hroute;
          [|exact Hk1|rewrite Hpassed; reflexivity].
        injection Hroute as Hroute.
        apply spec_route_retry_iff in Hroute as [_ Hlt].
        unfold text_loop_inv, counter_is. vacuous.
        exists k. split; [split; [exact Hk1|trace_count]|lia].
      * exfalso. revert Hrun. destruct w as [st fs]. unfold validate_text.
        mframe; discriminate.
    + destruct (String.eqb label "continue") eqn:Hcontinue; [|discriminate].
      apply String.eqb_eq in Hcontinue. subst label.
      injection Hstep as <-.
      unfold text_loop_inv, counter_is. vacuous.
      exists k. split; [split; [exact Hk1|trace_count]|lia].
  - (* image_generation *)
    rewrite step_image_generation in Hstep. inv_running Hstep.
    unfold text_loop_inv. vacuous.
  - (* image_validation *)
    rewrite step_image_validation in Hstep. unfold routed_step in Hstep.
    destruct (editor_agent _ w) as [[] w1|e w1]; [|discriminate].
    destruct (should_retry_image config w1) as [label w2|e w2]; [|discriminate].
    destruct (String.eqb label "retry").
    + injection Hstep as <-. unfold text_loop_inv. vacuous.
    + destruct (String.eqb label "continue"); [|discriminate].
      injection Hstep as <-. unfold text_loop_inv. vacuous.
  - (* segmentation *)
    rewrite step_segmentation in Hstep. injection Hstep as <-.
    unfold text_loop_inv. vacuous.
  - (* text_adding *)
    rewrite step_text_adding in Hstep. inv_running Hstep.
    unfold text_loop_inv. vacuous.
  - (* save_output *)
    rewrite step_save_output in Hstep.
    destruct (save_output config w); discriminate.
Qed.

Lemma image_loop_inv_step config env c c' :
  1 <= MAX_IMAGE_ATTEMPTS config ->
  counts_image_attempt (image_generation_agent env) ->
  image_loop_inv config c ->
  step (build_graph config env) c = Running c' ->
  image_loop_inv config c'.
Proof.
  intros Hmax Hcounts (Hpre & Hgen & Hval & Hcont) Hstep.
  pose proof (step_running_node config env c c' Hstep) as Hnode.
  destruct c as [n w t]. unfold counter_is in *.
  cbn [at_node world trace] in *.
  cbn [node_names In] in Hnode.
  repeat (destruct Hnode as [<-|Hnode]); [..|destruct Hnode].
  - (* load_pipeline *)
    rewrite step_load_pipeline in Hstep. inv_running Hstep.
    destruct (Hpre ltac:(cbn; tauto)) as [Hk Ht].
    unfold image_loop_inv, counter_is. vacuous. split; [|trace_count].
    rewrite <- (outcome_final _ _ _ Hrun), load_pipeline_frame by discriminate.
    exact Hk.
  - (* load_input *)
    rewrite step_load_input in Hstep. inv_running Hstep.
    destruct (Hpre ltac:(cbn; tauto)) as [Hk Ht].
    unfold image_loop_inv, counter_is. vacuous. split; [|trace_count].
    apply (on_return_Ok _ _ _ _ (load_input_counts config w) Hrun).
  - (* planning *)
    rewrite step_planning in Hstep. inv_running Hstep.
    destruct (Hpre ltac:(cbn; tauto)) as [Hk Ht].
    unfold image_loop_inv, counter_is. vacuous. split; [|trace_count].
    rewrite <- (outcome_final _ _ _ Hrun), planning_agent_frame by discriminate.
    exact Hk.
  - (* text_generation *)
    rewrite step_text_generation in Hstep. inv_running Hstep.
    destruct (Hpre ltac:(cbn; tauto)) as [Hk Ht].
    unfold image_loop_inv, counter_is. vacuous. split; [|trace_count].
    rewrite <- (outcome_final _ _ _ Hrun), text_generation_agent_frame
      by discriminate.
    exact Hk.
  - (* text_validation *)
    rewrite step_text_validation in Hstep.
    destruct (Hpre ltac:(cbn; tauto)) as [Hk Ht].
    unfold routed_step in Hstep.
    destruct (validate_text _ w) as [[] w1|e w1] eqn:Hrun; [|discriminate].
    assert (Hk1 : state w1 !! "image_attempt_count" = Some (PInt 0)).
    { rewrite <- (outcome_final _ _ _ Hrun), validate_text_frame by discriminate.
      exact Hk. }
    destruct (should_retry_text config w1) as [label w2|e w2] eqn:Hroute;
      [|discriminate].
    assert (w2 = w1) as ->.
    { rewrite <- (outcome_final _ _ _ Hroute). apply should_retry_text_pure. }
    destruct (String.eqb label "retry").
    + injection Hstep as <-.
      unfold image_loop_inv, counter_is. vacuous.
      split; [exact Hk1|trace_count].
    + destruct (String.eqb label "continue"); [|discriminate].
      injection Hstep as <-.
      unfold image_loop_inv, counter_is. vacuous.
      exists 0. split; [split; [exact Hk1|trace_count]|lia].
  - (* image_generation *)
    rewrite step_image_generation in Hstep. inv_running Hstep.
    destruct (Hgen eq_refl) as (k & [Hk Ht] & Hbound).
    unfold image_loop_inv, counter_is. vacuous.
    exists (k + 1). split; [split; [|trace_count]|lia].
    exact (Hcounts _ _ _ _ Hrun Hk).
  - (* image_validation *)
    rewrite step_image_validation in Hstep.
    destruct (Hval eq_refl) as (k & [Hk Ht] & Hbound).
    unfold routed_step in Hstep.
    destruct (editor_agent _ w) as [[] w1|e w1] eqn:Hrun; [|discriminate].
    assert (Hk1 : state w1 !! "image_attempt_count" = Some (PInt k)).
    { rewrite <- (outcome_final _ _ _ Hrun), editor_agent_frame by discriminate.
      exact Hk. }
    destruct (should_retry_image config w1) as [label w2|e w2] eqn:Hroute;
      [|discriminate].
    assert (w2 = w1) as ->.
    { rewrite <- (outcome_final _ _ _ Hroute). apply should_retry_image_pure. }
    destruct (String.eqb label "retry") eqn:Hretry.
    + apply String.eqb_eq in Hretry. subst label.
      injection Hstep as <-.
      destruct (image_validation_reply env (executions "image_validation" t))
        as [e|[v|]] eqn:Hreply.
      * exfalso. revert Hrun. destruct w as [st fs]. unfold editor_agent.
        mframe; discriminate.
      * destruct (on_return_Ok _ _ _ _ (editor_agent_writes v w) Hrun)
          as [Hpassed _].
        rewrite (should_retry_image_route config w1 k (verdict_pass v)) in Hroute;
          [|exact Hk1|rewrite Hpassed; reflexivity].
        injection Hroute as Hroute.
        apply spec_route_retry_iff in Hroute as [_ Hlt].
        unfold image_loop_inv, counter_is. vacuous.
        exists k. split; [split; [exact Hk1|trace_count]|lia].
      * exfalso. revert Hrun. destruct w as [st fs]. unfold editor_agent.
        mframe; discriminate.
    + destruct (String.eqb label "continue") eqn:Hcontinue; [|discriminate].
      apply String.eqb_eq in Hcontinue. subst label.
      injection Hstep as <-.
      unfold image_loop_inv, counter_is. vacuous.
      exists k. split; [split; [exact Hk1|trace_count]|lia].
  - (* segmentation *)
    rewrite step_segmentation in Hstep. injection Hstep as <-.
    unfold image_loop_inv. vacuous.
  - (* text_adding *)
    rewrite step_text_adding in Hstep. inv_running Hstep.
    unfold image_loop_inv. vacuous.
  - (* save_output *)
    rewrite step_save_output in Hstep.
    destruct (save_output config w); discriminate.
Qed.

Lemma text_loop_inv_start config fs : text_loop_inv config (start fs).
Proof.
  unfold text_loop_inv, start, counter_is. vacuous. split; reflexivity.
Qed.

Lemma image_loop_inv_start config fs : image_loop_inv config (start fs).
Proof.
  unfold image_loop_inv, start, counter_is. vacuous. split; reflexivity.
Qed.

Lemma text_loop_inv_reachable config env fs c :
  1 <= MAX_TEXT_ATTEMPTS config ->
  reachable (build_graph config env) (start fs) c ->
  text_loop_inv config c.
Proof.
  intros Hmax Hreach. induction Hreach as [|c c' Hreach IH Hstep].
  - apply text_loop_inv_start.
  - exact (text_loop_inv_step config env c c' Hmax IH Hstep).
Qed.

Lemma image_loop_inv_reachable config env fs c :
  1 <= MAX_IMAGE_ATTEMPTS config ->
  counts_image_attempt (image_generation_agent env) ->
  reachable (build_graph config env) (start fs) c ->
  image_loop_inv config c.
Proof.
  intros Hmax Hcounts Hreach. induction Hreach as [|c c' Hreach IH Hstep].
  - apply image_loop_inv_start.
  - exact (image_loop_inv_step config env c c' Hmax Hcounts IH Hstep).
Qed.

(** C4. The attempt counters are bounded. Along every run of the workflow
    from the state [main] starts it in, whatever the collaborators answer:
    an execution of the text generation stage that returns has added
    exactly one to [text_attempt_count], the text validation stage and the
    router leave it alone, and wherever the text router has just returned
    "continue" the counter is the number of executions of the generation
    stage so far and lies between 1 and [MAX_TEXT_ATTEMPTS], provided that
    maximum is at least 1. The same bound holds for the image loop where
    its router has just returned "continue", for every image generation
    stage that adds one to [image_attempt_count] per execution. The counter
    of the text adding loop is not driven by this graph. *)
Theorem attempt_counter_bound
    (config : Config) (env : Env) (fs : gmap string string) (c : Cfg) :
  reachable (build_graph config env) (start fs) c ->
  (1 <= MAX_TEXT_ATTEMPTS config ->
   forall t, trace c = Routed "text_validation" "continue" :: t ->
   exists n, counter_is "text_attempt_count" "text_generation" c n
             /\ 1 <= n <= MAX_TEXT_ATTEMPTS config)
  /\
  (forall reply w w' n,
     text_generation_agent config reply w = Ok tt w' ->
     state w !! "text_attempt_count" = Some (PInt n) ->
     state w' !! "text_attempt_count" = Some (PInt (n + 1)))
  /\
  (forall reply w,
     state (final_world (validate_text reply w)) !! "text_attempt_count"
     = state w !! "text_attempt_count"
     /\ final_world (should_retry_text config w) = w)
  /\
  (1 <= MAX_IMAGE_ATTEMPTS config ->
   counts_image_attempt (image_generation_agent env) ->
   forall t, trace c = Routed "image_validation" "continue" :: t ->
   exists n, counter_is "image_attempt_count" "image_generation" c n
             /\ 1 <= n <= MAX_IMAGE_ATTEMPTS config).
Proof.
  intros Hreach. split; [|split; [|split]].
  - intros Hmax.
    apply (text_loop_inv_reachable config env fs c Hmax Hreach).
  - intros reply w w' n Hrun Hn.
    exact (on_return_Ok _ _ _ _ (text_generation_agent_counts config reply w n Hn) Hrun).
  - intros reply w. split.
    + apply validate_text_frame; discriminate.
    + apply should_retry_text_pure.
  - intros Hmax Hcounts.
    apply (image_loop_inv_reachable config env fs c Hmax Hcounts Hreach).
Qed.
(** ** Traces of the text loop *)

Lemma run_step g fuel c c' :
  step g c = Running c' -> run g (S fuel) c = run g fuel c'.
Proof. intros H. cbn [run]. rewrite H. reflexivity. Qed.

Lemma run_reachable g fuel :
  forall c0 c1 c,
    reachable g c0 c1 -> run g fuel c1 = Running c -> reachable g c0 c.
Proof.
  induction fuel as [|fuel IH]; intros c0 c1 c Hreach Hrun; cbn [run] in Hrun.
  - injection Hrun as <-. exact Hreach.
  - destruct (step g c1) as [c2| | |] eqn:Hstep; try discriminate.
    apply (IH c0 c2 c); [|exact Hrun].
    apply (reachable_step g c0 c1 c2 Hreach Hstep).
Qed.

(** One round of the text loop in the graph: the generation stage, the
    validation stage and the router, when both collaborators answer. *)
Lemma text_round config env w t n g v :
  state w !! "text_attempt_count" = Some (PInt n) ->
  is_Some (state w !! "planning_output") ->
  is_Some (state w !! "input_text") ->
  text_reply env (executions "text_generation" t) = inr (Some g) ->
  text_validation_reply env (executions "text_validation" t) = inr (Some v) ->
  exists w',
    run (build_graph config env) 2 (mkCfg "text_generation" w t)
    = Running
        (mkCfg
           (if String.eqb (spec_route (n + 1) (MAX_TEXT_ATTEMPTS config)
                             (verdict_pass v)) "retry"
            then "text_generation" else "image_generation")
           w'
           (Routed "text_validation"
              (spec_route (n + 1) (MAX_TEXT_ATTEMPTS config) (verdict_pass v))
            :: Exec "text_validation" :: Exec "text_generation" :: t))
    /\ state w' !! "text_attempt_count" = Some (PInt (n + 1))
    /\ is_Some (state w' !! "planning_output")
    /\ is_Some (state w' !! "input_text")
    /\ best_of w' "best_text"
       = spec_recordAttempt (best_of w "best_text") (PStr g) (verdict_pass v).
Proof.
  intros Hn Hp Hi Hg Hv.
  destruct (text_attempt_spec config g v w) as (w' & Hrun & Hready & Hbest).
  { repeat split; eauto. }
  unfold text_attempt in Hrun. cbv beta delta [mbind M_bind bind] in Hrun.
  destruct (text_generation_agent config (inr (Some g)) w) as [[] w1|e w1] eqn:Hgen;
    [|discriminate].
  assert (Hn1 : state w1 !! "text_attempt_count" = Some (PInt (n + 1))).
  { exact (on_return_Ok _ _ _ _
             (text_generation_agent_counts config (inr (Some g)) w n Hn) Hgen). }
  assert (Hn' : state w' !! "text_attempt_count" = Some (PInt (n + 1))).
  { rewrite <- (outcome_final _ _ _ Hrun), validate_text_frame by discriminate.
    exact Hn1. }
  destruct (on_return_Ok _ _ _ _ (validate_text_writes v w1) Hrun) as [Hpassed _].
  exists w'. split; [|split; [exact Hn'|split; [apply Hready|split;
    [apply Hready|exact Hbest]]]].
  erewrite run_step; [|rewrite step_text_generation, Hg, Hgen; reflexivity].
  cbn [run]. rewrite step_text_validation.
  rewrite executions_exec_other by discriminate.
  rewrite Hv, Hrun. cbn [routed_step].
  rewrite (should_retry_text_route config w' (n + 1) (verdict_pass v));
    [|exact Hn'|rewrite Hpassed; reflexivity].
  unfold spec_route.
  destruct (verdict_pass v); [reflexivity|].
  destruct (MAX_TEXT_ATTEMPTS config <=? n + 1); reflexivity.
Qed.

Lemma text_round_retry config env w t n g v :
  state w !! "text_attempt_count" = Some (PInt n) ->
  is_Some (state w !! "planning_output") ->
  is_Some (state w !! "input_text") ->
  text_reply env (executions "text_generation" t) = inr (Some g) ->
  text_validation_reply env (executions "text_validation" t) = inr (Some v) ->
  verdict_pass v = false ->
  n + 1 < MAX_TEXT_ATTEMPTS config ->
  exists w',
    run (build_graph config env) 2 (mkCfg "text_generation" w t)
    = Running
        (mkCfg "text_generation" w'
           (Routed "text_validation" "retry"
            :: Exec "text_validation" :: Exec "text_generation" :: t))
    /\ state w' !! "text_attempt_count" = Some (PInt (n + 1))
    /\ is_Some (state w' !! "planning_output")
    /\ is_Some (state w' !! "input_text")
    /\ best_of w' "best_text"
       = spec_recordAttempt (best_of w "best_text") (PStr g) false.
Proof.
  intros Hn Hp Hi Hg Hv Hfail Hlt.
  destruct (text_round config env w t n g v Hn Hp Hi Hg Hv)
    as (w' & Hrun & Hrest).
  exists w'. rewrite Hfail in Hrun, Hrest. split; [|exact Hrest].
  rewrite Hrun. unfold spec_route.
  replace (MAX_TEXT_ATTEMPTS config <=? n + 1) with false
    by (symmetry; apply Z.leb_gt; exact Hlt).
  reflexivity.
Qed.

Lemma text_round_exhausted config env w t n g v :
  state w !! "text_attempt_count" = Some (PInt n) ->
  is_Some (state w !! "planning_output") ->
  is_Some (state w !! "input_text") ->
  text_reply env (executions "text_generation" t) = inr (Some g) ->
  text_validation_reply env (executions "text_validation" t) = inr (Some v) ->
  verdict_pass v = false ->
  MAX_TEXT_ATTEMPTS config <= n + 1 ->
  exists w',
    run (build_graph config env) 2 (mkCfg "text_generation" w t)
    = Running
        (mkCfg "image_generation" w'
           (Routed "text_validation" "continue"
            :: Exec "text_validation" :: Exec "text_generation" :: t))
    /\ state w' !! "text_attempt_count" = Some (PInt (n + 1))
    /\ is_Some (state w' !! "planning_output")
    /\ is_Some (state w' !! "input_text")
    /\ best_of w' "best_text"
       = spec_recordAttempt (best_of w "best_text") (PStr g) false.
Proof.
  intros Hn Hp Hi Hg Hv Hfail Hle.
  destruct (text_round config env w t n g v Hn Hp Hi Hg Hv)
    as (w' & Hrun & Hrest).
  exists w'. rewrite Hfail in Hrun, Hrest. split; [|exact Hrest].
  rewrite Hrun. unfold spec_route.
  replace (MAX_TEXT_ATTEMPTS config <=? n + 1) with true
    by (symmetry; apply Z.leb_le; exact Hle).
  reflexivity.
Qed.

Lemma run_add g a b c c' :
  run g a c = Running c' -> run g (a + b) c = run g b c'.
Proof.
  revert c. induction a as [|a IH]; intros c Hrun; cbn [run Nat.add] in *.
  - injection Hrun as <-. reflexivity.
  - destruct (step g c) as [c1| | |]; try discriminate.
    apply IH. exact Hrun.
Qed.

(** C8. The text loop when no attempt passes. With [MAX_TEXT_ATTEMPTS] = 3,
    a text generator that answers every call and a validator whose every
    response lacks "VALIDATION: PASS" (in its upper-cased copy), the loop
    entered with the counter at 0 and no best text executes the generation
    stage exactly three times, the router says "retry" twice and then
    "continue", and the best text it leaves is the text of the first
    attempt. *)
Theorem text_loop_exhaustion
    (config : Config) (env : Env) (w : World) (t : list event)
    (gen val : nat -> string) :
  MAX_TEXT_ATTEMPTS config = 3 ->
  state w !! "text_attempt_count" = Some (PInt 0) ->
  is_Some (state w !! "planning_output") ->
  is_Some (state w !! "input_text") ->
  is_none (best_of w "best_text") = true ->
  executions "text_generation" t = O ->
  executions "text_validation" t = O ->
  (forall i, text_reply env i = inr (Some (gen i))) ->
  (forall i, text_validation_reply env i = inr (Some (val i))
             /\ Str.contains "VALIDATION: PASS" (Str.upper (val i)) = false) ->
  exists w',
    run (build_graph config env) 6 (mkCfg "text_generation" w t)
    = Running
        (mkCfg "image_generation" w'
           (Routed "text_validation" "continue"
            :: Exec "text_validation" :: Exec "text_generation"
            :: Routed "text_validation" "retry"
            :: Exec "text_validation" :: Exec "text_generation"
            :: Routed "text_validation" "retry"
            :: Exec "text_validation" :: Exec "text_generation" :: t))
    /\ executions "text_generation"
         (Routed "text_validation" "continue"
          :: Exec "text_validation" :: Exec "text_generation"
          :: Routed "text_validation" "retry"
          :: Exec "text_validation" :: Exec "text_generation"
          :: Routed "text_validation" "retry"
          :: Exec "text_validation" :: Exec "text_generation" :: t) = 3%nat
    /\ state w' !! "text_attempt_count" = Some (PInt 3)
    /\ best_of w' "best_text" = PStr (gen O).
Proof.
  intros Hmax Hn Hp Hi Hnone Htg Htv Hgen Hval.
  assert (Hfail : forall i, verdict_pass (val i) = false).
  { intros i. apply (Hval i). }
  (* first attempt *)
  destruct (text_round_retry config env w t 0 (gen O) (val O) Hn Hp Hi)
    as (w1 & Hrun1 & Hn1 & Hp1 & Hi1 & Hb1);
    [rewrite Htg; apply Hgen | rewrite Htv; apply Hval | apply Hfail | lia |].
  unfold spec_recordAttempt in Hb1. rewrite Hnone in Hb1.
  (* second attempt *)
  set (t1 := Routed "text_validation" "retry"
             :: Exec "text_validation" :: Exec "text_generation" :: t) in *.
  assert (Htg1 : executions "text_generation" t1 = 1%nat).
  { subst t1. rewrite executions_routed, executions_exec_other,
      executions_exec_same, Htg by discriminate. reflexivity. }
  assert (Htv1 : executions "text_validation" t1 = 1%nat).
  { subst t1. rewrite executions_routed, executions_exec_same,
      executions_exec_other, Htv by discriminate. reflexivity. }
  destruct (text_round_retry config env w1 t1 (0 + 1) (gen 1%nat) (val 1%nat)
              Hn1 Hp1 Hi1)
    as (w2 & Hrun2 & Hn2 & Hp2 & Hi2 & Hb2);
    [rewrite Htg1; apply Hgen | rewrite Htv1; apply Hval | apply Hfail | lia |].
  rewrite Hb1 in Hb2. change (best_of w2 "best_text" = PStr (gen O)) in Hb2.
  (* third attempt *)
  set (t2 := Routed "text_validation" "retry"
             :: Exec "text_validation" :: Exec "text_generation" :: t1) in *.
  assert (Htg2 : executions "text_generation" t2 = 2%nat).
  { subst t2. rewrite executions_routed, executions_exec_other,
      executions_exec_same, Htg1 by discriminate. reflexivity. }
  assert (Htv2 : executions "text_validation" t2 = 2%nat).
  { subst t2. rewrite executions_routed, executions_exec_same,
      executions_exec_other, Htv1 by discriminate. reflexivity. }
  destruct (text_round_exhausted config env w2 t2 (0 + 1 + 1)
              (gen 2%nat) (val 2%nat) Hn2 Hp2 Hi2)
    as (w3 & Hrun3 & Hn3 & Hp3 & Hi3 & Hb3);
    [rewrite Htg2; apply Hgen | rewrite Htv2; apply Hval | apply Hfail | lia |].
  rewrite Hb2 in Hb3. change (best_of w3 "best_text" = PStr (gen O)) in Hb3.
  exists w3. split; [|split; [|split; [exact Hn3|exact Hb3]]].
  - change 6%nat with (2 + (2 + 2))%nat.
    rewrite (run_add _ 2 (2 + 2) _ _ Hrun1).
    rewrite (run_add _ 2 2 _ _ Hrun2).
    exact Hrun3.
  - fold t1. fold t2.
    rewrite executions_routed, executions_exec_other,
      executions_exec_same, Htg2 by discriminate.
    reflexivity.
Qed.
(** ** Missing inputs *)

(** Loading the pipeline never raises: a failure is caught and recorded as
    "no pipeline". *)
Lemma load_pipeline_run loaded st fs :
  load_pipeline loaded (mkWorld st fs)
  = Ok tt (mkWorld
      (<["image_pipeline" :=
           match loaded with inr h => PObj h | inl _ => PNone end]> st) fs).
Proof. unfold load_pipeline. destruct loaded; mgo; reflexivity. Qed.

Lemma load_input_missing config st fs :
  fs !! INPUT_TEXT_PATH config = None
  \/ fs !! INPUT_IMAGE_PATH config = None ->
  exists msg,
    load_input config (mkWorld st fs)
    = Raise (FileNotFoundError msg) (mkWorld st fs).
Proof.
  intros Hmiss. unfold load_input.
  destruct (fs !! INPUT_TEXT_PATH config) as [content|] eqn:Htext.
  - destruct Hmiss as [Hmiss|Hmiss]; [discriminate|].
    mgo. eexists. reflexivity.
  - mgo. eexists. reflexivity.
Qed.

Lemma load_input_run config st fs content image :
  fs !! INPUT_TEXT_PATH config = Some content ->
  fs !! INPUT_IMAGE_PATH config = Some image ->
  load_input config (mkWorld st fs)
  = Ok tt (mkWorld
      (<["validation_passed" := PBool false]>
      (<["image_attempt_count" := PInt 0]>
      (<["text_attempt_count" := PInt 0]>
      (<["input_image_path" := PStr (INPUT_IMAGE_PATH config)]>
      (<["input_text" := PStr (Str.strip content)]> st))))) fs).
Proof. intros Ht Hi. unfold load_input. mgo. reflexivity. Qed.

Lemma build_graph_entry config env :
  entry_point (build_graph config env) = Some "load_pipeline".
Proof. vm_compute. reflexivity. Qed.

Lemma main_run config env fs fuel :
  main config env fs fuel = run (build_graph config env) fuel (start fs).
Proof. unfold main, invoke. rewrite build_graph_entry. reflexivity. Qed.

(** Counterexample to C9. A run in which the input text is missing: the check
    is made by the second stage of the graph, after the pipeline stage ran
    and stored its handle. *)
Lemma missing_input_checked_inside_graph :
  main demo_config demo_env no_text_files 10
  = Aborted "load_input"
      (FileNotFoundError "Input text file not found: input.txt")
      (mkWorld (<["image_pipeline" := PObj 7]> initial_state) no_text_files)
      [Exec "load_input"; Exec "load_pipeline"]
  /\ initial_state !! "image_pipeline" = Some PNone.
Proof. split; vm_compute; reflexivity. Qed.

(** C9, as amended. When the input text file or the input image file is
    absent, the run fails in [load_input], the second stage of the graph:
    the pipeline stage has been executed before it, [load_input] raises
    [FileNotFoundError] without changing the state, the exception ends the
    run at once (no retry, neither planning nor any later stage is
    executed). *)
Theorem missing_input_aborts_in_load_input
    (config : Config) (env : Env) (fs : gmap string string) (fuel : nat) :
  fs !! INPUT_TEXT_PATH config = None \/ fs !! INPUT_IMAGE_PATH config = None ->
  exists msg,
    main config env fs (S (S fuel))
    = Aborted "load_input" (FileNotFoundError msg)
        (mkWorld
           (<["image_pipeline" :=
                match pipeline_loaded env with
                | inr h => PObj h
                | inl _ => PNone
                end]> initial_state) fs)
        [Exec "load_input"; Exec "load_pipeline"].
Proof.
  intros Hmiss. rewrite main_run.
  set (st1 := <["image_pipeline" :=
                  match pipeline_loaded env with
                  | inr h => PObj h
                  | inl _ => PNone
                  end]> initial_state).
  rewrite (run_step _ _ _ (mkCfg "load_input" (mkWorld st1 fs)
                             [Exec "load_pipeline"])).
  - cbn [run]. rewrite step_load_input.
    destruct (load_input_missing config st1 fs Hmiss) as [msg ->].
    exists msg. reflexivity.
  - unfold start. rewrite step_load_pipeline, load_pipeline_run. reflexivity.
Qed.

(** ** The save stage *)

Lemma save_output_fallback_run config st fs source bytes text :
  poster_missing st fs ->
  py_or (default PNone (st !! "best_image"))
        (default PNone (st !! "current_image")) = PStr source ->
  fs !! source = Some bytes ->
  source <> Str.path_join (OUTPUT_DIR config) "poster.png" ->
  py_or (default PNone (st !! "best_text"))
        (default PNone (st !! "generated_text")) = PStr text ->
  save_output config (mkWorld st fs)
  = Ok tt (mkWorld
      (<["final_text_path" := PStr (Str.path_join (OUTPUT_DIR config) "text.txt")]>
      (<["final_poster_path" := PStr (Str.path_join (OUTPUT_DIR config) "poster.png")]>
         st))
      (<[Str.path_join (OUTPUT_DIR config) "text.txt" := text]>
      (<[Str.path_join (OUTPUT_DIR config) "poster.png" := bytes]> fs))).
Proof.
  intros Hmiss Hsrc Hbytes Hne Htext. unfold save_output.
  assert (Hneq : String.eqb source (Str.path_join (OUTPUT_DIR config) "poster.png")
                 = false) by (apply String.eqb_neq; exact Hne).
  destruct Hmiss as [Hfalsy|(p & Hp & Hnone)].
  - mgo. rewrite Hfalsy. mgo. rewrite Hsrc. mgo. rewrite Hneq. mgo.
    rewrite Htext. mgo. reflexivity.
  - mgo. destruct (String.eqb p "") eqn:Hempty; mgo.
    + rewrite Hsrc. mgo. rewrite Hneq. mgo. rewrite Htext. mgo. reflexivity.
    + rewrite Hsrc. mgo. rewrite Hneq. mgo. rewrite Htext. mgo. reflexivity.
Qed.

Lemma py_or_falsy a b : truthy a = false -> py_or a b = b.
Proof. intros H. unfold py_or. rewrite H. reflexivity. Qed.

Lemma py_or_truthy a b : truthy a = true -> py_or a b = a.
Proof. intros H. unfold py_or. rewrite H. reflexivity. Qed.

(** C10. The save stage falls back when the overlay output is missing.
    If [poster_with_text] is unset, [None], or names a file that does not
    exist, the final poster is a copy of the best image, or of the current
    image when no best image is held, and the final text is the best text,
    or the last generated text when no best text is held; the stage returns
    (it does not raise for want of the overlay output) and records both
    output paths. *)
Theorem save_output_falls_back
    (config : Config) (st : gmap string pyval) (fs : gmap string string)
    (source bytes text : string) :
  poster_missing st fs ->
  py_or (default PNone (st !! "best_image"))
        (default PNone (st !! "current_image")) = PStr source ->
  fs !! source = Some bytes ->
  source <> Str.path_join (OUTPUT_DIR config) "poster.png" ->
  py_or (default PNone (st !! "best_text"))
        (default PNone (st !! "generated_text")) = PStr text ->
  exists w',
    save_output config (mkWorld st fs) = Ok tt w'
    /\ files w' !! Str.path_join (OUTPUT_DIR config) "poster.png" = Some bytes
    /\ files w' !! Str.path_join (OUTPUT_DIR config) "text.txt" = Some text
    /\ state w' !! "final_poster_path"
       = Some (PStr (Str.path_join (OUTPUT_DIR config) "poster.png"))
    /\ state w' !! "final_text_path"
       = Some (PStr (Str.path_join (OUTPUT_DIR config) "text.txt"))
    /\ (forall best other, truthy best = true -> py_or best other = best)
    /\ (forall other, py_or PNone other = other).
Proof.
  intros Hmiss Hsrc Hbytes Hne Htext.
  rewrite (save_output_fallback_run config st fs source bytes text
             Hmiss Hsrc Hbytes Hne Htext).
  eexists. split; [reflexivity|]. cbn [state files].
  assert (Hpaths : Str.path_join (OUTPUT_DIR config) "text.txt"
                   <> Str.path_join (OUTPUT_DIR config) "poster.png").
  { unfold Str.path_join. cbn [Str.startswith Ascii.eqb Bool.eqb].
    destruct (String.eqb (OUTPUT_DIR config) "" || Str.endswith_slash (OUTPUT_DIR config)).
    - intros H. apply String.app_inj in H. discriminate.
    - intros H. apply String.app_inj in H. discriminate. }
  split; [rewrite lookup_insert_ne by exact Hpaths; apply lookup_insert_eq|].
  split; [apply lookup_insert_eq|].
  split; [rewrite lookup_insert_ne by discriminate; apply lookup_insert_eq|].
  split; [apply lookup_insert_eq|].
  split; [intros best other; apply py_or_truthy | intros other; reflexivity].
Qed.
(** ** Instances on a concrete run *)

Lemma reuse_input_image_counts : counts_image_attempt reuse_input_image.
Proof.
  intros i [st fs] w' n Hrun Hn. cbn [state] in Hn.
  revert Hrun. unfold reuse_input_image. mgo.
  destruct (st !! "input_image_path") as [p|]; mgo; [|discriminate].
  intros [= <-]. cbn [state]. repeat mlook1. reflexivity.
Qed.

Lemma demo_after_reachable k :
  run (build_graph demo_config demo_env) k (start demo_files)
  = Running (demo_after k) ->
  reachable (build_graph demo_config demo_env) (start demo_files) (demo_after k).
Proof.
  intros Hrun.
  exact (run_reachable _ k _ _ _ (reachable_start _ _) Hrun).
Qed.

(** The concrete run as a whole: three text attempts, three image attempts,
    then the save stage, which falls back to the best image. *)
Lemma demo_run_finishes :
  match main demo_config demo_env demo_files 30 with
  | Finished w t =>
      Some (rev t, files w !! "outputs/poster.png", files w !! "outputs/text.txt")
  | _ => None
  end
  = Some ([Exec "load_pipeline"; Exec "load_input"; Exec "planning";
           Exec "text_generation"; Exec "text_validation";
           Routed "text_validation" "retry";
           Exec "text_generation"; Exec "text_validation";
           Routed "text_validation" "retry";
           Exec "text_generation"; Exec "text_validation";
           Routed "text_validation" "continue";
           Exec "image_generation"; Exec "image_validation";
           Routed "image_validation" "retry";
           Exec "image_generation"; Exec "image_validation";
           Routed "image_validation" "retry";
           Exec "image_generation"; Exec "image_validation";
           Routed "image_validation" "continue";
           Exec "segmentation"; Exec "text_adding"; Exec "save_output"],
          Some "logo", Some "HEADLINE: draft 0").
Proof. vm_compute. reflexivity. Qed.

(** Witness for C1: a state of the concrete run with one attempt made,
    nothing accepted yet and three attempts allowed. *)
Lemma retry_routers_witness :
  should_retry_text demo_config (mkWorld demo_imaged demo_files)
  = Ok "retry" (mkWorld demo_imaged demo_files)
  /\ should_retry_image demo_config (mkWorld demo_imaged demo_files)
     = Ok "retry" (mkWorld demo_imaged demo_files)
  /\ should_retry_text_adding demo_config (mkWorld demo_imaged demo_files)
     = Ok "retry" (mkWorld demo_imaged demo_files).
Proof.
  destruct (retry_routers_total_pure demo_config
              (mkWorld demo_imaged demo_files) 1 false "rejected")
    as (Htext & Himage & _).
  destruct (retry_routers_total_pure demo_config
              (mkWorld demo_imaged demo_files) 0 false "rejected")
    as (_ & _ & Hadding & _).
  split; [|split].
  - apply Htext; vm_compute; reflexivity.
  - apply Himage; vm_compute; reflexivity.
  - apply Hadding; vm_compute; reflexivity.
Defined.

(** Witness for C2: three text attempts of which only the second passes. *)
Lemma candidate_tracker_witness :
  exists w',
    text_attempts demo_config
      [("first", "VALIDATION: FAIL"); ("second", "Validation: pass");
       ("third", "VALIDATION: FAIL")]
      (mkWorld demo_planned demo_files) = Ok tt w'
    /\ best_of w' "best_text" = PStr "second".
Proof.
  apply (proj1 (proj2 (proj2 (proj2 (candidate_tracker_non_downgrade demo_config))))
           (mkWorld demo_planned demo_files)
           [("first", "VALIDATION: FAIL")] "second" "Validation: pass"
           [("third", "VALIDATION: FAIL")]).
  - unfold text_ready. cbn [state].
    split; [exists 0; vm_compute; reflexivity|].
    split; eexists; vm_compute; reflexivity.
  - vm_compute. reflexivity.
  - repeat constructor.
Defined.

(** Witness for C3 as amended: the accepted text of the counterexample. *)
Lemma validation_result_scopes_witness :
  state (final_world text_accepted) !! "validation_passed"
  = Some (PBool (verdict_pass "VALIDATION: PASS"))
  /\ state (final_world text_accepted) !! "validation_feedback"
     = Some (PStr "VALIDATION: PASS").
Proof.
  apply (proj1 validation_result_scopes "VALIDATION: PASS"
           (mkWorld demo_imaged demo_files) (final_world text_accepted)).
  vm_compute. reflexivity.
Defined.

(** Witness for C4: the concrete run where it leaves the text loop (after 9
    steps) and the image loop (after 15 steps). *)
Lemma attempt_counter_bound_witness :
  (exists n, counter_is "text_attempt_count" "text_generation" (demo_after 9) n
             /\ 1 <= n <= MAX_TEXT_ATTEMPTS demo_config)
  /\ (exists n, counter_is "image_attempt_count" "image_generation" (demo_after 15) n
                /\ 1 <= n <= MAX_IMAGE_ATTEMPTS demo_config).
Proof.
  split.
  - apply (proj1 (attempt_counter_bound demo_config demo_env demo_files
                    (demo_after 9)
                    (demo_after_reachable 9 ltac:(vm_compute; reflexivity)))
             ltac:(vm_compute; discriminate)
             (tl (trace (demo_after 9)))).
    vm_compute. reflexivity.
  - apply (proj2 (proj2 (proj2
             (attempt_counter_bound demo_config demo_env demo_files
                (demo_after 15)
                (demo_after_reachable 15 ltac:(vm_compute; reflexivity)))))
             ltac:(vm_compute; discriminate)
             reuse_input_image_counts
             (tl (trace (demo_after 15)))).
    vm_compute. reflexivity.
Defined.

(** Witness for C5: a validator whose connection is reset. *)
Lemma collaborator_failure_witness :
  text_validation_agent (inl (CollaboratorError "connection reset"))
    (mkWorld (<["poster_with_text" :=
                  PStr "intermediate_outputs/poster_with_text.png"]> demo_imaged)
       demo_files)
  = Ok tt
      (mkWorld
         (store_text_validation "rejected"
            "Validation failed due to error: connection reset"
            false false PNone PNone
            (<["poster_with_text" :=
                 PStr "intermediate_outputs/poster_with_text.png"]> demo_imaged))
         demo_files)
  /\ validate_text (inl (CollaboratorError "connection reset"))
       (mkWorld demo_imaged demo_files)
     = Raise (CollaboratorError "connection reset")
         (mkWorld demo_imaged demo_files)
  /\ editor_agent (inl (CollaboratorError "connection reset"))
       (mkWorld demo_imaged demo_files)
     = Raise (CollaboratorError "connection reset")
         (mkWorld demo_imaged demo_files).
Proof.
  split; [|split].
  - apply (proj1 (collaborator_failure_by_stage demo_config
                    (CollaboratorError "connection reset")
                    (<["poster_with_text" :=
                         PStr "intermediate_outputs/poster_with_text.png"]>
                       demo_imaged)
                    demo_files)
             "intermediate_outputs/poster_with_text.png" "poster");
      vm_compute; reflexivity.
  - apply (proj1 (proj2 (collaborator_failure_by_stage demo_config
                    (CollaboratorError "connection reset") demo_imaged demo_files))
             (PStr "TEXT REQUIREMENTS: a headline") (PStr "HEADLINE: Join Us"));
      vm_compute; reflexivity.
  - apply (proj1 (proj2 (proj2 (collaborator_failure_by_stage demo_config
                    (CollaboratorError "connection reset") demo_imaged demo_files)))
             "intermediate_outputs/image_attempt1.png" "input.png"
             "image 1" "logo"
             (PStr "TEXT REQUIREMENTS: a headline") (PStr "Tech Conference 2024"));
      vm_compute; reflexivity.
Defined.

(** The whole run with a text validator that cannot be reached: it ends in
    the text validation stage at the first attempt, the router is never
    asked. *)
Lemma text_validation_failure_aborts_run :
  match main demo_config unreachable_validator_env demo_files 20 with
  | Aborted node e _ t => Some (node, e, rev t)
  | _ => None
  end
  = Some ("text_validation", CollaboratorError "connection reset",
          [Exec "load_pipeline"; Exec "load_input"; Exec "planning";
           Exec "text_generation"; Exec "text_validation"]).
Proof. vm_compute. reflexivity. Qed.

(** Witness for C6: a response without any label. *)
Lemma parser_total_conservative_witness :
  lacks_labels "I cannot judge this poster." = true
  /\ (forall w,
        parse_validation_result "I cannot judge this poster." w
        = Ok (mkParsed false false false PNone PNone) w)
  /\ verdict_pass "I cannot judge this poster." = false
  /\ verdict_logo "I cannot judge this poster." = false.
Proof.
  split; [vm_compute; reflexivity|].
  apply (proj1 (proj2 parser_total_conservative) "I cannot judge this poster.").
  vm_compute. reflexivity.
Defined.

(** Witness for C7: a response that passes the image and denies the logo. *)
Lemma image_validation_two_tier_witness :
  exists w',
    editor_agent (inr (Some "Validation: Pass. LOGO_INTEGRATED: NO"))
      (mkWorld demo_imaged demo_files) = Ok tt w'
    /\ state w' !! "validation_passed" = Some (PBool true)
    /\ state w' !! "validation_feedback"
       = Some (PStr "Validation: Pass. LOGO_INTEGRATED: NO

IMPORTANT: Logo not properly integrated. Must revert to input.png as base.").
Proof.
  destruct (image_validation_two_tier "Validation: Pass. LOGO_INTEGRATED: NO"
              demo_imaged demo_files
              "intermediate_outputs/image_attempt1.png" "input.png"
              "image 1" "logo"
              (PStr "TEXT REQUIREMENTS: a headline") (PStr "Tech Conference 2024")
              ltac:(vm_compute; reflexivity) ltac:(vm_compute; reflexivity)
              ltac:(vm_compute; reflexivity) ltac:(vm_compute; reflexivity)
              ltac:(vm_compute; reflexivity) ltac:(vm_compute; reflexivity))
    as (w' & Hrun & _ & _ & Htier).
  exists w'. split; [exact Hrun|].
  destruct (Htier ltac:(vm_compute; reflexivity) ltac:(vm_compute; reflexivity))
    as (Hpassed & Hfeedback & _).
  split; [exact Hpassed | exact Hfeedback].
Defined.

(** Witness for C8: the text loop of the concrete run. *)
Lemma text_loop_exhaustion_witness :
  exists w',
    run (build_graph demo_config demo_env) 6
      (mkCfg "text_generation" (mkWorld demo_planned demo_files) [])
    = Running
        (mkCfg "image_generation" w'
           [Routed "text_validation" "continue";
            Exec "text_validation"; Exec "text_generation";
            Routed "text_validation" "retry";
            Exec "text_validation"; Exec "text_generation";
            Routed "text_validation" "retry";
            Exec "text_validation"; Exec "text_generation"])
    /\ state w' !! "text_attempt_count" = Some (PInt 3)
    /\ best_of w' "best_text" = PStr "HEADLINE: draft 0".
Proof.
  destruct (text_loop_exhaustion demo_config demo_env
              (mkWorld demo_planned demo_files) []
              (fun i => "HEADLINE: draft " +:+ pretty i)
              (fun _ => "VALIDATION: FAIL"))
    as (w' & Hrun & _ & Hcount & Hbest).
  - reflexivity.
  - vm_compute. reflexivity.
  - eexists. vm_compute. reflexivity.
  - eexists. vm_compute. reflexivity.
  - vm_compute. reflexivity.
  - reflexivity.
  - reflexivity.
  - intros i. reflexivity.
  - intros i. split; [reflexivity | vm_compute; reflexivity].
  - exists w'. split; [exact Hrun|]. split; [exact Hcount | exact Hbest].
Defined.

(** Witness for C9 as amended: the run without its input text. *)
Lemma missing_input_witness :
  exists msg,
    main demo_config demo_env no_text_files 8
    = Aborted "load_input" (FileNotFoundError msg)
        (mkWorld (<["image_pipeline" := PObj 7]> initial_state) no_text_files)
        [Exec "load_input"; Exec "load_pipeline"].
Proof.
  apply (missing_input_aborts_in_load_input demo_config demo_env no_text_files 6).
  left. vm_compute. reflexivity.
Defined.

(** Witness for C10: a state without overlay output. *)
Lemma save_output_witness :
  exists w',
    save_output demo_config (mkWorld demo_unrendered demo_files) = Ok tt w'
    /\ files w' !! "outputs/poster.png" = Some "image 1"
    /\ files w' !! "outputs/text.txt" = Some "HEADLINE: Join Us".
Proof.
  destruct (save_output_falls_back demo_config demo_unrendered demo_files
              "intermediate_outputs/image_attempt1.png" "image 1"
              "HEADLINE: Join Us")
    as (w' & Hrun & Hposter & Htext & _).
  - left. vm_compute. reflexivity.
  - vm_compute. reflexivity.
  - vm_compute. reflexivity.
  - vm_compute. discriminate.
  - vm_compute. reflexivity.
  - exists w'. split; [exact Hrun|]. split; [exact Hposter | exact Htext].
Defined.

(** * Further properties of the stages *)

(** ** White space stripping *)

Lemma lstrip_no_leading_space s : no_leading_space (Str.lstrip s).
Proof.
  induction s as [|c s IH]; cbn [Str.lstrip]; [exact I|].
  destruct (Str.isspace c) eqn:Hc; [exact IH | exact Hc].
Qed.

Lemma lstrip_fixed s : no_leading_space s -> Str.lstrip s = s.
Proof. destruct s as [|c s]; cbn; [reflexivity|]. intros ->. reflexivity. Qed.

Lemma rstrip_no_leading_space s :
  no_leading_space s -> no_leading_space (Str.rstrip s).
Proof.
  destruct s as [|c s]; cbn [Str.rstrip no_leading_space]; [exact id|].
  intros Hc. destruct (Str.rstrip s); [rewrite Hc|]; exact Hc.
Qed.

Lemma rstrip_idempotent s : Str.rstrip (Str.rstrip s) = Str.rstrip s.
Proof.
  induction s as [|c s IH]; [reflexivity|]. cbn [Str.rstrip].
  destruct (Str.rstrip s) as [|d r] eqn:Hr.
  - destruct (Str.isspace c) eqn:Hc; [reflexivity|].
    cbn [Str.rstrip]. rewrite Hc. reflexivity.
  - cbn [Str.rstrip]. cbn [Str.rstrip] in IH.
    destruct (Str.rstrip r) as [|d' r'] eqn:Hr'.
    + destruct (Str.isspace d); [discriminate|]. rewrite IH. reflexivity.
    + rewrite IH. reflexivity.
Qed.

Lemma strip_stripped s :
  Str.lstrip (Str.strip s) = Str.strip s
  /\ Str.rstrip (Str.strip s) = Str.strip s.
Proof.
  unfold Str.strip. split.
  - apply lstrip_fixed, rstrip_no_leading_space, lstrip_no_leading_space.
  - apply rstrip_idempotent.
Qed.

(** ** The loading stages *)

(** X1. Loading the pipeline never fails the run: [load_pipeline] returns
    whatever the loader does, stores the pipeline, or [None] when the loader
    raised, under [image_pipeline] and changes nothing else; the run is then
    at [load_input]. *)
Theorem load_pipeline_never_raises
    (config : Config) (env : Env) (loaded : exn + nat) (w : World)
    (fs : gmap string string) :
  (exists w',
     load_pipeline loaded w = Ok tt w'
     /\ files w' = files w
     /\ state w' !! "image_pipeline"
        = Some (match loaded with inr h => PObj h | inl _ => PNone end)
     /\ (forall k, k <> "image_pipeline" -> state w' !! k = state w !! k))
  /\ (exists w',
        main config env fs 1
        = Running (mkCfg "load_input" w' [Exec "load_pipeline"])
        /\ files w' = fs
        /\ state w' !! "image_pipeline"
           = Some (match pipeline_loaded env with
                   | inr h => PObj h
                   | inl _ => PNone
                   end)).
Proof.
  split.
  - destruct w as [st fs0]. rewrite load_pipeline_run. eexists.
    split; [reflexivity|]. cbn [state files].
    split; [reflexivity|]. split; [apply lookup_insert_eq|].
    intros k Hk. apply lookup_insert_ne. congruence.
  - rewrite main_run. unfold start.
    change (run (build_graph config env) 1 ?c)
      with (match step (build_graph config env) c with
            | Running c' => Running c'
            | s => s
            end).
    rewrite step_load_pipeline, load_pipeline_run. cbn [plain_step].
    eexists. split; [reflexivity|]. cbn [state files].
    split; [reflexivity|]. apply lookup_insert_eq.
Qed.

(** X2. With both input files present [load_input] returns, stores the text
    of the input file without its surrounding white space and the path of
    the image, resets both attempt counters to 0 and the verdict to
    [False], and leaves the files and every other key alone. *)
Theorem load_input_loads
    (config : Config) (st : gmap string pyval) (fs : gmap string string)
    (content image : string) :
  fs !! INPUT_TEXT_PATH config = Some content ->
  fs !! INPUT_IMAGE_PATH config = Some image ->
  exists w' text,
    load_input config (mkWorld st fs) = Ok tt w'
    /\ files w' = fs
    /\ state w' !! "input_text" = Some (PStr text)
    /\ text = Str.strip content
    /\ Str.lstrip text = text
    /\ Str.rstrip text = text
    /\ state w' !! "input_image_path" = Some (PStr (INPUT_IMAGE_PATH config))
    /\ state w' !! "text_attempt_count" = Some (PInt 0)
    /\ state w' !! "image_attempt_count" = Some (PInt 0)
    /\ state w' !! "validation_passed" = Some (PBool false)
    /\ (forall k, ~ In k load_input_keys -> state w' !! k = st !! k).
Proof.
  intros Ht Hi. rewrite (load_input_run _ _ _ _ _ Ht Hi).
  eexists. exists (Str.strip content). split; [reflexivity|]. cbn [state files].
  split; [reflexivity|].
  split; [repeat mlook1; reflexivity|].
  split; [reflexivity|].
  split; [apply strip_stripped|].
  split; [apply strip_stripped|].
  split; [repeat mlook1; reflexivity|].
  split; [repeat mlook1; reflexivity|].
  split; [repeat mlook1; reflexivity|].
  split; [repeat mlook1; reflexivity|].
  intros k Hk. unfold load_input_keys in Hk. cbn [In] in Hk.
  repeat (rewrite lookup_insert_ne by (intros <-; apply Hk; tauto)).
  reflexivity.
Qed.

Lemma load_input_loads_witness :
  exists w' text,
    load_input demo_config (mkWorld initial_state demo_files) = Ok tt w'
    /\ state w' !! "input_text" = Some (PStr text)
    /\ text = "Tech Conference 2024".
Proof.
  destruct (load_input_loads demo_config initial_state demo_files
              " Tech Conference 2024 " "logo" eq_refl eq_refl)
    as (w' & text & Hrun & _ & Htext & Heq & _).
  exists w', text. split; [exact Hrun|]. split; [exact Htext|].
  rewrite Heq. reflexivity.
Defined.

(** X3. [load_input] looks for the text file first: when it is missing the
    stage raises [FileNotFoundError] with the text-file message whether or
    not the image exists; when the text file exists and the image is
    missing it raises the image-file message. In both cases nothing is
    stored, not even the text that was read. *)
Theorem load_input_checks_text_first
    (config : Config) (st : gmap string pyval) (fs : gmap string string) :
  (fs !! INPUT_TEXT_PATH config = None ->
   load_input config (mkWorld st fs)
   = Raise (FileNotFoundError
              ("Input text file not found: " +:+ INPUT_TEXT_PATH config))
       (mkWorld st fs))
  /\ (forall content,
        fs !! INPUT_TEXT_PATH config = Some content ->
        fs !! INPUT_IMAGE_PATH config = None ->
        load_input config (mkWorld st fs)
        = Raise (FileNotFoundError
                   ("Input image file not found: " +:+ INPUT_IMAGE_PATH config))
            (mkWorld st fs)).
Proof.
  split.
  - intros Ht. unfold load_input. mgo. reflexivity.
  - intros content Ht Hi. unfold load_input. mgo. reflexivity.
Qed.

Lemma load_input_checks_text_first_witness :
  load_input demo_config (mkWorld initial_state (delete "input.png" no_text_files))
  = Raise (FileNotFoundError "Input text file not found: input.txt")
      (mkWorld initial_state (delete "input.png" no_text_files))
  /\ load_input demo_config (mkWorld initial_state (delete "input.png" demo_files))
     = Raise (FileNotFoundError "Input image file not found: input.png")
         (mkWorld initial_state (delete "input.png" demo_files)).
Proof.
  split.
  - apply (proj1 (load_input_checks_text_first demo_config initial_state
                    (delete "input.png" no_text_files))).
    vm_compute. reflexivity.
  - apply (proj2 (load_input_checks_text_first demo_config initial_state
                    (delete "input.png" demo_files)) " Tech Conference 2024 ").
    + vm_compute. reflexivity.
    + vm_compute. reflexivity.
Defined.

(** ** What a stage that fails leaves behind *)

Ltac mleft :=
  mgo; cbn [left_on_raise state_kept_on_raise state files];
  repeat (mcase; mgo; cbn [left_on_raise state_kept_on_raise state files]).

(** X4. What the planning stage leaves behind. When it returns, the
    collaborator answered with a text, which is stored under
    [planning_output] and saved, the same text, to planning.txt, and
    nothing else changed. When it raises, the state is as before, and so
    are the files, with one exception: when the message of the
    collaborator has no content, planning.txt was already opened for
    writing when [f.write] raises [TypeError], and is left empty. *)
Theorem planning_agent_outcomes
    (config : Config) (reply : exn + option string) (w : World) :
  match planning_agent config reply w with
  | Ok _ w' =>
      exists r,
        reply = inr (Some r)
        /\ state w' = <["planning_output" := PStr r]> (state w)
        /\ files w' = <[planning_path config := r]> (files w)
  | Raise e w' =>
      state w' = state w
      /\ (files w' = files w
          \/ (reply = inr None /\ e = TypeError
              /\ files w' = <[planning_path config := ""]> (files w)))
  end
  /\ (forall logo bytes i,
        state w !! "input_image_path" = Some (PStr logo) ->
        files w !! logo = Some bytes ->
        state w !! "input_text" = Some i ->
        planning_agent config (inr None) w
        = Raise TypeError
            (mkWorld (state w) (<[planning_path config := ""]> (files w)))).
Proof.
  destruct w as [st fs]. unfold planning_agent, planning_path.
  cbn [state files]. split.
  - destruct reply as [e|[r|]]; mleft; auto.
    eexists; split; [reflexivity|]; split; reflexivity.
  - intros logo bytes i Hl Hb Hi. mgo. reflexivity.
Qed.

Lemma planning_agent_outcomes_witness :
  planning_agent demo_config (inr None) (mkWorld demo_planned demo_files)
  = Raise TypeError
      (mkWorld demo_planned
         (<["intermediate_outputs/planning.txt" := ""]> demo_files)).
Proof.
  apply (proj2 (planning_agent_outcomes demo_config (inr None)
                  (mkWorld demo_planned demo_files))
           "input.png" "logo" (PStr "Tech Conference 2024"));
    reflexivity.
Defined.

(** X5. What a validation stage that raises leaves behind. The text and
    the image validation stage assign [validation_feedback] before they
    call [upper] on the content of the message: when the message has no
    content that call raises [AttributeError] and the feedback is left
    [None]; in every other case a stage that raises has changed nothing.
    The verdict and the best candidate are never changed by a stage that
    raises. The overlay validation stage catches the same exception and
    stores a rejection; when it does raise (for want of the poster) its
    state is unchanged. *)
Theorem validation_stages_on_raise (reply : exn + option string) (w : World) :
  left_on_raise (validate_text reply w) reply w
  /\ left_on_raise (editor_agent reply w) reply w
  /\ state_kept_on_raise (text_validation_agent reply w) w
  /\ (forall p g,
        state w !! "planning_output" = Some p ->
        state w !! "generated_text" = Some g ->
        validate_text (inr None) w = Raise no_content_error (feedback_none w))
  /\ (forall cur logo cur_bytes logo_bytes p i,
        state w !! "current_image" = Some (PStr cur) ->
        state w !! "input_image_path" = Some (PStr logo) ->
        files w !! cur = Some cur_bytes ->
        files w !! logo = Some logo_bytes ->
        state w !! "planning_output" = Some p ->
        state w !! "input_text" = Some i ->
        editor_agent (inr None) w = Raise no_content_error (feedback_none w))
  /\ (forall poster bytes,
        state w !! "poster_with_text" = Some (PStr poster) ->
        files w !! poster = Some bytes ->
        text_validation_agent (inr None) w
        = Ok tt (mkWorld
            (store_text_validation "rejected"
               ("Validation failed due to error: " +:+ str_exn no_content_error)
               false false PNone PNone (state w))
            (files w))).
Proof.
  destruct w as [st fs]. unfold feedback_none, no_content_error.
  cbn [state files].
  split; [|split; [|split; [|split; [|split]]]].
  - unfold validate_text. destruct reply as [e|[v|]]; mleft; auto.
  - unfold editor_agent. destruct reply as [e|[v|]]; mleft; auto.
  - unfold text_validation_agent.
    destruct reply as [e|[r|]].
    + mleft; reflexivity.
    + destruct (parse_validation_result_total r) as [p Hp].
      mgo; cbn [state_kept_on_raise state files];
        repeat (first [rewrite Hp | mcase]; mgo;
                cbn [state_kept_on_raise state files]).
      all: reflexivity.
    + mleft; reflexivity.
  - intros p g Hp Hg. unfold validate_text. mgo. reflexivity.
  - intros cur logo cur_bytes logo_bytes p i Hc Hl Hcb Hlb Hp Hi.
    unfold editor_agent. mgo. reflexivity.
  - intros poster bytes Hp Hf. unfold text_validation_agent, store_text_validation.
    mgo. reflexivity.
Qed.

Lemma validation_stages_on_raise_witness :
  validate_text (inr None) (mkWorld demo_imaged demo_files)
  = Raise no_content_error (feedback_none (mkWorld demo_imaged demo_files))
  /\ editor_agent (inr None) (mkWorld demo_imaged demo_files)
     = Raise no_content_error (feedback_none (mkWorld demo_imaged demo_files))
  /\ returned (text_validation_agent (inr None)
                 (mkWorld demo_rendered demo_files)) = true.
Proof.
  destruct (validation_stages_on_raise (inr None) (mkWorld demo_imaged demo_files))
    as (_ & _ & _ & Htext & Himage & _).
  destruct (validation_stages_on_raise (inr None) (mkWorld demo_rendered demo_files))
    as (_ & _ & _ & _ & _ & Hoverlay).
  split; [|split].
  - apply (Htext (PStr "TEXT REQUIREMENTS: a headline") (PStr "HEADLINE: Join Us"));
      reflexivity.
  - apply (Himage "intermediate_outputs/image_attempt1.png" "input.png"
             "image 1" "logo" (PStr "TEXT REQUIREMENTS: a headline")
             (PStr "Tech Conference 2024")); reflexivity.
  - rewrite (Hoverlay "intermediate_outputs/poster_with_text.png" "poster");
      reflexivity.
Defined.

(** ** The files of the text attempts *)

Lemma length_app (a b : string) :
  String.length (a +:+ b) = (String.length a + String.length b)%nat.
Proof.
  induction a as [|c a IH]; [reflexivity|].
  change (S (String.length (a +:+ b)) = S (String.length a + String.length b)).
  rewrite IH. reflexivity.
Qed.

Lemma app_inv_tail (t : string) :
  forall s1 s2, s1 +:+ t = s2 +:+ t -> s1 = s2.
Proof.
  induction s1 as [|c s1 IH]; intros [|d s2] H.
  - reflexivity.
  - change (t = String d (s2 +:+ t)) in H.
    apply (f_equal String.length) in H. cbn [String.length] in H.
    rewrite length_app in H. lia.
  - change (String c (s1 +:+ t) = t) in H.
    apply (f_equal String.length) in H. cbn [String.length] in H.
    rewrite length_app in H. lia.
  - change (String c (s1 +:+ t) = String d (s2 +:+ t)) in H.
    injection H as -> H. f_equal. apply IH. exact H.
Qed.

Lemma path_join_relative_inj dir a b :
  Str.startswith "/" a = false ->
  Str.startswith "/" b = false ->
  Str.path_join dir a = Str.path_join dir b -> a = b.
Proof.
  intros Ha Hb. unfold Str.path_join. rewrite Ha, Hb.
  destruct (String.eqb dir "" || Str.endswith_slash dir); intros H.
  - apply String.app_inj in H. exact H.
  - apply String.app_inj in H. apply String.app_inj in H. exact H.
Qed.

Lemma text_attempt_path_inj config n m :
  text_attempt_path config n = text_attempt_path config m -> n = m.
Proof.
  unfold text_attempt_path. intros H.
  apply path_join_relative_inj in H; [|reflexivity..].
  apply String.app_inj in H. apply app_inv_tail in H.
  cbn [Str.str] in H. apply pretty_Z_inj in H. exact H.
Qed.

(** X6. Every text attempt is saved to a file of its own: the file name
    determines the attempt number, the attempt numbered [c + 1] is written
    to its file, and the files of all other attempts are left as they
    were. *)
Theorem text_attempt_files_distinct
    (config : Config) (g : string) (st : gmap string pyval)
    (fs : gmap string string) (c : Z) (p i : pyval) :
  st !! "text_attempt_count" = Some (PInt c) ->
  st !! "planning_output" = Some p ->
  st !! "input_text" = Some i ->
  (forall n m, text_attempt_path config n = text_attempt_path config m -> n = m)
  /\ exists w',
       text_generation_agent config (inr (Some g)) (mkWorld st fs) = Ok tt w'
       /\ files w' !! text_attempt_path config (c + 1) = Some g
       /\ (forall n, n <> c + 1 ->
           files w' !! text_attempt_path config n
           = fs !! text_attempt_path config n).
Proof.
  intros Hc Hp Hi. split; [intros n m; apply text_attempt_path_inj|].
  rewrite (text_generation_agent_run config g st fs c p i Hc Hp Hi).
  eexists. split; [reflexivity|]. cbn [files].
  split; [apply lookup_insert_eq|].
  intros n Hn. apply lookup_insert_ne.
  intros H. apply text_attempt_path_inj in H. congruence.
Qed.

Lemma text_attempt_files_distinct_witness :
  exists w',
    text_generation_agent demo_config (inr (Some "second draft"))
      (mkWorld demo_imaged
         (<["intermediate_outputs/text_attempt1.txt" := "HEADLINE: Join Us"]>
            demo_files)) = Ok tt w'
    /\ files w' !! "intermediate_outputs/text_attempt2.txt" = Some "second draft"
    /\ files w' !! "intermediate_outputs/text_attempt1.txt"
       = Some "HEADLINE: Join Us".
Proof.
  destruct (text_attempt_files_distinct demo_config "second draft" demo_imaged
              (<["intermediate_outputs/text_attempt1.txt" := "HEADLINE: Join Us"]>
                 demo_files)
              1 (PStr "TEXT REQUIREMENTS: a headline")
              (PStr "Tech Conference 2024") eq_refl eq_refl eq_refl)
    as (_ & w' & Hrun & Hnew & Hold).
  exists w'. split; [exact Hrun|]. split; [exact Hnew|].
  exact (eq_trans (Hold 1 ltac:(lia)) eq_refl).
Defined.

Lemma text_generation_agent_unset_counter config reply st fs :
  st !! "text_attempt_count" = None \/ st !! "text_attempt_count" = Some PNone ->
  text_generation_agent config reply (mkWorld st fs)
  = text_generation_agent config reply
      (mkWorld (<["text_attempt_count" := PInt 0]> st) fs).
Proof.
  intros [Hc|Hc]; unfold text_generation_agent; mgo; reflexivity.
Qed.

(** X7. The text generation stage sets up its own counter: with
    [text_attempt_count] unset or [None] the attempt is numbered 1 (and
    saved as attempt 1); with a counter that is a string the increment
    raises [TypeError] before anything is written. *)
Theorem text_generation_agent_initialises_counter
    (config : Config) (reply : exn + option string) (g : string)
    (st : gmap string pyval) (fs : gmap string string) (p i : pyval) :
  (st !! "text_attempt_count" = None \/ st !! "text_attempt_count" = Some PNone ->
   st !! "planning_output" = Some p ->
   st !! "input_text" = Some i ->
   exists w',
     text_generation_agent config (inr (Some g)) (mkWorld st fs) = Ok tt w'
     /\ state w' !! "text_attempt_count" = Some (PInt 1)
     /\ state w' !! "generated_text" = Some (PStr g)
     /\ files w' = <[text_attempt_path config 1 := g]> fs)
  /\ (forall s,
        st !! "text_attempt_count" = Some (PStr s) ->
        text_generation_agent config reply (mkWorld st fs)
        = Raise TypeError (mkWorld st fs)).
Proof.
  split.
  - intros Hc Hp Hi.
    rewrite (text_generation_agent_unset_counter config (inr (Some g)) st fs Hc).
    rewrite (text_generation_agent_run config g _ fs 0 p i);
      [|repeat mlook1; reflexivity..].
    eexists. split; [reflexivity|]. cbn [state files].
    split; [|split; [|reflexivity]].
    all: destruct (is_none _); repeat mlook1; reflexivity.
  - intros s Hc. unfold text_generation_agent. mgo. reflexivity.
Qed.

Lemma text_generation_agent_initialises_counter_witness :
  (exists w',
     text_generation_agent demo_config (inr (Some "first draft"))
       (mkWorld (delete "text_attempt_count" demo_planned) demo_files) = Ok tt w'
     /\ state w' !! "text_attempt_count" = Some (PInt 1))
  /\ text_generation_agent demo_config (inr (Some "first draft"))
       (mkWorld (<["text_attempt_count" := PStr "0"]> demo_planned) demo_files)
     = Raise TypeError
         (mkWorld (<["text_attempt_count" := PStr "0"]> demo_planned) demo_files).
Proof.
  split.
  - destruct (proj1 (text_generation_agent_initialises_counter demo_config
                       (inr (Some "first draft")) "first draft"
                       (delete "text_attempt_count" demo_planned) demo_files
                       (PStr "TEXT REQUIREMENTS: a headline")
                       (PStr "Tech Conference 2024"))
                ltac:(left; reflexivity) eq_refl eq_refl)
      as (w' & Hrun & Hcount & _).
    exists w'. split; [exact Hrun | exact Hcount].
  - apply (proj2 (text_generation_agent_initialises_counter demo_config
                    (inr (Some "first draft")) "first draft"
                    (<["text_attempt_count" := PStr "0"]> demo_planned) demo_files
                    PNone PNone) "0").
    reflexivity.
Defined.

(** X25. A message without content costs an attempt. When the generation
    collaborator answers with a message whose content is [None], the text
    generation stage raises [TypeError] at [f.write], after it counted the
    attempt and opened the file of the attempt, which is left empty;
    [generated_text], [best_text] and every other key are as before. *)
Theorem text_generation_agent_without_content
    (config : Config) (st : gmap string pyval) (fs : gmap string string)
    (c : Z) (p i : pyval) :
  st !! "text_attempt_count" = Some (PInt c) ->
  st !! "planning_output" = Some p ->
  st !! "input_text" = Some i ->
  text_generation_agent config (inr None) (mkWorld st fs)
  = Raise TypeError
      (mkWorld (<["text_attempt_count" := PInt (c + 1)]> st)
         (<[text_attempt_path config (c + 1) := ""]> fs)).
Proof.
  intros Hc Hp Hi. unfold text_generation_agent, text_attempt_path. mgo.
  destruct (truthy (default PNone (st !! "validation_feedback"))) eqn:Hf; mgo.
  - destruct (1 <? c + 1); mgo.
    + destruct (st !! "validation_feedback") as [f|] eqn:Hl; [|discriminate].
      mgo. reflexivity.
    + reflexivity.
  - reflexivity.
Qed.

Lemma text_generation_agent_without_content_witness :
  text_generation_agent demo_config (inr None) (mkWorld demo_planned demo_files)
  = Raise TypeError
      (mkWorld (<["text_attempt_count" := PInt 1]> demo_planned)
         (<["intermediate_outputs/text_attempt1.txt" := ""]> demo_files)).
Proof.
  apply (text_generation_agent_without_content demo_config demo_planned
           demo_files 0 (PStr "TEXT REQUIREMENTS: a headline")
           (PStr "Tech Conference 2024")); reflexivity.
Defined.

(** ** The overlay validation stage and its router *)

(** X8. The handler of the overlay validation stage does not cover the
    poster: the image is encoded before the [try], so with
    [poster_with_text] unset or [None] the stage raises [TypeError], and
    with a path that names no file it raises [FileNotFoundError], whatever
    the collaborator would have answered; no verdict is stored. *)
Theorem text_validation_agent_needs_poster
    (reply : exn + option string) (st : gmap string pyval) (fs : gmap string string) :
  (default PNone (st !! "poster_with_text") = PNone ->
   text_validation_agent reply (mkWorld st fs) = Raise TypeError (mkWorld st fs))
  /\ (forall poster,
        st !! "poster_with_text" = Some (PStr poster) ->
        fs !! poster = None ->
        text_validation_agent reply (mkWorld st fs)
        = Raise (FileNotFoundError poster) (mkWorld st fs)).
Proof.
  split.
  - intros Hp. unfold text_validation_agent. mgo. rewrite Hp. mgo. reflexivity.
  - intros poster Hp Hf. unfold text_validation_agent. mgo. reflexivity.
Qed.

Lemma text_validation_agent_needs_poster_witness :
  text_validation_agent (inr (Some "VALIDATION: APPROVED")) (mkWorld demo_imaged demo_files)
  = Raise TypeError (mkWorld demo_imaged demo_files)
  /\ text_validation_agent (inr (Some "VALIDATION: APPROVED"))
       (mkWorld (<["poster_with_text" := PStr "nowhere.png"]> demo_imaged) demo_files)
     = Raise (FileNotFoundError "nowhere.png")
         (mkWorld (<["poster_with_text" := PStr "nowhere.png"]> demo_imaged)
            demo_files).
Proof.
  split.
  - apply (proj1 (text_validation_agent_needs_poster
                    (inr (Some "VALIDATION: APPROVED")) demo_imaged demo_files)).
    reflexivity.
  - apply (proj2 (text_validation_agent_needs_poster
                    (inr (Some "VALIDATION: APPROVED"))
                    (<["poster_with_text" := PStr "nowhere.png"]> demo_imaged)
                    demo_files) "nowhere.png"); reflexivity.
Defined.

Lemma text_validation_agent_result reply st fs poster bytes :
  st !! "poster_with_text" = Some (PStr poster) ->
  fs !! poster = Some bytes ->
  exists feedback correct clear found remedy,
    text_validation_agent reply (mkWorld st fs)
    = Ok tt (mkWorld
        (store_text_validation
           (if overlay_verdict reply then "approved" else "rejected")
           feedback correct clear found remedy st) fs).
Proof.
  intros Hp Hf. destruct reply as [e|[r|]].
  - rewrite (text_validation_agent_raise e st fs poster bytes Hp Hf).
    do 5 eexists. reflexivity.
  - destruct (parse_validation_result_total r) as [p Hparse].
    rewrite (text_validation_agent_run r st fs poster bytes p Hp Hf Hparse).
    assert (Happ : validation_approved p = verdict_approved r).
    { specialize (Hparse (mkWorld st fs)). revert Hparse.
      unfold parse_validation_result, verdict_approved.
      mgo. repeat (mcase; mgo); intros H; try discriminate.
      all: injection H as <-; reflexivity. }
    cbn [overlay_verdict]. rewrite <- Happ. do 5 eexists. reflexivity.
  - unfold text_validation_agent, store_text_validation. mgo.
    do 5 eexists. reflexivity.
Qed.

(** X9. One round of the overlay loop: after the overlay validation stage
    ran on a poster that exists, [should_retry_text_adding] continues
    exactly when the response carried the approval marker or the attempts
    are used up, and asks for a retry otherwise; a failed call of the
    collaborator, or a message without content, counts as a rejection. The
    stage does not count the attempt itself. *)
Theorem overlay_round_routing
    (config : Config) (reply : exn + option string) (st : gmap string pyval)
    (fs : gmap string string) (poster bytes : string) (count : Z) :
  st !! "poster_with_text" = Some (PStr poster) ->
  fs !! poster = Some bytes ->
  default (PInt 0) (st !! "text_adding_attempt_count") = PInt count ->
  exists w',
    text_validation_agent reply (mkWorld st fs) = Ok tt w'
    /\ state w' !! "text_adding_attempt_count" = st !! "text_adding_attempt_count"
    /\ should_retry_text_adding config w'
       = Ok (spec_route count (MAX_TEXT_ADDING_ATTEMPTS config)
               (overlay_verdict reply)) w'.
Proof.
  intros Hp Hf Hc.
  destruct (text_validation_agent_result reply st fs poster bytes Hp Hf)
    as (feedback & correct & clear & found & remedy & Hrun).
  rewrite Hrun. eexists. split; [reflexivity|].
  assert (Hk : forall v,
    store_text_validation v feedback correct clear found remedy st
      !! "text_adding_attempt_count" = st !! "text_adding_attempt_count").
  { intros v. unfold store_text_validation.
    rewrite !lookup_insert_ne by discriminate. reflexivity. }
  cbn [state]. split; [apply Hk|].
  rewrite (should_retry_text_adding_route config _ count
             (if overlay_verdict reply then "approved" else "rejected")).
  - destruct (overlay_verdict reply); reflexivity.
  - cbn [state]. rewrite Hk. exact Hc.
  - cbn [state]. unfold store_text_validation.
    rewrite !lookup_insert_ne by discriminate. rewrite lookup_insert_eq.
    reflexivity.
Qed.

Lemma overlay_round_routing_witness :
  exists w',
    text_validation_agent (inr (Some "TEXT_CORRECT: NO
VALIDATION: REJECTED")) (mkWorld demo_rendered demo_files) = Ok tt w'
    /\ should_retry_text_adding demo_config w' = Ok "retry" w'.
Proof.
  destruct (overlay_round_routing demo_config
              (inr (Some "TEXT_CORRECT: NO
VALIDATION: REJECTED"))
              demo_rendered demo_files
              "intermediate_outputs/poster_with_text.png" "poster" 1
              eq_refl eq_refl eq_refl)
    as (w' & Hrun & _ & Hroute).
  exists w'. split; [exact Hrun | exact Hroute].
Defined.

(** ** Where the pass marker may stand *)

Lemma upper_app a b : Str.upper (a +:+ b) = Str.upper a +:+ Str.upper b.
Proof.
  induction a as [|c a IH]; [reflexivity|].
  change (String (Str.upper_ascii c) (Str.upper (a +:+ b))
          = String (Str.upper_ascii c) (Str.upper a +:+ Str.upper b)).
  rewrite IH. reflexivity.
Qed.

Lemma startswith_app p s : Str.startswith p (p +:+ s) = true.
Proof.
  induction p as [|c p IH]; [reflexivity|].
  change (Str.startswith (String c p) (String c (p +:+ s)) = true).
  cbn [Str.startswith]. rewrite Ascii.eqb_refl. exact IH.
Qed.

Lemma contains_cons sub c s :
  Str.contains sub (String c s)
  = Str.startswith sub (String c s) || Str.contains sub s.
Proof. reflexivity. Qed.

Lemma contains_app_r sub pre s :
  Str.contains sub s = true -> Str.contains sub (pre +:+ s) = true.
Proof.
  intros H. induction pre as [|c pre IH]; [exact H|].
  change (Str.contains sub (String c (pre +:+ s)) = true).
  rewrite contains_cons, IH. apply orb_true_r.
Qed.

Lemma contains_app_l sub post :
  Str.contains sub (sub +:+ post) = true.
Proof.
  destruct (sub +:+ post) as [|c s'] eqn:Heq.
  - destruct sub; [reflexivity | discriminate].
  - rewrite contains_cons, <- Heq, startswith_app. reflexivity.
Qed.

Lemma verdict_pass_marker pre marker post :
  Str.upper marker = "VALIDATION: PASS" ->
  verdict_pass (pre +:+ marker +:+ post) = true.
Proof.
  intros Hm. unfold verdict_pass. rewrite !upper_app, Hm.
  apply contains_app_r, contains_app_l.
Qed.

(** X10. The pass marker counts wherever it stands and however it is
    cased: a response with the words VALIDATION: PASS anywhere in it, in
    any letter case, whatever comes before and after (another verdict
    included), makes [validate_text] store a passed verdict and take the
    generated text as the best text. *)
Theorem pass_marker_anywhere_accepts
    (pre marker post : string) (st : gmap string pyval)
    (fs : gmap string string) (p g : pyval) :
  Str.upper marker = "VALIDATION: PASS" ->
  st !! "planning_output" = Some p ->
  st !! "generated_text" = Some g ->
  verdict_pass (pre +:+ marker +:+ post) = true
  /\ exists w',
       validate_text (inr (Some (pre +:+ marker +:+ post))) (mkWorld st fs) = Ok tt w'
       /\ state w' !! "validation_passed" = Some (PBool true)
       /\ state w' !! "best_text" = Some g.
Proof.
  intros Hm Hp Hg.
  pose proof (verdict_pass_marker pre marker post Hm) as Hv.
  split; [exact Hv|].
  rewrite (validate_text_run _ st fs p g Hp Hg). rewrite Hv.
  eexists. split; [reflexivity|]. cbn [state].
  split; repeat mlook1; reflexivity.
Qed.

Lemma pass_marker_anywhere_accepts_witness :
  exists w',
    validate_text (inr (Some "VALIDATION: FAIL, or validation: passable?"))
      (mkWorld demo_imaged demo_files) = Ok tt w'
    /\ state w' !! "validation_passed" = Some (PBool true).
Proof.
  destruct (pass_marker_anywhere_accepts "VALIDATION: FAIL, or "
              "validation: pass" "able?" demo_imaged demo_files
              (PStr "TEXT REQUIREMENTS: a headline") (PStr "HEADLINE: Join Us")
              eq_refl eq_refl eq_refl)
    as (_ & w' & Hrun & Hpass & _).
  exists w'. split; [exact Hrun | exact Hpass].
Defined.

(** ** The save stage on its other paths *)

Lemma final_paths_differ config : final_text config <> final_poster config.
Proof.
  unfold final_text, final_poster. intros H.
  apply path_join_relative_inj in H; [discriminate | reflexivity..].
Qed.

Lemma final_poster_nonempty config : final_poster config <> "".
Proof.
  unfold final_poster, Str.path_join.
  change (Str.startswith "/" "poster.png") with false. cbv iota.
  destruct (String.eqb (OUTPUT_DIR config) "" || Str.endswith_slash (OUTPUT_DIR config));
    intros H; apply (f_equal String.length) in H;
    rewrite !length_app in H; cbn [String.length] in H; lia.
Qed.

(** X11. When the overlay output exists it is what the save stage copies
    to poster.png, whatever [best_image] and [current_image] hold; the text
    written to text.txt is the best text, or the last generated one. *)
Theorem save_output_prefers_overlay
    (config : Config) (st : gmap string pyval) (fs : gmap string string)
    (poster bytes text : string) :
  st !! "poster_with_text" = Some (PStr poster) ->
  poster <> "" ->
  fs !! poster = Some bytes ->
  poster <> final_poster config ->
  py_or (default PNone (st !! "best_text"))
        (default PNone (st !! "generated_text")) = PStr text ->
  save_output config (mkWorld st fs)
  = Ok tt (mkWorld
      (<["final_text_path" := PStr (final_text config)]>
      (<["final_poster_path" := PStr (final_poster config)]> st))
      (<[final_text config := text]>
      (<[final_poster config := bytes]> fs))).
Proof.
  intros Hp Hne Hf Hdst Htext. unfold save_output, final_poster, final_text.
  apply String.eqb_neq in Hne. apply String.eqb_neq in Hdst.
  unfold final_poster in Hdst.
  mgo. rewrite Hne. mgo. rewrite Hdst. mgo. rewrite Htext. mgo. reflexivity.
Qed.

Lemma save_output_prefers_overlay_witness :
  exists w',
    save_output demo_config
      (mkWorld (<["best_image" := PStr "input.png"]> demo_rendered) demo_files)
    = Ok tt w'
    /\ files w' !! "outputs/poster.png" = Some "poster".
Proof.
  eexists. split.
  - apply (save_output_prefers_overlay demo_config
             (<["best_image" := PStr "input.png"]> demo_rendered) demo_files
             "intermediate_outputs/poster_with_text.png" "poster"
             "HEADLINE: Join Us").
    + reflexivity.
    + discriminate.
    + reflexivity.
    + discriminate.
    + reflexivity.
  - reflexivity.
Defined.

(** X12. How the save stage fails. With no overlay output and neither a
    best nor a current image it raises [TypeError] and writes nothing; when
    the image it falls back to names no file it raises
    [FileNotFoundError] and writes nothing; when the poster already is the
    final poster file it raises [SameFileError]; and when the poster was
    saved but no text is held it raises [TypeError] after the poster was
    copied, its path recorded and an empty text.txt created. *)
Theorem save_output_failure_modes
    (config : Config) (st : gmap string pyval) (fs : gmap string string) :
  (poster_missing st fs ->
   py_or (default PNone (st !! "best_image"))
         (default PNone (st !! "current_image")) = PNone ->
   save_output config (mkWorld st fs) = Raise TypeError (mkWorld st fs))
  /\ (forall source,
        poster_missing st fs ->
        py_or (default PNone (st !! "best_image"))
              (default PNone (st !! "current_image")) = PStr source ->
        fs !! source = None ->
        save_output config (mkWorld st fs)
        = Raise (FileNotFoundError source) (mkWorld st fs))
  /\ (forall bytes,
        st !! "poster_with_text" = Some (PStr (final_poster config)) ->
        fs !! final_poster config = Some bytes ->
        save_output config (mkWorld st fs)
        = Raise SameFileError (mkWorld st fs))
  /\ (forall poster bytes,
        st !! "poster_with_text" = Some (PStr poster) ->
        poster <> "" ->
        fs !! poster = Some bytes ->
        poster <> final_poster config ->
        py_or (default PNone (st !! "best_text"))
              (default PNone (st !! "generated_text")) = PNone ->
        save_output config (mkWorld st fs)
        = Raise TypeError
            (mkWorld (<["final_poster_path" := PStr (final_poster config)]> st)
               (<[final_text config := ""]>
                  (<[final_poster config := bytes]> fs)))).
Proof.
  split; [|split; [|split]].
  - intros Hmiss Hsrc. unfold save_output.
    destruct Hmiss as [Hfalsy|(p & Hp & Hnone)].
    + mgo. rewrite Hfalsy. mgo. rewrite Hsrc. mgo. reflexivity.
    + mgo. destruct (String.eqb p ""); mgo; rewrite Hsrc; mgo; reflexivity.
  - intros source Hmiss Hsrc Hnone'. unfold save_output.
    destruct Hmiss as [Hfalsy|(p & Hp & Hnone)].
    + mgo. rewrite Hfalsy. mgo. rewrite Hsrc. mgo. reflexivity.
    + mgo. destruct (String.eqb p ""); mgo; rewrite Hsrc; mgo; reflexivity.
  - intros bytes Hp Hf. unfold save_output.
    pose proof (final_poster_nonempty config) as Hne.
    apply String.eqb_neq in Hne. unfold final_poster in *.
    mgo. rewrite Hne. mgo. rewrite String.eqb_refl. reflexivity.
  - intros poster bytes Hp Hne Hf Hdst Htext.
    unfold save_output, final_poster, final_text.
    apply String.eqb_neq in Hne. apply String.eqb_neq in Hdst.
    unfold final_poster in Hdst.
    mgo. rewrite Hne. mgo. rewrite Hdst. mgo. rewrite Htext. mgo. reflexivity.
Qed.

Lemma save_output_failure_modes_witness :
  save_output demo_config (mkWorld initial_state demo_files)
  = Raise TypeError (mkWorld initial_state demo_files)
  /\ returned
       (save_output demo_config
          (mkWorld (delete "generated_text" (delete "best_text" demo_rendered))
             demo_files)) = false.
Proof.
  split.
  - apply (proj1 (save_output_failure_modes demo_config initial_state demo_files)).
    + left. reflexivity.
    + reflexivity.
  - rewrite (proj2 (proj2 (proj2 (save_output_failure_modes demo_config
               (delete "generated_text" (delete "best_text" demo_rendered))
               demo_files)))
               "intermediate_outputs/poster_with_text.png" "poster").
    + reflexivity.
    + reflexivity.
    + discriminate.
    + reflexivity.
    + discriminate.
    + reflexivity.
Defined.

(** * Further properties of the runs *)

(** ** A run is never stuck *)

Lemma should_retry_text_labels config w l w' :
  should_retry_text config w = Ok l w' -> l = "retry" \/ l = "continue".
Proof.
  destruct w as [st fs]. unfold should_retry_text. mgo.
  repeat (mcase; mgo).
  all: intros H; try discriminate; injection H as <- <-; auto.
Qed.

Lemma should_retry_image_labels config w l w' :
  should_retry_image config w = Ok l w' -> l = "retry" \/ l = "continue".
Proof.
  destruct w as [st fs]. unfold should_retry_image. mgo.
  repeat (mcase; mgo).
  all: intros H; try discriminate; injection H as <- <-; auto.
Qed.

Lemma plain_step_valid n target o t :
  In target node_names ->
  is_invalid (plain_step n target o t) = false
  /\ forall c', plain_step n target o t = Running c' -> In (at_node c') node_names.
Proof.
  intros Hin. destruct o as [[] w|e w]; cbn [plain_step is_invalid].
  - split; [reflexivity|]. intros c' H. injection H as <-. exact Hin.
  - split; [reflexivity|]. intros c' H. discriminate.
Qed.

Lemma routed_step_valid n o router retry continue t :
  (forall w l w', router w = Ok l w' -> l = "retry" \/ l = "continue") ->
  In retry node_names ->
  In continue node_names ->
  is_invalid (routed_step n o router retry continue t) = false
  /\ forall c', routed_step n o router retry continue t = Running c' ->
                In (at_node c') node_names.
Proof.
  intros Hlabels Hr Hc. unfold routed_step.
  destruct o as [[] w|e w]; [|split; [reflexivity | discriminate]].
  destruct (router w) as [l w'|e w'] eqn:Hrouter;
    [|split; [reflexivity | discriminate]].
  destruct (Hlabels _ _ _ Hrouter) as [->| ->]; cbn [String.eqb Ascii.eqb Bool.eqb].
  - split; [reflexivity|]. intros c' H. injection H as <-. exact Hr.
  - split; [reflexivity|]. intros c' H. injection H as <-. exact Hc.
Qed.

Lemma step_valid config env c :
  In (at_node c) node_names ->
  is_invalid (step (build_graph config env) c) = false
  /\ forall c', step (build_graph config env) c = Running c' ->
                In (at_node c') node_names.
Proof.
  destruct c as [n w t]. cbn [at_node]. unfold node_names. cbn [In].
  intros Hin.
  repeat (destruct Hin as [<-|Hin]); [..|destruct Hin].
  - rewrite step_load_pipeline. apply plain_step_valid. cbn; tauto.
  - rewrite step_load_input. apply plain_step_valid. cbn; tauto.
  - rewrite step_planning. apply plain_step_valid. cbn; tauto.
  - rewrite step_text_generation. apply plain_step_valid. cbn; tauto.
  - rewrite step_text_validation. apply routed_step_valid.
    + apply should_retry_text_labels.
    + cbn; tauto.
    + cbn; tauto.
  - rewrite step_image_generation. apply plain_step_valid. cbn; tauto.
  - rewrite step_image_validation. apply routed_step_valid.
    + apply should_retry_image_labels.
    + cbn; tauto.
    + cbn; tauto.
  - rewrite step_segmentation. split; [reflexivity|].
    intros c' H. injection H as <-. cbn; tauto.
  - rewrite step_text_adding. apply plain_step_valid. cbn; tauto.
  - rewrite step_save_output.
    destruct (save_output config w) as [[] w'|e w'];
      split; try reflexivity; discriminate.
Qed.

Lemma run_valid config env fuel :
  forall c,
    In (at_node c) node_names ->
    is_invalid (run (build_graph config env) fuel c) = false.
Proof.
  induction fuel as [|fuel IH]; intros c Hin; [reflexivity|].
  cbn [run]. destruct (step_valid config env c Hin) as [Hstep Hnext].
  destruct (step (build_graph config env) c) as [c'| | |] eqn:Hs;
    try reflexivity; [|discriminate].
  apply IH, Hnext. reflexivity.
Qed.

(** X13. A run is never stuck: every label the two routers can return has
    an edge in the map [build_graph] gives them, and every edge leads to a
    node that was added, so after any number of steps the run is at a
    stage, has finished, or a stage has raised, whatever the stages and
    collaborators do. *)
Theorem run_never_stuck
    (config : Config) (env : Env) (fs : gmap string string) (fuel : nat) :
  is_invalid (main config env fs fuel) = false.
Proof.
  rewrite main_run. apply run_valid. cbn; tauto.
Qed.

(** ** What a finished run has saved *)

Lemma save_output_saved config w :
  on_return (save_output config w) (saved_outputs config w).
Proof.
  destruct w as [st fs].
  pose proof (final_paths_differ config) as Hpaths.
  unfold final_poster, final_text in Hpaths.
  unfold save_output. mframe; try exact I.
  all: unfold saved_outputs, final_poster, final_text; cbn [state files].
  all: (split; [repeat mlook1; reflexivity|]).
  all: (split; [repeat mlook1; reflexivity|]).
  all: split.
  all: try (eexists; split; [eassumption || reflexivity|apply lookup_insert_eq]).
  all: try (do 2 eexists; split; [eassumption|];
            rewrite lookup_insert_ne by exact Hpaths; apply lookup_insert_eq).
Qed.

Lemma run_finished g fuel :
  forall c w t,
    run g fuel c = Finished w t -> exists c', step g c' = Finished w t.
Proof.
  induction fuel as [|fuel IH]; intros c w t H; [discriminate|].
  cbn [run] in H. destruct (step g c) as [c1| | |] eqn:Hs; try discriminate.
  - apply (IH _ _ _ H).
  - exists c. rewrite Hs. exact H.
Qed.

Lemma step_known_node config env c :
  is_invalid (step (build_graph config env) c) = false ->
  In (at_node c) node_names.
Proof.
  destruct c as [n w t]. unfold step. cbn [at_node].
  destruct (assoc n (nodes (build_graph config env))) as [f|] eqn:Hf;
    [intros _|discriminate].
  unfold build_graph in Hf. cbn in Hf.
  repeat match type of Hf with
         | (if String.eqb n ?s then _ else _) = _ =>
             destruct (String.eqb_spec n s) as [->|_]; [cbn; tauto|]
         end.
  discriminate.
Qed.

Lemma plain_step_not_finished n target o t w' t' :
  plain_step n target o t <> Finished w' t'.
Proof. destruct o as [[] w|e w]; discriminate. Qed.

Lemma routed_step_not_finished n o router retry continue t w' t' :
  routed_step n o router retry continue t <> Finished w' t'.
Proof.
  unfold routed_step. destruct o as [[] w|e w]; [|discriminate].
  destruct (router w) as [l w1|e w1]; [|discriminate].
  destruct (String.eqb l "retry"); [discriminate|].
  destruct (String.eqb l "continue"); discriminate.
Qed.

Lemma step_finished config env c w t :
  step (build_graph config env) c = Finished w t ->
  at_node c = "save_output"
  /\ save_output config (world c) = Ok tt w
  /\ t = Exec "save_output" :: trace c.
Proof.
  intros H.
  assert (Hin : In (at_node c) node_names).
  { apply (step_known_node config env). rewrite H. reflexivity. }
  destruct c as [n w0 t0]. cbn [at_node world trace] in *.
  unfold node_names in Hin. cbn [In] in Hin.
  repeat (destruct Hin as [<-|Hin]); [..|destruct Hin].
  - rewrite step_load_pipeline in H. apply plain_step_not_finished in H. destruct H.
  - rewrite step_load_input in H. apply plain_step_not_finished in H. destruct H.
  - rewrite step_planning in H. apply plain_step_not_finished in H. destruct H.
  - rewrite step_text_generation in H. apply plain_step_not_finished in H. destruct H.
  - rewrite step_text_validation in H. apply routed_step_not_finished in H. destruct H.
  - rewrite step_image_generation in H. apply plain_step_not_finished in H. destruct H.
  - rewrite step_image_validation in H. apply routed_step_not_finished in H. destruct H.
  - rewrite step_segmentation in H. discriminate.
  - rewrite step_text_adding in H. apply plain_step_not_finished in H. destruct H.
  - rewrite step_save_output in H.
    destruct (save_output config w0) as [[] w1|e w1]; [|discriminate].
    injection H as <- <-. auto.
Qed.

(** X14. A run that finishes has saved both outputs: whatever the stages
    and collaborators did, the last stage executed was [save_output], the
    final state records the paths of poster.png and text.txt in the output
    directory, and both files exist. *)
Theorem finished_run_saved_outputs
    (config : Config) (env : Env) (fs : gmap string string) (fuel : nat)
    (w : World) (t : list event) :
  main config env fs fuel = Finished w t ->
  state w !! "final_poster_path" = Some (PStr (final_poster config))
  /\ state w !! "final_text_path" = Some (PStr (final_text config))
  /\ is_Some (files w !! final_poster config)
  /\ is_Some (files w !! final_text config)
  /\ exists t0, t = Exec "save_output" :: t0.
Proof.
  rewrite main_run. intros H.
  apply run_finished in H. destruct H as [c H].
  apply step_finished in H. destruct H as (_ & Hsave & Ht).
  pose proof (save_output_saved config (world c)) as Hs.
  rewrite Hsave in Hs. cbn [on_return] in Hs.
  destruct Hs as (Hp & Htx & (source & bytes & _ & Hfile) & (text & _ & Htext)).
  split; [exact Hp|]. split; [exact Htx|].
  split; [eexists; exact Hfile|]. split; [eexists; exact Htext|].
  eexists. exact Ht.
Qed.

Lemma finished_run_saved_outputs_witness :
  exists w t,
    main demo_config demo_env demo_files 30 = Finished w t
    /\ state w !! "final_poster_path" = Some (PStr "outputs/poster.png")
    /\ is_Some (files w !! "outputs/text.txt").
Proof.
  destruct (main demo_config demo_env demo_files 30) as [c|w t|n e w t|n] eqn:H.
  - exfalso. vm_compute in H. discriminate.
  - exists w, t. split; [reflexivity|].
    destruct (finished_run_saved_outputs demo_config demo_env demo_files 30 w t H)
      as (Hp & _ & _ & Ht & _).
    split; [exact Hp | exact Ht].
  - exfalso. vm_compute in H. discriminate.
  - exfalso. vm_compute in H. discriminate.
Defined.

(** ** The loops terminate *)

Lemma validate_text_returns reply w w' :
  validate_text reply w = Ok tt w' -> exists v, reply = inr (Some v).
Proof.
  destruct reply as [e|[v|]]; [|eauto|].
  all: destruct w as [st fs]; unfold validate_text; mgo.
  all: repeat (mcase; mgo).
  all: discriminate.
Qed.

Lemma editor_agent_returns reply w w' :
  editor_agent reply w = Ok tt w' -> exists v, reply = inr (Some v).
Proof.
  destruct reply as [e|[v|]]; [|eauto|].
  all: destruct w as [st fs]; unfold editor_agent; mgo.
  all: repeat (mcase; mgo).
  all: discriminate.
Qed.

Lemma run_one g c : run g 1 c = step g c.
Proof. cbn [run]. destruct (step g c); reflexivity. Qed.

Lemma run_two g c :
  run g 2 c = match step g c with Running c' => step g c' | s => s end.
Proof.
  change (run g 2 c)
    with (match step g c with Running c' => run g 1 c' | s => s end).
  destruct (step g c); try reflexivity. apply run_one.
Qed.

Lemma aborts_within_weaken g a b c :
  (a <= b)%nat -> aborts_within g a c -> aborts_within g b c.
Proof.
  intros Hab (k & node & e & w & t & Hk & Hrun).
  exists k, node, e, w, t. split; [lia | exact Hrun].
Qed.

Lemma aborts_within_after g a b c c' :
  run g a c = Running c' -> aborts_within g b c' -> aborts_within g (a + b) c.
Proof.
  intros Hrun (k & node & e & w & t & Hk & Hrun').
  exists (a + k)%nat, node, e, w, t. split; [lia|].
  rewrite (run_add _ a k _ _ Hrun). exact Hrun'.
Qed.

Lemma arrives_within_after g a b c c' node :
  run g a c = Running c' ->
  arrives_within g b c' node -> arrives_within g (a + b) c node.
Proof.
  intros Hrun (k & w & t & Hk & Hrun').
  exists (a + k)%nat, w, t. split; [lia|].
  rewrite (run_add _ a k _ _ Hrun). exact Hrun'.
Qed.

(** One round of the text loop: a stage raises, the loop is left for the
    image generation stage, or the run comes back to the generation stage
    with the counter one higher and still below the maximum. *)
Lemma text_round_outcome config env w t n :
  state w !! "text_attempt_count" = Some (PInt n) ->
  aborts_within (build_graph config env) 2 (mkCfg "text_generation" w t)
  \/ (exists w' t',
        run (build_graph config env) 2 (mkCfg "text_generation" w t)
        = Running (mkCfg "image_generation" w' t'))
  \/ (exists w' t',
        run (build_graph config env) 2 (mkCfg "text_generation" w t)
        = Running (mkCfg "text_generation" w' t')
        /\ state w' !! "text_attempt_count" = Some (PInt (n + 1))
        /\ n + 1 < MAX_TEXT_ATTEMPTS config).
Proof.
  intros Hc.
  pose proof (text_generation_agent_counts config
                (text_reply env (executions "text_generation" t)) w n Hc) as Hcount.
  destruct (text_generation_agent config
              (text_reply env (executions "text_generation" t)) w)
    as [[] w1|e w1] eqn:Hgen; cbn [on_return] in Hcount.
  2:{ left. exists 1%nat. do 4 eexists. split; [lia|].
      rewrite run_one, step_text_generation, Hgen. reflexivity. }
  set (reply := text_validation_reply env
                  (executions "text_validation" (Exec "text_generation" :: t))).
  pose proof (validate_text_frame reply w1 "text_attempt_count"
                ltac:(discriminate) ltac:(discriminate) ltac:(discriminate))
    as Hframe.
  assert (Hrun : run (build_graph config env) 2 (mkCfg "text_generation" w t)
                 = routed_step "text_validation" (validate_text reply w1)
                     (should_retry_text config) "text_generation"
                     "image_generation" (Exec "text_generation" :: t)).
  { rewrite run_two, step_text_generation, Hgen. cbn [plain_step].
    apply step_text_validation. }
  destruct (validate_text reply w1) as [[] w2|e w2] eqn:Hval;
    cbn [routed_step final_world] in *.
  2:{ left. exists 2%nat. do 4 eexists. split; [lia | exact Hrun]. }
  destruct (validate_text_returns _ _ _ Hval) as [v Hv].
  pose proof (validate_text_writes v w1) as Hw.
  rewrite <- Hv, Hval in Hw. cbn [on_return] in Hw. destruct Hw as [Hpass _].
  rewrite (should_retry_text_route config w2 (n + 1) (verdict_pass v)) in Hrun.
  2:{ rewrite Hframe. exact Hcount. }
  2:{ rewrite Hpass. reflexivity. }
  destruct (String.eqb (spec_route (n + 1) (MAX_TEXT_ATTEMPTS config) (verdict_pass v))
              "retry") eqn:Hroute.
  - right. right. apply String.eqb_eq in Hroute.
    apply spec_route_retry_iff in Hroute.
    exists w2. eexists.
    split; [exact Hrun|]. split; [rewrite Hframe; exact Hcount | apply Hroute].
  - right. left.
    destruct (String.eqb (spec_route (n + 1) (MAX_TEXT_ATTEMPTS config)
                            (verdict_pass v)) "continue") eqn:Hcont.
    + do 2 eexists. exact Hrun.
    + exfalso. unfold spec_route in Hroute, Hcont.
      destruct (verdict_pass v); [discriminate|].
      destruct (MAX_TEXT_ATTEMPTS config <=? n + 1); discriminate.
Qed.

Lemma image_round_outcome config env w t n :
  counts_image_attempt (image_generation_agent env) ->
  state w !! "image_attempt_count" = Some (PInt n) ->
  aborts_within (build_graph config env) 2 (mkCfg "image_generation" w t)
  \/ (exists w' t',
        run (build_graph config env) 2 (mkCfg "image_generation" w t)
        = Running (mkCfg "segmentation" w' t'))
  \/ (exists w' t',
        run (build_graph config env) 2 (mkCfg "image_generation" w t)
        = Running (mkCfg "image_generation" w' t')
        /\ state w' !! "image_attempt_count" = Some (PInt (n + 1))
        /\ n + 1 < MAX_IMAGE_ATTEMPTS config).
Proof.
  intros Hcounts Hc.
  destruct (image_generation_agent env (executions "image_generation" t) w)
    as [[] w1|e w1] eqn:Hgen.
  2:{ left. exists 1%nat. do 4 eexists. split; [lia|].
      rewrite run_one, step_image_generation, Hgen. reflexivity. }
  pose proof (Hcounts _ _ _ _ Hgen Hc) as Hcount.
  set (reply := image_validation_reply env
                  (executions "image_validation" (Exec "image_generation" :: t))).
  pose proof (editor_agent_frame reply w1 "image_attempt_count"
                ltac:(discriminate) ltac:(discriminate) ltac:(discriminate))
    as Hframe.
  assert (Hrun : run (build_graph config env) 2 (mkCfg "image_generation" w t)
                 = routed_step "image_validation" (editor_agent reply w1)
                     (should_retry_image config) "image_generation"
                     "segmentation" (Exec "image_generation" :: t)).
  { rewrite run_two, step_image_generation, Hgen. cbn [plain_step].
    apply step_image_validation. }
  destruct (editor_agent reply w1) as [[] w2|e w2] eqn:Hval;
    cbn [routed_step final_world] in *.
  2:{ left. exists 2%nat. do 4 eexists. split; [lia | exact Hrun]. }
  destruct (editor_agent_returns _ _ _ Hval) as [v Hv].
  pose proof (editor_agent_writes v w1) as Hw.
  rewrite <- Hv, Hval in Hw. cbn [on_return] in Hw. destruct Hw as [Hpass _].
  rewrite (should_retry_image_route config w2 (n + 1) (verdict_pass v)) in Hrun.
  2:{ rewrite Hframe. exact Hcount. }
  2:{ rewrite Hpass. reflexivity. }
  destruct (String.eqb (spec_route (n + 1) (MAX_IMAGE_ATTEMPTS config) (verdict_pass v))
              "retry") eqn:Hroute.
  - right. right. apply String.eqb_eq in Hroute.
    apply spec_route_retry_iff in Hroute.
    exists w2. eexists.
    split; [exact Hrun|]. split; [rewrite Hframe; exact Hcount | apply Hroute].
  - right. left.
    destruct (String.eqb (spec_route (n + 1) (MAX_IMAGE_ATTEMPTS config)
                            (verdict_pass v)) "continue") eqn:Hcont.
    + do 2 eexists. exact Hrun.
    + exfalso. unfold spec_route in Hroute, Hcont.
      destruct (verdict_pass v); [discriminate|].
      destruct (MAX_IMAGE_ATTEMPTS config <=? n + 1); discriminate.
Qed.

Lemma text_loop_terminates_from config env d :
  forall w t n,
    state w !! "text_attempt_count" = Some (PInt n) ->
    (Z.to_nat (MAX_TEXT_ATTEMPTS config - n - 1) <= d)%nat ->
    aborts_within (build_graph config env) (2 * S d) (mkCfg "text_generation" w t)
    \/ arrives_within (build_graph config env) (2 * S d)
         (mkCfg "text_generation" w t) "image_generation".
Proof.
  induction d as [|d IH]; intros w t n Hc Hd.
  - destruct (text_round_outcome config env w t n Hc)
      as [Habort|[(w' & t' & Hrun)|(w' & t' & _ & _ & Hlt)]].
    + left. exact Habort.
    + right. exists 2%nat, w', t'. split; [lia | exact Hrun].
    + lia.
  - destruct (text_round_outcome config env w t n Hc)
      as [Habort|[(w' & t' & Hrun)|(w' & t' & Hrun & Hc' & Hlt)]].
    + left. apply (aborts_within_weaken _ 2); [lia | exact Habort].
    + right. exists 2%nat, w', t'. split; [lia | exact Hrun].
    + replace (2 * S (S d))%nat with (2 + 2 * S d)%nat by lia.
      destruct (IH w' t' (n + 1) Hc' ltac:(lia)) as [Habort|Harrive].
      * left. apply (aborts_within_after _ _ _ _ _ Hrun Habort).
      * right. apply (arrives_within_after _ _ _ _ _ _ Hrun Harrive).
Qed.

Lemma image_loop_terminates_from config env d :
  counts_image_attempt (image_generation_agent env) ->
  forall w t n,
    state w !! "image_attempt_count" = Some (PInt n) ->
    (Z.to_nat (MAX_IMAGE_ATTEMPTS config - n - 1) <= d)%nat ->
    aborts_within (build_graph config env) (2 * S d) (mkCfg "image_generation" w t)
    \/ arrives_within (build_graph config env) (2 * S d)
         (mkCfg "image_generation" w t) "segmentation".
Proof.
  intros Hcounts.
  induction d as [|d IH]; intros w t n Hc Hd.
  - destruct (image_round_outcome config env w t n Hcounts Hc)
      as [Habort|[(w' & t' & Hrun)|(w' & t' & _ & _ & Hlt)]].
    + left. exact Habort.
    + right. exists 2%nat, w', t'. split; [lia | exact Hrun].
    + lia.
  - destruct (image_round_outcome config env w t n Hcounts Hc)
      as [Habort|[(w' & t' & Hrun)|(w' & t' & Hrun & Hc' & Hlt)]].
    + left. apply (aborts_within_weaken _ 2); [lia | exact Habort].
    + right. exists 2%nat, w', t'. split; [lia | exact Hrun].
    + replace (2 * S (S d))%nat with (2 + 2 * S d)%nat by lia.
      destruct (IH w' t' (n + 1) Hc' ltac:(lia)) as [Habort|Harrive].
      * left. apply (aborts_within_after _ _ _ _ _ Hrun Habort).
      * right. apply (arrives_within_after _ _ _ _ _ _ Hrun Harrive).
Qed.

(** The three stages before the text loop. *)
Lemma run_to_text_loop config env fs :
  aborts_within (build_graph config env) 3 (start fs)
  \/ (exists w t,
        run (build_graph config env) 3 (start fs)
        = Running (mkCfg "text_generation" w t)
        /\ state w !! "text_attempt_count" = Some (PInt 0)).
Proof.
  assert (H1 : step (build_graph config env) (start fs)
               = Running (mkCfg "load_input"
                   (mkWorld (<["image_pipeline" :=
                      match pipeline_loaded env with
                      | inr h => PObj h
                      | inl _ => PNone
                      end]> initial_state) fs) [Exec "load_pipeline"])).
  { unfold start. rewrite step_load_pipeline, load_pipeline_run. reflexivity. }
  set (w1 := mkWorld _ fs) in H1.
  pose proof (load_input_counts config w1) as Hcounts.
  destruct (load_input config w1) as [[] w2|e w2] eqn:Hload;
    cbn [on_return] in Hcounts.
  2:{ left. exists 2%nat. do 4 eexists. split; [lia|].
      rewrite run_two, H1, step_load_input, Hload. reflexivity. }
  destruct Hcounts as [Hc _].
  pose proof (planning_agent_frame config (planning_reply env) w2
                "text_attempt_count" ltac:(discriminate)) as Hframe.
  destruct (planning_agent config (planning_reply env) w2) as [[] w3|e w3] eqn:Hplan;
    cbn [final_world] in Hframe.
  - right. exists w3. eexists. split.
    + rewrite (run_step _ 2 _ _ H1), run_two, step_load_input, Hload.
      cbn [plain_step]. rewrite step_planning, Hplan. reflexivity.
    + rewrite Hframe. exact Hc.
  - left. exists 3%nat. do 4 eexists. split; [lia|].
    rewrite (run_step _ 2 _ _ H1), run_two, step_load_input, Hload.
    cbn [plain_step]. rewrite step_planning, Hplan. reflexivity.
Qed.

Lemma run_through_text_loop config env fs :
  aborts_within (build_graph config env)
    (3 + 2 * Z.to_nat (Z.max 1 (MAX_TEXT_ATTEMPTS config))) (start fs)
  \/ arrives_within (build_graph config env)
       (3 + 2 * Z.to_nat (Z.max 1 (MAX_TEXT_ATTEMPTS config))) (start fs)
       "image_generation".
Proof.
  destruct (run_to_text_loop config env fs) as [Habort|(w & t & Hrun & Hc)].
  - left. apply (aborts_within_weaken _ 3); [lia | exact Habort].
  - replace (Z.to_nat (Z.max 1 (MAX_TEXT_ATTEMPTS config)))
      with (S (Z.to_nat (MAX_TEXT_ATTEMPTS config - 0 - 1))) by lia.
    destruct (text_loop_terminates_from config env
                (Z.to_nat (MAX_TEXT_ATTEMPTS config - 0 - 1)) w t 0 Hc ltac:(lia))
      as [Habort|Harrive].
    + left. apply (aborts_within_after _ _ _ _ _ Hrun Habort).
    + right. apply (arrives_within_after _ _ _ _ _ _ Hrun Harrive).
Qed.

(** X15. The text loop cannot go on for ever: whatever the collaborators
    answer, and whether or not they fail, after at most 3 + 2 * max(1,
    MAX_TEXT_ATTEMPTS) steps from the start the run has left the loop, for
    the image generation stage or because a stage raised. *)
Theorem text_loop_terminates
    (config : Config) (env : Env) (fs : gmap string string) :
  exists k,
    (k <= 3 + 2 * Z.to_nat (Z.max 1 (MAX_TEXT_ATTEMPTS config)))%nat
    /\ text_loop_left (main config env fs k) = true.
Proof.
  destruct (run_through_text_loop config env fs)
    as [(k & node & e & w & t & Hk & Hrun)|(k & w & t & Hk & Hrun)].
  - exists k. split; [exact Hk|]. rewrite main_run, Hrun. reflexivity.
  - exists k. split; [exact Hk|]. rewrite main_run, Hrun. reflexivity.
Qed.

(** The three stages after the image loop. *)
Lemma run_from_segmentation config env w t :
  exists k, (k <= 3)%nat
    /\ ended (run (build_graph config env) k (mkCfg "segmentation" w t)) = true.
Proof.
  pose proof (step_segmentation config env w t) as H1.
  destruct (text_adding_agent env
              (executions "text_adding" (Exec "segmentation" :: t)) w)
    as [[] w1|e w1] eqn:Hadd.
  2:{ exists 2%nat. split; [lia|].
      rewrite run_two, H1, step_text_adding, Hadd. reflexivity. }
  exists 3%nat. split; [lia|].
  rewrite (run_step _ 2 _ _ H1), run_two, step_text_adding, Hadd.
  cbn [plain_step]. rewrite step_save_output.
  destruct (save_output config w1) as [[] w2|e w2]; reflexivity.
Qed.

(** X16. Every run ends. If the image generation stage counts its attempts
    (an execution that returns adds one to [image_attempt_count]) and both
    maxima are at least 1, then after at most 6 + 2 * (MAX_TEXT_ATTEMPTS +
    MAX_IMAGE_ATTEMPTS) steps the run has finished or a stage has raised,
    whatever the collaborators answer. *)
Theorem run_terminates
    (config : Config) (env : Env) (fs : gmap string string) :
  1 <= MAX_TEXT_ATTEMPTS config ->
  1 <= MAX_IMAGE_ATTEMPTS config ->
  counts_image_attempt (image_generation_agent env) ->
  exists k,
    (k <= 6 + 2 * (Z.to_nat (MAX_TEXT_ATTEMPTS config)
                   + Z.to_nat (MAX_IMAGE_ATTEMPTS config)))%nat
    /\ ended (main config env fs k) = true.
Proof.
  intros HmaxT HmaxI Hcounts.
  destruct (run_through_text_loop config env fs)
    as [(k & node & e & w & t & Hk & Hrun)|(k1 & w1 & t1 & Hk1 & Hrun1)].
  { exists k. split; [lia|]. rewrite main_run, Hrun. reflexivity. }
  assert (Hreach : reachable (build_graph config env) (start fs)
                     (mkCfg "image_generation" w1 t1))
    by (apply (run_reachable _ k1 _ (start fs)); [constructor | exact Hrun1]).
  destruct (image_loop_inv_reachable config env fs _ HmaxI Hcounts Hreach)
    as (_ & Hinv & _).
  destruct (Hinv eq_refl) as (n & [Hc _] & Hn). cbn [world] in Hc.
  destruct (image_loop_terminates_from config env
              (Z.to_nat (MAX_IMAGE_ATTEMPTS config - n - 1)) Hcounts w1 t1 n Hc
              ltac:(lia))
    as [(k & node & e & w & t & Hk & Hrun)|(k2 & w2 & t2 & Hk2 & Hrun2)].
  { exists (k1 + k)%nat. split; [lia|].
    rewrite main_run, (run_add _ k1 k _ _ Hrun1), Hrun. reflexivity. }
  destruct (run_from_segmentation config env w2 t2) as (k3 & Hk3 & Hend).
  exists (k1 + (k2 + k3))%nat. split; [lia|].
  rewrite main_run, (run_add _ k1 _ _ _ Hrun1), (run_add _ k2 _ _ _ Hrun2).
  exact Hend.
Qed.

Lemma run_terminates_witness :
  exists k, (k <= 18)%nat /\ ended (main demo_config demo_env demo_files k) = true.
Proof.
  apply (run_terminates demo_config demo_env demo_files).
  - cbn. lia.
  - cbn. lia.
  - exact reuse_input_image_counts.
Defined.

(** ** The text loop stops at the first accepted text *)

Lemma text_rounds_failing config env (gen val : nat -> string) :
  (forall i, text_reply env i = inr (Some (gen i))) ->
  (forall i, text_validation_reply env i = inr (Some (val i))) ->
  forall j w t a,
    state w !! "text_attempt_count" = Some (PInt (Z.of_nat a)) ->
    is_Some (state w !! "planning_output") ->
    is_Some (state w !! "input_text") ->
    executions "text_generation" t = a ->
    executions "text_validation" t = a ->
    (forall i, (a <= i < a + j)%nat -> verdict_pass (val i) = false) ->
    Z.of_nat (a + j) < MAX_TEXT_ATTEMPTS config ->
    exists w' t',
      run (build_graph config env) (2 * j) (mkCfg "text_generation" w t)
      = Running (mkCfg "text_generation" w' t')
      /\ state w' !! "text_attempt_count" = Some (PInt (Z.of_nat (a + j)))
      /\ is_Some (state w' !! "planning_output")
      /\ is_Some (state w' !! "input_text")
      /\ executions "text_generation" t' = (a + j)%nat
      /\ executions "text_validation" t' = (a + j)%nat.
Proof.
  intros Hgen Hval.
  induction j as [|j IH]; intros w t a Hc Hp Hi Hg Hv Hfail Hlt.
  - exists w, t. rewrite Nat.add_0_r. cbn [run Nat.mul]. auto 10.
  - destruct (text_round_retry config env w t (Z.of_nat a) (gen a) (val a)
                Hc Hp Hi)
      as (w1 & Hrun1 & Hc1 & Hp1 & Hi1 & _).
    + rewrite Hg. apply Hgen.
    + rewrite Hv. apply Hval.
    + apply Hfail. lia.
    + lia.
    + set (t1 := Routed "text_validation" "retry"
                   :: Exec "text_validation" :: Exec "text_generation" :: t) in *.
      assert (Hc1' : state w1 !! "text_attempt_count"
                     = Some (PInt (Z.of_nat (S a)))).
      { rewrite Hc1. do 2 f_equal. lia. }
      assert (Hg1 : executions "text_generation" t1 = S a).
      { subst t1. rewrite executions_routed.
        rewrite executions_exec_other by discriminate.
        rewrite executions_exec_same, Hg. reflexivity. }
      assert (Hv1 : executions "text_validation" t1 = S a).
      { subst t1. rewrite executions_routed.
        rewrite executions_exec_same.
        rewrite executions_exec_other by discriminate.
        rewrite Hv. reflexivity. }
      assert (Hfail1 : forall i, (S a <= i < S a + j)%nat ->
                                 verdict_pass (val i) = false).
      { intros i Hi'. apply Hfail. lia. }
      assert (Hlt1 : Z.of_nat (S a + j) < MAX_TEXT_ATTEMPTS config) by lia.
      destruct (IH w1 t1 (S a) Hc1' Hp1 Hi1 Hg1 Hv1 Hfail1 Hlt1)
        as (w' & t' & Hrun & Hc' & Hp' & Hi'' & Hg' & Hv').
      exists w', t'.
      replace (2 * S j)%nat with (2 + 2 * j)%nat by lia.
      rewrite (run_add _ 2 _ _ _ Hrun1), Hrun.
      replace (a + S j)%nat with (S a + j)%nat by lia. auto 10.
Qed.

(** X17. The text loop stops at the first text the validator accepts: if
    the validator rejects the first [k] texts and accepts the next one, and
    [k + 1] attempts are allowed, then after exactly [k + 1] executions of
    the generation stage the run goes on to the image generation stage,
    the counter is [k + 1], and the best text is the accepted one, not an
    earlier draft. *)
Theorem text_loop_stops_at_first_pass
    (config : Config) (env : Env) (w : World) (t : list event)
    (gen val : nat -> string) (k : nat) :
  state w !! "text_attempt_count" = Some (PInt 0) ->
  is_Some (state w !! "planning_output") ->
  is_Some (state w !! "input_text") ->
  executions "text_generation" t = O ->
  executions "text_validation" t = O ->
  (forall i, text_reply env i = inr (Some (gen i))) ->
  (forall i, text_validation_reply env i = inr (Some (val i))) ->
  (forall i, (i < k)%nat -> verdict_pass (val i) = false) ->
  verdict_pass (val k) = true ->
  Z.of_nat k < MAX_TEXT_ATTEMPTS config ->
  exists w' t',
    run (build_graph config env) (2 * S k) (mkCfg "text_generation" w t)
    = Running (mkCfg "image_generation" w'
                 (Routed "text_validation" "continue" :: t'))
    /\ executions "text_generation" t' = S k
    /\ state w' !! "text_attempt_count" = Some (PInt (Z.of_nat k + 1))
    /\ best_of w' "best_text" = PStr (gen k).
Proof.
  intros Hc Hp Hi Hg Hv Hgen Hval Hfail Hpass Hlt.
  destruct (text_rounds_failing config env gen val Hgen Hval k w t O
              Hc Hp Hi Hg Hv ltac:(intros i Hi'; apply Hfail; lia) ltac:(lia))
    as (w1 & t1 & Hrun1 & Hc1 & Hp1 & Hi1 & Hg1 & Hv1).
  cbn [Nat.add] in *.
  destruct (text_round config env w1 t1 (Z.of_nat k) (gen k) (val k)
              Hc1 Hp1 Hi1)
    as (w' & Hrun & Hc' & _ & _ & Hbest).
  - rewrite Hg1. apply Hgen.
  - rewrite Hv1. apply Hval.
  - rewrite Hpass in Hrun, Hbest.
    change (spec_route (Z.of_nat k + 1) (MAX_TEXT_ATTEMPTS config) true)
      with "continue" in Hrun.
    cbn [String.eqb Ascii.eqb Bool.eqb] in Hrun.
    exists w'. eexists.
    replace (2 * S k)%nat with (2 * k + 2)%nat by lia.
    rewrite (run_add _ _ 2 _ _ Hrun1).
    split; [exact Hrun|].
    split.
    { rewrite executions_exec_other by discriminate.
      rewrite executions_exec_same, Hg1. reflexivity. }
    split; [exact Hc'|].
    rewrite Hbest. apply spec_recordAttempt_passed.
Qed.

Lemma text_loop_stops_at_first_pass_witness :
  exists w' t',
    run (build_graph demo_config second_text_env) 4
      (mkCfg "text_generation" (mkWorld demo_planned demo_files) [])
    = Running (mkCfg "image_generation" w'
                 (Routed "text_validation" "continue" :: t'))
    /\ state w' !! "text_attempt_count" = Some (PInt 2)
    /\ best_of w' "best_text" = PStr "HEADLINE: draft 1".
Proof.
  destruct (text_loop_stops_at_first_pass demo_config second_text_env
              (mkWorld demo_planned demo_files) []
              (fun i => "HEADLINE: draft " +:+ pretty i)
              (fun i => if Nat.eqb i 1 then "VALIDATION: PASS"
                        else "VALIDATION: FAIL")
              1%nat)
    as (w' & t' & Hrun & _ & Hc & Hbest).
  - reflexivity.
  - eexists. reflexivity.
  - eexists. reflexivity.
  - reflexivity.
  - reflexivity.
  - intros i. reflexivity.
  - intros i. reflexivity.
  - intros i Hi. destruct i as [|i]; [reflexivity | lia].
  - reflexivity.
  - cbn. lia.
  - exists w', t'. split; [exact Hrun|]. split; [exact Hc | exact Hbest].
Defined.

(** ** How often a generation stage is executed *)

Lemma executions_app node l t :
  executions node (l ++ t) = (executions node l + executions node t)%nat.
Proof.
  induction l as [|ev l IH]; [reflexivity|].
  cbn [app executions]. rewrite IH. lia.
Qed.

(** A step extends the trace by the execution of the current node and, after
    a router, by the label it chose. *)
Lemma step_trace g c node :
  is_invalid (step g c) = false ->
  executions node (status_trace (step g c))
  = ((if String.eqb (at_node c) node then 1 else 0)
     + executions node (trace c))%nat.
Proof.
  unfold step.
  destruct (assoc (at_node c) (nodes g)) as [f|]; [|discriminate].
  destruct (f _ (world c)) as [[] w|e w]; [|reflexivity].
  destruct (assoc (at_node c) (conditional_edges g)) as [[router targets]|].
  - destruct (router w) as [label w'|e w']; [|reflexivity].
    destruct (assoc label targets) as [target|]; [|discriminate].
    unfold goto. destruct (String.eqb target END); reflexivity.
  - destruct (assoc (at_node c) (edges g)) as [target|]; [|discriminate].
    unfold goto. destruct (String.eqb target END); reflexivity.
Qed.

Lemma run_last g c0 fuel :
  forall c,
    reachable g c0 c ->
    (exists c', reachable g c0 c' /\ run g fuel c = Running c')
    \/ (exists c', reachable g c0 c' /\ run g fuel c = step g c').
Proof.
  induction fuel as [|fuel IH]; intros c Hc.
  - left. exists c. split; [exact Hc | reflexivity].
  - cbn [run]. destruct (step g c) as [c1| | |] eqn:Hs.
    + apply IH. apply (reachable_step _ _ c); assumption.
    + right. exists c. rewrite Hs. auto.
    + right. exists c. rewrite Hs. auto.
    + right. exists c. rewrite Hs. auto.
Qed.

Lemma executions_bounded g c0 node bound :
  0 <= bound ->
  executions node (trace c0) = O ->
  (forall c, reachable g c0 c -> at_node c = node ->
             Z.of_nat (executions node (trace c)) < bound) ->
  forall fuel,
    Z.of_nat (executions node (status_trace (run g fuel c0))) <= bound.
Proof.
  intros Hbound Hstart Hat.
  assert (Hstep : forall c,
    Z.of_nat (executions node (trace c)) <= bound ->
    reachable g c0 c ->
    Z.of_nat (executions node (status_trace (step g c))) <= bound).
  { intros c Hle Hc.
    destruct (is_invalid (step g c)) eqn:Hinv.
    - destruct (step g c); try discriminate. cbn. exact Hbound.
    - rewrite (step_trace g c node Hinv).
      destruct (String.eqb_spec (at_node c) node) as [Heq|_]; [|exact Hle].
      specialize (Hat c Hc Heq). lia. }
  assert (Hreach : forall c, reachable g c0 c ->
    Z.of_nat (executions node (trace c)) <= bound).
  { intros c Hc. induction Hc as [|c c' Hc IH Hs].
    - rewrite Hstart. exact Hbound.
    - specialize (Hstep c IH Hc). rewrite Hs in Hstep. exact Hstep. }
  intros fuel.
  destruct (run_last g c0 fuel c0 (reachable_start g c0))
    as [(c & Hc & ->)|(c & Hc & ->)].
  - apply Hreach, Hc.
  - apply Hstep; [apply Hreach|]; exact Hc.
Qed.

(** X18. The generation stages are called a bounded number of times. In
    every run, however long and whatever the collaborators answer or
    raise, the text generation stage is executed at most MAX_TEXT_ATTEMPTS
    times; the image generation stage is executed at most
    MAX_IMAGE_ATTEMPTS times, provided it counts its attempts. This holds
    of the trace of a run in progress, finished or aborted. *)
Theorem generation_stages_bounded
    (config : Config) (env : Env) (fs : gmap string string) (fuel : nat) :
  (1 <= MAX_TEXT_ATTEMPTS config ->
   Z.of_nat (executions "text_generation"
               (status_trace (main config env fs fuel)))
   <= MAX_TEXT_ATTEMPTS config)
  /\ (1 <= MAX_IMAGE_ATTEMPTS config ->
      counts_image_attempt (image_generation_agent env) ->
      Z.of_nat (executions "image_generation"
                  (status_trace (main config env fs fuel)))
      <= MAX_IMAGE_ATTEMPTS config).
Proof.
  rewrite main_run. split.
  - intros Hmax. apply executions_bounded; [lia | reflexivity|].
    intros c Hc Hat.
    destruct (text_loop_inv_reachable config env fs c Hmax Hc) as (_ & Hgen & _).
    destruct (Hgen Hat) as (n & [_ Hn] & Hlt). lia.
  - intros Hmax Hcounts. apply executions_bounded; [lia | reflexivity|].
    intros c Hc Hat.
    destruct (image_loop_inv_reachable config env fs c Hmax Hcounts Hc)
      as (_ & Hgen & _).
    destruct (Hgen Hat) as (n & [_ Hn] & Hlt). lia.
Qed.

Lemma generation_stages_bounded_witness :
  Z.of_nat (executions "text_generation"
              (status_trace (main demo_config demo_env demo_files 30))) <= 3
  /\ Z.of_nat (executions "image_generation"
                 (status_trace (main demo_config demo_env demo_files 30))) <= 3.
Proof.
  split.
  - apply (proj1 (generation_stages_bounded demo_config demo_env demo_files 30)).
    cbn. lia.
  - apply (proj2 (generation_stages_bounded demo_config demo_env demo_files 30)).
    + cbn. lia.
    + exact reuse_input_image_counts.
Defined.

(** ** One round of the image loop *)

(** X19. The route after an image validation depends on the verdict and
    the counter only: with the inputs of the editor in place and the
    counter at [n], the run goes on to the segmentation stage when the
    response carries the pass marker or [n] has reached
    MAX_IMAGE_ATTEMPTS, and back to the image generation stage otherwise;
    whether the logo was found integrated changes the feedback, never the
    route. *)
Theorem image_round_routing
    (config : Config) (env : Env) (w : World) (t : list event) (n : Z)
    (v cur logo cur_bytes logo_bytes : string) (p i : pyval) :
  state w !! "current_image" = Some (PStr cur) ->
  state w !! "input_image_path" = Some (PStr logo) ->
  files w !! cur = Some cur_bytes ->
  files w !! logo = Some logo_bytes ->
  state w !! "planning_output" = Some p ->
  state w !! "input_text" = Some i ->
  state w !! "image_attempt_count" = Some (PInt n) ->
  image_validation_reply env (executions "image_validation" t) = inr (Some v) ->
  exists w',
    step (build_graph config env) (mkCfg "image_validation" w t)
    = Running
        (mkCfg
           (if verdict_pass v || (MAX_IMAGE_ATTEMPTS config <=? n)
            then "segmentation" else "image_generation")
           w'
           (Routed "image_validation"
              (spec_route n (MAX_IMAGE_ATTEMPTS config) (verdict_pass v))
            :: Exec "image_validation" :: t))
    /\ state w' !! "validation_feedback"
       = Some (PStr (if verdict_logo v then v else v +:+ logo_remediation))
    /\ state w' !! "image_attempt_count" = Some (PInt n).
Proof.
  intros Hcur Hlogo Hcb Hlb Hp Hi Hn Hreply. destruct w as [st fs].
  cbn [state files] in *.
  destruct (editor_agent_feedback v st fs cur logo cur_bytes logo_bytes p i
              Hcur Hlogo Hcb Hlb Hp Hi) as (w' & Hrun & Hpass & Hfeed).
  pose proof (editor_agent_frame (inr (Some v)) (mkWorld st fs) "image_attempt_count"
                ltac:(discriminate) ltac:(discriminate) ltac:(discriminate))
    as Hframe.
  rewrite Hrun in Hframe. cbn [final_world state] in Hframe.
  exists w'. split; [|split; [exact Hfeed | rewrite Hframe; exact Hn]].
  rewrite step_image_validation, Hreply, Hrun. cbn [routed_step].
  rewrite (should_retry_image_route config w' n (verdict_pass v)).
  - unfold spec_route.
    destruct (verdict_pass v); [reflexivity|].
    destruct (MAX_IMAGE_ATTEMPTS config <=? n); reflexivity.
  - rewrite Hframe. exact Hn.
  - rewrite Hpass. reflexivity.
Qed.

Lemma image_round_routing_witness :
  exists w',
    step (build_graph demo_config demo_env)
      (mkCfg "image_validation" (mkWorld demo_imaged demo_files) [])
    = Running
        (mkCfg "image_generation" w'
           [Routed "image_validation" "retry"; Exec "image_validation"]).
Proof.
  destruct (image_round_routing demo_config demo_env
              (mkWorld demo_imaged demo_files) [] 1
              "VALIDATION: FAIL LOGO_INTEGRATED: YES"
              "intermediate_outputs/image_attempt1.png" "input.png"
              "image 1" "logo" (PStr "TEXT REQUIREMENTS: a headline")
              (PStr "Tech Conference 2024")
              eq_refl eq_refl eq_refl eq_refl eq_refl eq_refl eq_refl eq_refl)
    as (w' & Hstep & _).
  exists w'. exact Hstep.
Defined.

(** * Further properties of the response parser *)

(** ** Splitting at the first occurrence *)

Lemma app_empty_r (s : string) : s +:+ "" = s.
Proof.
  induction s as [|c s IH]; [reflexivity|].
  change (String c (s +:+ "") = String c s). rewrite IH. reflexivity.
Qed.

Lemma app_assoc_string (a b c : string) : (a +:+ b) +:+ c = a +:+ b +:+ c.
Proof.
  induction a as [|x a IH]; [reflexivity|].
  change (String x ((a +:+ b) +:+ c) = String x (a +:+ b +:+ c)).
  rewrite IH. reflexivity.
Qed.

Lemma rev_app_rev_app (a : string) :
  forall b c, String.rev_app (String.rev_app a b) c = String.rev_app b (a +:+ c).
Proof.
  induction a as [|x a IH]; intros b c; [reflexivity|].
  cbn [String.rev_app]. rewrite IH. reflexivity.
Qed.

Lemma rev_rev_app (s : string) : String.rev (String.rev_app s "") = s.
Proof.
  unfold String.rev. rewrite rev_app_rev_app. cbn [String.rev_app].
  apply app_empty_r.
Qed.

Lemma split_go_prefix sep pre :
  forall piece rest,
    absent_before sep (String.length pre) (pre +:+ rest) = true ->
    Str.split_go sep O piece (pre +:+ rest)
    = Str.split_go sep O (String.rev_app pre piece) rest.
Proof.
  induction pre as [|c pre IH]; intros piece rest H; [reflexivity|].
  change (String c pre +:+ rest) with (String c (pre +:+ rest)) in *.
  cbn [String.length absent_before] in H.
  apply andb_true_iff in H as [Hst H]. apply negb_true_iff in Hst.
  cbn [Str.split_go]. rewrite Hst. cbn [String.rev_app]. apply IH. exact H.
Qed.

Lemma split_go_skip sep p :
  forall piece rest,
    Str.split_go sep (String.length p) piece (p +:+ rest)
    = Str.split_go sep O piece rest.
Proof.
  induction p as [|c p IH]; intros piece rest; [reflexivity|].
  change (String c p +:+ rest) with (String c (p +:+ rest)).
  cbn [String.length Str.split_go]. apply IH.
Qed.

Lemma split_go_at_sep sep piece rest :
  sep <> "" ->
  Str.split_go sep O piece (sep +:+ rest)
  = String.rev piece :: Str.split_go sep O "" rest.
Proof.
  intros Hsep. pose proof (startswith_app sep rest) as Hst.
  destruct sep as [|c sep]; [congruence|].
  change (String c sep +:+ rest) with (String c (sep +:+ rest)) in *.
  cbn [Str.split_go]. rewrite Hst. cbn [String.length].
  rewrite Nat.sub_1_r. cbn [Nat.pred]. rewrite split_go_skip. reflexivity.
Qed.

Lemma split_go_absent sep :
  forall s piece,
    Str.contains sep s = false ->
    Str.split_go sep O piece s = [String.rev (String.rev_app s piece)].
Proof.
  induction s as [|c s IH]; intros piece H; [reflexivity|].
  rewrite contains_cons in H. apply orb_false_iff in H as [Hst H].
  cbn [Str.split_go]. rewrite Hst. cbn [String.rev_app]. apply IH. exact H.
Qed.

(** [s.split(sep)] cuts at the first occurrence of [sep]. *)
Lemma split_first sep pre rest :
  sep <> "" ->
  absent_before sep (String.length pre) (pre +:+ sep +:+ rest) = true ->
  Str.split sep (pre +:+ sep +:+ rest) = pre :: Str.split sep rest.
Proof.
  intros Hsep H. unfold Str.split.
  rewrite split_go_prefix by exact H.
  rewrite split_go_at_sep by exact Hsep.
  rewrite rev_rev_app. reflexivity.
Qed.

(** [s.split(sep)] is [[s]] when [sep] does not occur. *)
Lemma split_absent sep s :
  Str.contains sep s = false -> Str.split sep s = [s].
Proof.
  intros H. unfold Str.split. rewrite split_go_absent by exact H.
  rewrite rev_rev_app. reflexivity.
Qed.

Lemma absent_before_drop sep p :
  forall n s,
    absent_before sep (String.length p + n) (p +:+ s) = true ->
    absent_before sep n s = true.
Proof.
  induction p as [|c p IH]; intros n s H; [exact H|].
  change (String c p +:+ s) with (String c (p +:+ s)) in H.
  cbn [String.length Nat.add absent_before] in H.
  apply andb_true_iff in H as [_ H]. apply IH. exact H.
Qed.

(** ** The fields of a response in the expected format *)

Lemma parse_validation_result_format lines found remedy verdict :
  absent_before "FOUND_TEXT:" (String.length lines)
    (overlay_response lines found remedy verdict) = true ->
  Str.contains "FOUND_TEXT:" (found_and_rest found remedy verdict) = false ->
  absent_before "SPECIFIC_FIX:"
    (String.length (lines +:+ "FOUND_TEXT:") + String.length found)
    (overlay_response lines found remedy verdict) = true ->
  Str.contains "SPECIFIC_FIX:" (fix_and_verdict remedy verdict) = false ->
  absent_before "VALIDATION:" (String.length remedy)
    (fix_and_verdict remedy verdict) = true ->
  forall w,
    parse_validation_result (overlay_response lines found remedy verdict) w
    = Ok (mkParsed
            (verdict_approved (overlay_response lines found remedy verdict))
            (Str.contains "TEXT_CORRECT: YES"
               (Str.upper (overlay_response lines found remedy verdict)))
            (Str.contains "TEXT_CLEAR: YES"
               (Str.upper (overlay_response lines found remedy verdict)))
            (PStr (Str.strip found)) (PStr (Str.strip remedy))) w.
Proof.
  intros Hfound Hfound_once Hfix Hfix_once Hverdict w.
  set (r := overlay_response lines found remedy verdict) in *.
  set (rest1 := found_and_rest found remedy verdict) in *.
  set (rest2 := fix_and_verdict remedy verdict) in *.
  assert (Hr1 : r = lines +:+ "FOUND_TEXT:" +:+ rest1) by reflexivity.
  assert (Hr1' : r = (lines +:+ "FOUND_TEXT:") +:+ rest1).
  { rewrite Hr1, app_assoc_string. reflexivity. }
  assert (Hrest1 : rest1 = found +:+ "SPECIFIC_FIX:" +:+ rest2) by reflexivity.
  assert (Hrest2 : rest2 = remedy +:+ "VALIDATION:" +:+ verdict) by reflexivity.
  assert (Hr2 : r = ((lines +:+ "FOUND_TEXT:") +:+ found)
                    +:+ "SPECIFIC_FIX:" +:+ rest2).
  { rewrite Hr1', Hrest1, !app_assoc_string. reflexivity. }
  assert (Hc1 : Str.contains "FOUND_TEXT:" r = true).
  { rewrite Hr1. apply contains_app_r, contains_app_l. }
  assert (Hc2 : Str.contains "SPECIFIC_FIX:" r = true).
  { rewrite Hr2. apply contains_app_r, contains_app_l. }
  assert (Hs1 : Str.split "FOUND_TEXT:" r = [lines; rest1]).
  { rewrite Hr1, split_first; [|discriminate|rewrite <- Hr1; exact Hfound].
    rewrite split_absent by exact Hfound_once. reflexivity. }
  assert (Hc3 : Str.contains "SPECIFIC_FIX:" rest1 = true).
  { rewrite Hrest1. apply contains_app_r, contains_app_l. }
  assert (Hs2 : exists l, Str.split "SPECIFIC_FIX:" rest1 = found :: l).
  { rewrite Hrest1, split_first; [eauto | discriminate|].
    rewrite <- Hrest1.
    apply (absent_before_drop _ (lines +:+ "FOUND_TEXT:")).
    rewrite <- Hr1'. exact Hfix. }
  destruct Hs2 as [l Hs2].
  assert (Hs3 : Str.split "SPECIFIC_FIX:" r
                = [(lines +:+ "FOUND_TEXT:") +:+ found; rest2]).
  { rewrite Hr2, split_first; [|discriminate|].
    - rewrite split_absent by exact Hfix_once. reflexivity.
    - rewrite <- Hr2, length_app. exact Hfix. }
  assert (Hc4 : Str.contains "VALIDATION:" rest2 = true).
  { rewrite Hrest2. apply contains_app_r, contains_app_l. }
  assert (Hs4 : exists l', Str.split "VALIDATION:" rest2 = remedy :: l').
  { rewrite Hrest2, split_first; [eauto | discriminate|].
    rewrite <- Hrest2. exact Hverdict. }
  destruct Hs4 as [l' Hs4].
  clearbody r rest1 rest2.
  unfold parse_validation_result, verdict_approved.
  rewrite Hc1, Hc2, Hs1, Hs3. mgo. cbn [lookup list_lookup]. mgo.
  cbn [cut_at_first]. rewrite Hc3. mgo. rewrite Hs2. cbn [lookup list_lookup].
  mgo. rewrite Hc4. mgo. rewrite Hs4. cbn [lookup list_lookup]. mgo.
  reflexivity.
Qed.

(** X20. On a response in the format the prompt asks for, the overlay
    validation stage extracts the two text fields: if FOUND_TEXT:,
    SPECIFIC_FIX: and VALIDATION: stand in this order, the first two
    occurring once, then [found_text] is what stands between FOUND_TEXT:
    and SPECIFIC_FIX: and [specific_fix] is what stands between
    SPECIFIC_FIX: and VALIDATION:, both without their surrounding white
    space. *)
Theorem overlay_fields_extracted
    (lines found remedy verdict : string) (st : gmap string pyval)
    (fs : gmap string string) (poster bytes : string) :
  absent_before "FOUND_TEXT:" (String.length lines)
    (overlay_response lines found remedy verdict) = true ->
  Str.contains "FOUND_TEXT:" (found_and_rest found remedy verdict) = false ->
  absent_before "SPECIFIC_FIX:"
    (String.length (lines +:+ "FOUND_TEXT:") + String.length found)
    (overlay_response lines found remedy verdict) = true ->
  Str.contains "SPECIFIC_FIX:" (fix_and_verdict remedy verdict) = false ->
  absent_before "VALIDATION:" (String.length remedy)
    (fix_and_verdict remedy verdict) = true ->
  st !! "poster_with_text" = Some (PStr poster) ->
  fs !! poster = Some bytes ->
  exists p w',
    (forall w,
       parse_validation_result (overlay_response lines found remedy verdict) w
       = Ok p w)
    /\ found_text p = PStr (Str.strip found)
    /\ specific_fix p = PStr (Str.strip remedy)
    /\ text_validation_agent (inr (Some (overlay_response lines found remedy verdict)))
         (mkWorld st fs) = Ok tt w'
    /\ state w' !! "found_text" = Some (PStr (Str.strip found))
    /\ state w' !! "specific_fix" = Some (PStr (Str.strip remedy)).
Proof.
  intros H1 H2 H3 H4 H5 Hp Hf.
  pose proof (parse_validation_result_format lines found remedy verdict
                H1 H2 H3 H4 H5) as Hparse.
  eexists. eexists. split; [exact Hparse|].
  split; [reflexivity|]. split; [reflexivity|].
  rewrite (text_validation_agent_run _ st fs poster bytes _ Hp Hf Hparse).
  split; [reflexivity|]. cbn [state found_text specific_fix].
  unfold store_text_validation.
  split; repeat mlook1; reflexivity.
Qed.

Lemma overlay_fields_extracted_witness :
  exists w',
    text_validation_agent (inr (Some demo_response)) (mkWorld demo_rendered demo_files)
    = Ok tt w'
    /\ state w' !! "found_text" = Some (PStr "Jion Us")
    /\ state w' !! "specific_fix" = Some (PStr "Change Jion to Join").
Proof.
  destruct (overlay_fields_extracted "TEXT_CORRECT: NO
TEXT_CLEAR: YES
" " Jion Us
" " Change Jion to Join
" " REJECTED" demo_rendered demo_files
              "intermediate_outputs/poster_with_text.png" "poster"
              eq_refl eq_refl eq_refl eq_refl eq_refl eq_refl eq_refl)
    as (p & w' & _ & _ & _ & Hrun & Hfound & Hfix).
  exists w'. split; [exact Hrun|]. split; [exact Hfound | exact Hfix].
Defined.

(** ** Letter case in the responses *)

Lemma upper_ascii_idempotent c :
  Str.upper_ascii (Str.upper_ascii c) = Str.upper_ascii c.
Proof.
  destruct c as [[] [] [] [] [] [] [] []]; reflexivity.
Qed.

Lemma upper_idempotent s : Str.upper (Str.upper s) = Str.upper s.
Proof.
  induction s as [|c s IH]; [reflexivity|].
  cbn [Str.upper]. rewrite upper_ascii_idempotent, IH. reflexivity.
Qed.

Lemma parse_validation_result_flags r p :
  (forall w, parse_validation_result r w = Ok p w) ->
  validation_approved p = verdict_approved r
  /\ text_is_correct p = Str.contains "TEXT_CORRECT: YES" (Str.upper r)
  /\ text_is_clear p = Str.contains "TEXT_CLEAR: YES" (Str.upper r)
  /\ (Str.contains "FOUND_TEXT:" r = false -> found_text p = PNone)
  /\ (Str.contains "FOUND_TEXT:" r = true -> exists x, found_text p = PStr x)
  /\ (Str.contains "SPECIFIC_FIX:" r = false -> specific_fix p = PNone)
  /\ (Str.contains "SPECIFIC_FIX:" r = true -> exists x, specific_fix p = PStr x).
Proof.
  intros Hparse. specialize (Hparse (mkWorld ∅ ∅)). revert Hparse.
  unfold parse_validation_result, verdict_approved.
  mgo. repeat (mcase; mgo); intros H; try discriminate.
  all: injection H as <-; cbn [validation_approved text_is_correct text_is_clear
                               found_text specific_fix].
  all: repeat split; try reflexivity; intros; try discriminate; eauto.
Qed.

(** X21. The overlay parser reads its verdict flags in any letter case but
    its text fields only under upper-case labels: writing a response in
    upper case never changes the three flags, while a response whose
    FOUND_TEXT: or SPECIFIC_FIX: label is not in upper case yields no such
    field, although its upper-case copy does. *)
Theorem overlay_labels_case_sensitive (r : string) :
  exists p p',
    (forall w, parse_validation_result r w = Ok p w)
    /\ (forall w, parse_validation_result (Str.upper r) w = Ok p' w)
    /\ validation_approved p' = validation_approved p
    /\ text_is_correct p' = text_is_correct p
    /\ text_is_clear p' = text_is_clear p
    /\ (Str.contains "FOUND_TEXT:" r = false -> found_text p = PNone)
    /\ (Str.contains "SPECIFIC_FIX:" r = false -> specific_fix p = PNone)
    /\ (Str.contains "FOUND_TEXT:" (Str.upper r) = true ->
        exists x, found_text p' = PStr x)
    /\ (Str.contains "SPECIFIC_FIX:" (Str.upper r) = true ->
        exists x, specific_fix p' = PStr x).
Proof.
  destruct (parse_validation_result_total r) as [p Hp].
  destruct (parse_validation_result_total (Str.upper r)) as [p' Hp'].
  exists p, p'. split; [exact Hp|]. split; [exact Hp'|].
  destruct (parse_validation_result_flags r p Hp)
    as (Ha & Hc & Hl & Hf0 & _ & Hx0 & _).
  destruct (parse_validation_result_flags (Str.upper r) p' Hp')
    as (Ha' & Hc' & Hl' & _ & Hf1 & _ & Hx1).
  unfold verdict_approved in *. rewrite upper_idempotent in Ha', Hc', Hl'.
  split; [congruence|]. split; [congruence|]. split; [congruence|].
  auto.
Qed.

Lemma overlay_labels_case_sensitive_witness :
  exists p p',
    (forall w, parse_validation_result "found_text: Join Us" w = Ok p w)
    /\ (forall w, parse_validation_result "FOUND_TEXT: JOIN US" w = Ok p' w)
    /\ found_text p = PNone
    /\ exists x, found_text p' = PStr x.
Proof.
  destruct (overlay_labels_case_sensitive "found_text: Join Us")
    as (p & p' & Hp & Hp' & _ & _ & _ & Hnone & _ & Hsome & _).
  exists p, p'. split; [exact Hp|]. split; [exact Hp'|].
  split; [apply Hnone; reflexivity | apply Hsome; reflexivity].
Defined.

(** * The set-up check *)

Ltac vrun :=
  cbv beta iota zeta delta
    [VerifySetup.main VerifySetup.check_file VerifySetup.check_directory
     VerifySetup.print mbind mret VerifySetup.P_bind VerifySetup.P_ret
     negb andb fst snd].

Ltac case_file p :=
  match goal with
  | |- context [VerifySetup.os_path_exists ?d p] =>
      destruct (VerifySetup.os_path_exists d p); cbv beta iota;
      try reflexivity
  end.

Ltac case_dir p :=
  match goal with
  | |- context [VerifySetup.os_path_isdir ?d p] =>
      destruct (VerifySetup.os_path_isdir d p); cbv beta iota;
      try reflexivity
  end.

(** X22. The set-up check fails exactly when something required is
    missing: it ends by [sys.exit(1)] when one of the twelve required
    files (the [.env] file among them) or one of the two output directories
    does not exist, and returns otherwise. The input files and the
    documentation are reported but never decide how the script ends. *)
Theorem verify_setup_ending (d : VerifySetup.Disk) :
  fst (VerifySetup.main d [])
  = if setup_complete d then VerifySetup.Returned else VerifySetup.Exited 1.
Proof.
  unfold setup_complete, required_files, required_dirs. cbn [forallb].
  vrun.
  destruct (VerifySetup.os_path_exists d ".env") eqn:Henv;
    destruct (VerifySetup.os_path_exists d "input.txt") eqn:Htext;
    destruct (VerifySetup.os_path_exists d "input.png") eqn:Himage;
    vrun.
  all: case_file "main.py"; case_file "state.py"; case_file "config.py";
    case_file "requirements.txt"; case_file "agents/__init__.py";
    case_file "agents/planning_agent.py";
    case_file "agents/text_generation_agent.py";
    case_file "agents/editor_agent.py";
    case_file "agents/image_generation_agent.py";
    case_file "agents/text_adding_agent.py"; case_file ".env.example";
    case_dir "outputs"; case_dir "intermediate_outputs".
Qed.

(** ** What the report contains *)

Lemma extends_output_print line : extends_output (VerifySetup.print line).
Proof. intros out x H. cbn. apply in_or_app. left. exact H. Qed.

Lemma extends_output_ret {A} (a : A) : extends_output (VerifySetup.P_ret A a).
Proof. intros out x H. exact H. Qed.

Lemma extends_output_bind {A B} (m : VerifySetup.P A) (k : A -> VerifySetup.P B) :
  extends_output m -> (forall a, extends_output (k a)) ->
  extends_output (VerifySetup.P_bind A B k m).
Proof.
  intros Hm Hk out x H. unfold VerifySetup.P_bind.
  specialize (Hm out x H). destruct (m out) as [a out']. apply Hk. exact Hm.
Qed.

Lemma extends_output_if {A} (b : bool) (m1 m2 : VerifySetup.P A) :
  extends_output m1 -> extends_output m2 ->
  extends_output (if b then m1 else m2).
Proof. destruct b; auto. Qed.

Lemma emits_print line : emits (VerifySetup.print line) line.
Proof. intros out. cbn. apply in_or_app. right. left. reflexivity. Qed.

Lemma emits_bind_l {A B} (m : VerifySetup.P A) (k : A -> VerifySetup.P B) line :
  emits m line -> (forall a, extends_output (k a)) ->
  emits (VerifySetup.P_bind A B k m) line.
Proof.
  intros Hm Hk out. unfold VerifySetup.P_bind.
  specialize (Hm out). destruct (m out) as [a out']. apply Hk. exact Hm.
Qed.

Lemma emits_bind_r {A B} (m : VerifySetup.P A) (k : A -> VerifySetup.P B) line :
  (forall a, emits (k a) line) -> emits (VerifySetup.P_bind A B k m) line.
Proof.
  intros Hk out. unfold VerifySetup.P_bind.
  destruct (m out) as [a out']. apply Hk.
Qed.

Lemma extends_output_check_file d path description :
  extends_output (VerifySetup.check_file d path description).
Proof.
  apply extends_output_bind; [apply extends_output_print|].
  intros _. apply extends_output_ret.
Qed.

Lemma extends_output_check_directory d path description :
  extends_output (VerifySetup.check_directory d path description).
Proof.
  apply extends_output_bind; [apply extends_output_print|].
  intros _. apply extends_output_ret.
Qed.

Lemma emits_check_file d path description :
  emits (VerifySetup.check_file d path description)
    (report_line (VerifySetup.os_path_exists d path) description path).
Proof.
  apply emits_bind_l; [apply emits_print|].
  intros _. apply extends_output_ret.
Qed.

Lemma emits_check_directory d path description :
  emits (VerifySetup.check_directory d path description)
    (report_line (VerifySetup.os_path_isdir d path) description path).
Proof.
  apply emits_bind_l; [apply emits_print|].
  intros _. apply extends_output_ret.
Qed.

Ltac extend_all :=
  repeat lazymatch goal with
    | |- extends_output (VerifySetup.check_file _ _ _) =>
        apply extends_output_check_file
    | |- extends_output (VerifySetup.check_directory _ _ _) =>
        apply extends_output_check_directory
    | |- extends_output (VerifySetup.print _) => apply extends_output_print
    | |- extends_output (VerifySetup.P_ret _ _) => apply extends_output_ret
    | |- extends_output (if _ then _ else _) => apply extends_output_if
    | |- extends_output (VerifySetup.P_bind _ _ _ _) =>
        apply extends_output_bind; [|intros ?]
    end.

Ltac emit :=
  lazymatch goal with
  | |- emits (VerifySetup.P_bind _ _ _ (VerifySetup.check_file _ ?p _))
         (report_line (VerifySetup.os_path_exists _ ?p) _ _) =>
      apply emits_bind_l; [apply emits_check_file | intros ?; extend_all]
  | |- emits (VerifySetup.P_bind _ _ _ (VerifySetup.check_directory _ ?p _))
         (report_line (VerifySetup.os_path_isdir _ ?p) _ _) =>
      apply emits_bind_l; [apply emits_check_directory | intros ?; extend_all]
  | |- emits (VerifySetup.P_bind _ _ _ _) _ =>
      apply emits_bind_r; intros ?; emit
  end.

Lemma main_emits_file d path description :
  In (path, description) reported_files ->
  emits (VerifySetup.main d)
    (report_line (VerifySetup.os_path_exists d path) description path).
Proof.
  unfold reported_files. cbn [In]. intros Hin.
  repeat (destruct Hin as [Heq|Hin]; [injection Heq as <- <-|]);
    [..|destruct Hin].
  all: cbv beta zeta delta [VerifySetup.main mbind mret]; emit.
Qed.

Lemma main_emits_directory d path description :
  In (path, description) reported_dirs ->
  emits (VerifySetup.main d)
    (report_line (VerifySetup.os_path_isdir d path) description path).
Proof.
  unfold reported_dirs. cbn [In]. intros Hin.
  repeat (destruct Hin as [Heq|Hin]; [injection Heq as <- <-|]);
    [..|destruct Hin].
  all: cbv beta zeta delta [VerifySetup.main mbind mret]; emit.
Qed.

(** X23. The report is complete: the script prints one status line for
    each of the sixteen files and two directories it knows, whatever it
    found before; a missing file does not stop the later checks. *)
Theorem verify_setup_reports_every_path
    (d : VerifySetup.Disk) (path description : string) :
  (In (path, description) reported_files ->
   In (report_line (VerifySetup.os_path_exists d path) description path)
      (snd (VerifySetup.main d [])))
  /\ (In (path, description) reported_dirs ->
      In (report_line (VerifySetup.os_path_isdir d path) description path)
         (snd (VerifySetup.main d []))).
Proof.
  split; intros Hin.
  - apply (main_emits_file d path description Hin).
  - apply (main_emits_directory d path description Hin).
Qed.

Lemma verify_setup_reports_every_path_witness :
  In "✗ Environment variables: .env" (snd (VerifySetup.main fresh_checkout []))
  /\ In "✓ Output directory: outputs" (snd (VerifySetup.main fresh_checkout [])).
Proof.
  split.
  - apply (proj1 (verify_setup_reports_every_path fresh_checkout
                    ".env" "Environment variables")).
    cbn. tauto.
  - apply (proj2 (verify_setup_reports_every_path fresh_checkout
                    "outputs" "Output directory")).
    cbn. tauto.
Defined.

(** * The routers on incomplete states *)

(** X24. What the routers do when keys are missing. The text and image
    routers read their counter with [state[...]]: with no passed verdict
    and no counter they raise [KeyError]; with a passed verdict they
    continue without looking at the counter. The overlay router reads both
    keys with defaults: on a state that has neither it asks for a retry when
    MAX_TEXT_ADDING_ATTEMPTS is positive, and continues otherwise. *)
Theorem routers_on_missing_keys (config : Config) (w : World) :
  (truthy (default PNone (state w !! "validation_passed")) = false ->
   (state w !! "text_attempt_count" = None ->
    should_retry_text config w = Raise (KeyError "text_attempt_count") w)
   /\ (state w !! "image_attempt_count" = None ->
       should_retry_image config w = Raise (KeyError "image_attempt_count") w))
  /\ (truthy (default PNone (state w !! "validation_passed")) = true ->
      should_retry_text config w = Ok "continue" w
      /\ should_retry_image config w = Ok "continue" w)
  /\ (state w !! "text_adding_attempt_count" = None ->
      state w !! "text_validation_result" = None ->
      should_retry_text_adding config w
      = Ok (if 0 <? MAX_TEXT_ADDING_ATTEMPTS config then "retry" else "continue") w).
Proof.
  destruct w as [st fs]. cbn [state]. split; [|split].
  - intros Hp. split; intros Hc.
    + unfold should_retry_text. mgo. rewrite Hp. mgo. reflexivity.
    + unfold should_retry_image. mgo. rewrite Hp. mgo. reflexivity.
  - intros Hp. split.
    + unfold should_retry_text. mgo. rewrite Hp. reflexivity.
    + unfold should_retry_image. mgo. rewrite Hp. reflexivity.
  - intros Hc Hr. unfold should_retry_text_adding. mgo.
    destruct (0 <? MAX_TEXT_ADDING_ATTEMPTS config); reflexivity.
Qed.

Lemma routers_on_missing_keys_witness :
  should_retry_text demo_config (mkWorld empty_state demo_files)
  = Raise (KeyError "text_attempt_count") (mkWorld empty_state demo_files)
  /\ should_retry_text demo_config
       (mkWorld (<["validation_passed" := PBool true]> empty_state) demo_files)
     = Ok "continue"
         (mkWorld (<["validation_passed" := PBool true]> empty_state) demo_files)
  /\ should_retry_text_adding demo_config (mkWorld empty_state demo_files)
     = Ok "retry" (mkWorld empty_state demo_files).
Proof.
  destruct (routers_on_missing_keys demo_config (mkWorld empty_state demo_files))
    as (Hraise & _ & Hoverlay).
  destruct (routers_on_missing_keys demo_config
              (mkWorld (<["validation_passed" := PBool true]> empty_state)
                 demo_files))
    as (_ & Hcontinue & _).
  split; [|split].
  - apply Hraise; reflexivity.
  - apply Hcontinue; reflexivity.
  - apply Hoverlay; reflexivity.
Defined.
